(** * Perpetual-futures market-making backtest: exchange simulator

    A shallow embedding of [backtest_kline_trajectory.py]
    (the 5-point candle trajectory, [VolatilityMonitor] and
    [FastPerpetualExchange]) together with the properties its
    specification states about them.

    Modelling conventions.
    - A Python [Decimal] is a rational number [Q]; arithmetic is exact (the
      28-digit context rounding of [decimal] is not modelled), numeric
      equality of two Decimals is [Qeq] and the Python tests [==], [<=],
      [<], [>] are the boolean functions of module [Decimal].
    - Python [float] code ([get_price_trajectory*], [VolatilityMonitor]) is
      embedded over an arbitrary number type whose primitive operations are
      section variables, so nothing is assumed about float arithmetic.
    - A method that mutates [self] is a function from the old object to the
      new one; a method that can raise returns a [result].
    - [print] calls have no effect on the object and are left out. *)

From Stdlib Require Import ZArith QArith Qabs List Sorted Permutation String
  Bool Lia Lqa.
Import ListNotations.

Local Open Scope Z_scope.

(** ** Exceptions *)

Inductive exn : Type :=
| ValueError        (* Timestamp.replace with a day the month lacks *)
| DivisionByZero.   (* Decimal division by zero                     *)

Inductive result (A : Type) : Type :=
| Ok (a : A)
| Raise (e : exn).

Arguments Ok {A} a.
Arguments Raise {A} e.

Definition bind {A B : Type} (m : result A) (k : A -> result B) : result B :=
  match m with
  | Ok a => k a
  | Raise e => Raise e
  end.

Notation "x <- m ;; k" := (bind m (fun x => k))
  (at level 61, m at next level, right associativity).

(** ** Python lists *)

(** [len(l)] *)
Definition len {A : Type} (l : list A) : Z := Z.of_nat (List.length l).

(** [l.pop(0)], used on lists known to be non-empty. *)
Definition pop0 {A : Type} (l : list A) : list A := tl l.

(** ** Decimal values *)

Module Decimal.

Definition t : Type := Q.

(** [a == b] *)
Definition eqb (a b : t) : bool :=
  match (a ?= b)%Q with Eq => true | _ => false end.

(** [a <= b] *)
Definition leb (a b : t) : bool :=
  match (a ?= b)%Q with Gt => false | _ => true end.

(** [a < b] *)
Definition ltb (a b : t) : bool :=
  match (a ?= b)%Q with Lt => true | _ => false end.

(** [a > b] *)
Definition gtb (a b : t) : bool :=
  match (a ?= b)%Q with Gt => true | _ => false end.

(** [a >= b] *)
Definition geb (a b : t) : bool :=
  match (a ?= b)%Q with Lt => false | _ => true end.

(** The builtin [min(a, b)]: [b] when [b < a], else [a]. *)
Definition min (a b : t) : t := if ltb b a then b else a.

(** [a / b]; the default context traps a zero divisor. *)
Definition div (a b : t) : result t :=
  if eqb b 0%Q then Raise DivisionByZero else Ok (a / b)%Q.

(** [Decimal(str(n))] for an [int] *)
Definition of_int (n : Z) : t := inject_Z n.

End Decimal.

(** ** Price trajectory inside one candle

    [get_price_trajectory], [get_price_trajectory_optimized] and
    [get_price_trajectory_vectorized] share one body; they differ in how the
    candle is passed.  The prices are floats: the functions only compare and
    copy them, so they are embedded over any type with a [>=] test. *)

Section Trajectory.

Variable num : Type.
Variable num_ge : num -> num -> bool.   (* Python [a >= b] *)

(** One sample: (price, high_since_open, low_since_open). *)
Definition sample : Type := (num * num * num)%type.

Definition sample_price (p : sample) : num := fst (fst p).
Definition sample_high (p : sample) : num := snd (fst p).
Definition sample_low (p : sample) : num := snd p.

Definition get_price_trajectory_vectorized
           (o h l c prev_close : num) : list sample :=
  if num_ge c o then
    [ (prev_close, prev_close, prev_close);
      (o, o, o);
      (l, o, l);
      (h, h, l);
      (c, h, l) ]
  else
    [ (prev_close, prev_close, prev_close);
      (o, o, o);
      (h, h, o);
      (l, h, l);
      (c, h, l) ].

(** The [row] argument of [get_price_trajectory]: the four columns read. *)
Record kline : Type := mk_kline {
  k_open : num;
  k_high : num;
  k_low : num;
  k_close : num
}.

Definition get_price_trajectory (row : kline) (prev_close : num)
  : list sample :=
  let o := k_open row in
  let h := k_high row in
  let l := k_low row in
  let c := k_close row in
  if num_ge c o then
    [ (prev_close, prev_close, prev_close);
      (o, o, o);
      (l, o, l);
      (h, h, l);
      (c, h, l) ]
  else
    [ (prev_close, prev_close, prev_close);
      (o, o, o);
      (h, h, o);
      (l, h, l);
      (c, h, l) ].

End Trajectory.

Arguments sample_price {num} p.
Arguments sample_high {num} p.
Arguments sample_low {num} p.
Arguments get_price_trajectory_vectorized {num} num_ge o h l c prev_close.
Arguments get_price_trajectory {num} num_ge row prev_close.
Arguments mk_kline {num} _ _ _ _.
Arguments k_open {num} _.
Arguments k_high {num} _.
Arguments k_low {num} _.
Arguments k_close {num} _.

(** ** VolatilityMonitor

    The monitor is fed floats.  Subtraction, [abs], the [>] test used by the
    builtin [max], the builtin [sum] and the division by [len(...)] are the
    primitives of the embedding. *)

Section VolatilityMonitor.

Variable F : Type.
Variable fsub : F -> F -> F.          (* a - b                 *)
Variable fabs : F -> F.               (* abs(a)                *)
Variable fgt : F -> F -> bool.        (* a > b                 *)
Variable fsum : list F -> F.          (* sum(xs)               *)
Variable fdiv_len : F -> nat -> F.    (* a / n, n = len(...)   *)

(** One history entry: (timestamp, high, low, close). *)
Record bar : Type := mk_bar {
  bar_timestamp : Z;
  bar_high : F;
  bar_low : F;
  bar_close : F
}.

Record VolatilityMonitor : Type := mk_monitor {
  atr_period : Z;
  price_history : list bar;
  atr_values : list F
}.

(** [VolatilityMonitor(atr_period)] *)
Definition new_monitor (period : Z) : VolatilityMonitor :=
  mk_monitor period [] [].

(** The builtin [max(a, b, c)]: the first argument is kept until a later
    one compares greater. *)
Definition max3 (a b c : F) : F :=
  let m := if fgt b a then b else a in
  if fgt c m then c else m.

(** Body of the loop of [_calculate_atr] for one adjacent pair. *)
Definition true_range (current previous : bar) : F :=
  let tr1 := fsub (bar_high current) (bar_low current) in
  let tr2 := fabs (fsub (bar_high current) (bar_close previous)) in
  let tr3 := fabs (fsub (bar_low current) (bar_close previous)) in
  max3 tr1 tr2 tr3.

(** [for i in range(1, len(h))]: pairs (h[i], h[i-1]) in increasing i. *)
Fixpoint true_ranges (h : list bar) : list F :=
  match h with
  | previous :: rest =>
      match rest with
      | current :: _ => true_range current previous :: true_ranges rest
      | [] => []
      end
  | [] => []
  end.

Definition _calculate_atr (vm : VolatilityMonitor) : VolatilityMonitor :=
  if len (price_history vm) <? 2 then vm
  else
    let trs := true_ranges (price_history vm) in
    match trs with
    | [] => vm
    | _ :: _ =>
        let atr := fdiv_len (fsum trs) (List.length trs) in
        let vals := atr_values vm ++ [atr] in
        let vals := if len vals >? 100 then pop0 vals else vals in
        mk_monitor (atr_period vm) (price_history vm) vals
    end.

Definition update_price (vm : VolatilityMonitor)
           (timestamp : Z) (high low close : F) : VolatilityMonitor :=
  let hist := price_history vm ++ [mk_bar timestamp high low close] in
  let hist := if len hist >? atr_period vm + 1 then pop0 hist else hist in
  let vm := mk_monitor (atr_period vm) hist (atr_values vm) in
  if len (price_history vm) >=? 2 then _calculate_atr vm else vm.

(** Names for two pieces of the methods above, used to state their
    properties: the value [_calculate_atr] appends followed by the cap on
    [atr_values], and the history after the append and the eviction of
    [update_price]. *)
Definition atr_of (h : list bar) : F :=
  fdiv_len (fsum (true_ranges h)) (List.length (true_ranges h)).

Definition capped_append (vals : list F) (atr : F) : list F :=
  if len (vals ++ [atr]) >? 100 then pop0 (vals ++ [atr]) else vals ++ [atr].

Definition next_history (vm : VolatilityMonitor)
           (timestamp : Z) (high low close : F) : list bar :=
  let appended := price_history vm ++ [mk_bar timestamp high low close] in
  if len appended >? atr_period vm + 1 then pop0 appended else appended.

End VolatilityMonitor.

Arguments mk_bar {F} _ _ _ _.
Arguments bar_timestamp {F} _.
Arguments bar_high {F} _.
Arguments bar_low {F} _.
Arguments bar_close {F} _.
Arguments mk_monitor {F} _ _ _.
Arguments atr_period {F} _.
Arguments price_history {F} _.
Arguments atr_values {F} _.
Arguments new_monitor {F} period.
Arguments max3 {F} fgt a b c.
Arguments true_range {F} fsub fabs fgt current previous.
Arguments true_ranges {F} fsub fabs fgt h.
Arguments _calculate_atr {F} fsub fabs fgt fsum fdiv_len vm.
Arguments update_price {F} fsub fabs fgt fsum fdiv_len vm timestamp high low close.
Arguments atr_of {F} fsub fabs fgt fsum fdiv_len h.
Arguments capped_append {F} vals atr.
Arguments next_history {F} vm timestamp high low close.

(** ** The pandas calls of [process_fee_rebate]

    [pd.to_datetime(ts, unit='s')], [Timestamp.replace],
    [ts + pd.DateOffset(months=n)] and the comparison of two Timestamps, on
    whole seconds (the code never produces a fraction of a second).  The
    month arithmetic is total here: a result outside the range pandas can
    represent (before 1677-09-21, after 2262-04-11) is not modelled. *)

Module Pandas.

Record Timestamp : Type := mk_timestamp {
  year : Z;
  month : Z;
  day : Z;
  hour : Z;
  minute : Z;
  second : Z
}.

Definition is_leap (y : Z) : bool :=
  ((y mod 4 =? 0) && negb (y mod 100 =? 0)) || (y mod 400 =? 0).

Definition days_in_month (y m : Z) : Z :=
  if m =? 2 then (if is_leap y then 29 else 28)
  else if (m =? 4) || (m =? 6) || (m =? 9) || (m =? 11) then 30
  else 31.

(** Proleptic Gregorian date of a day count from 1970-01-01. *)
Definition civil_from_days (days : Z) : Z * Z * Z :=
  let z := days + 719468 in
  let era := z / 146097 in
  let doe := z - era * 146097 in
  let yoe := (doe - doe / 1460 + doe / 36524 - doe / 146096) / 365 in
  let y := yoe + era * 400 in
  let doy := doe - (365 * yoe + yoe / 4 - yoe / 100) in
  let mp := (5 * doy + 2) / 153 in
  let d := doy - (153 * mp + 2) / 5 + 1 in
  let m := if mp <? 10 then mp + 3 else mp - 9 in
  ((if m <=? 2 then y + 1 else y), m, d).

(** Seconds that fit the signed 64-bit count of nanoseconds. *)
Definition min_seconds : Z := -9223372036.
Definition max_seconds : Z := 9223372036.

(** [pd.to_datetime(ts, unit='s')]; [None] when it raises
    (OutOfBoundsDatetime). *)
Definition to_datetime (ts : Z) : option Timestamp :=
  if (ts <? min_seconds) || (ts >? max_seconds) then None
  else
    let '(y, m, d) := civil_from_days (ts / 86400) in
    let sod := ts mod 86400 in
    Some (mk_timestamp y m d (sod / 3600) ((sod mod 3600) / 60) (sod mod 60)).

(** [t.replace(day=d, hour=0, minute=0, second=0, microsecond=0)] *)
Definition replace_day (t : Timestamp) (d : Z) : result Timestamp :=
  if (1 <=? d) && (d <=? days_in_month (year t) (month t))
  then Ok (mk_timestamp (year t) (month t) d 0 0 0)
  else Raise ValueError.

(** [t + pd.DateOffset(months=n)]: the day is clipped to the length of the
    target month, the time of day is kept. *)
Definition add_months (t : Timestamp) (n : Z) : Timestamp :=
  let k := year t * 12 + (month t - 1) + n in
  let y := k / 12 in
  let m := k mod 12 + 1 in
  mk_timestamp y m (Z.min (day t) (days_in_month y m))
               (hour t) (minute t) (second t).

Definition fields (t : Timestamp) : list Z :=
  [year t; month t; day t; hour t; minute t; second t].

Fixpoint lex_compare (a b : list Z) : comparison :=
  match a, b with
  | x :: a', y :: b' =>
      match x ?= y with
      | Eq => lex_compare a' b'
      | c => c
      end
  | _, _ => Eq
  end.

Definition compare (a b : Timestamp) : comparison :=
  lex_compare (fields a) (fields b).

(** [a < b] *)
Definition ltb (a b : Timestamp) : bool :=
  match compare a b with Lt => true | _ => false end.

(** [a >= b] *)
Definition geb (a b : Timestamp) : bool :=
  match compare a b with Lt => false | _ => true end.

(** [a] is strictly earlier than [b]: the order of the calendar, written
    with the order of the integers on the fields, the year first. *)
Definition lt (a b : Timestamp) : Prop :=
  year a < year b
  \/ (year a = year b
      /\ (month a < month b
          \/ (month a = month b
              /\ (day a < day b
                  \/ (day a = day b
                      /\ (hour a < hour b
                          \/ (hour a = hour b
                              /\ (minute a < minute b
                                  \/ (minute a = minute b
                                      /\ second a < second b))))))))).

(** [a] is [b] or earlier. *)
Definition le (a b : Timestamp) : Prop := lt a b \/ a = b.

End Pandas.

(** ** FastPerpetualExchange: configuration and data *)

Local Open Scope Q_scope.

(** Upper bound of a tier: an [int], or [Decimal('Infinity')]. *)
Inductive bound : Type :=
| Finite (q : Q)
| Infinity.

(** [v <= b] *)
Definition le_bound (v : Q) (b : bound) : bool :=
  match b with
  | Finite q => Decimal.leb v q
  | Infinity => true
  end.

(** One row of the tier table:
    (notional bound, max leverage, maintenance-margin rate, fixed amount). *)
Record MarginTier : Type := mk_tier {
  threshold : bound;
  max_leverage : Z;
  mm_rate : Q;
  maintenance_amount : Q
}.

Definition ETH_USDC_TIERS : list MarginTier :=
  [ mk_tier (Finite 50000) 125 0.004 0;
    mk_tier (Finite 500000) 100 0.005 50;
    mk_tier (Finite 1000000) 75 0.0065 800;
    mk_tier (Finite 5000000) 50 0.01 4300;
    mk_tier (Finite 50000000) 20 0.02 54300;
    mk_tier (Finite 100000000) 10 0.05 1554300;
    mk_tier (Finite 150000000) 5 0.1 6554300;
    mk_tier (Finite 300000000) 4 0.125 10304300;
    mk_tier (Finite 400000000) 3 0.15 17804300;
    mk_tier (Finite 500000000) 2 0.25 57804300;
    mk_tier Infinity 1 0.5 182804300 ].

(** A resting order: the tuple (price, amount, side). *)
Record Order : Type := mk_order {
  order_price : Q;
  order_amount : Q;
  order_side : string
}.

(** One entry of [trade_history]. *)
Record TradeRecord : Type := mk_trade {
  tr_timestamp : Z;
  tr_side : string;
  tr_amount : Q;
  tr_price : Q;
  tr_fee : Q;
  tr_pnl : Q;
  tr_leverage : Z
}.

(** One entry of [liquidation_events]. *)
Record LiquidationEvent : Type := mk_liquidation {
  liq_timestamp : Z;
  liq_equity : Q;
  liq_price : Q
}.

(** The attributes of a [FastPerpetualExchange].  [last_payout_date] and
    [current_cycle_fees] exist only when [use_fee_rebate] is set and are
    read only then; [volatility_monitor] is a separate object that none of
    the methods below touches. *)
Record Exchange : Type := mk_exchange {
  balance : Q;
  margin_balance : Q;
  long_position : Q;
  short_position : Q;
  long_entry_price : Q;
  short_entry_price : Q;
  base_leverage : Z;
  current_leverage : Z;
  current_price : Q;
  active_buy_orders : list Order;
  active_sell_orders : list Order;
  trade_history : list TradeRecord;
  equity_history : list (Z * Q);
  liquidation_events : list LiquidationEvent;
  order_id_counter : Z;
  total_fees_paid : Q;
  maker_fee : Q;
  taker_fee : Q;
  use_fee_rebate : bool;
  last_payout_date : option Pandas.Timestamp;
  current_cycle_fees : Q;
  rebate_payout_day : Z;
  rebate_rate : Q
}.

(** Assignment to one attribute of [self]. *)

Definition set_balance (v : Q) (s : Exchange) : Exchange :=
  mk_exchange v (margin_balance s) (long_position s) (short_position s)
    (long_entry_price s) (short_entry_price s) (base_leverage s)
    (current_leverage s) (current_price s) (active_buy_orders s)
    (active_sell_orders s) (trade_history s) (equity_history s)
    (liquidation_events s) (order_id_counter s) (total_fees_paid s)
    (maker_fee s) (taker_fee s) (use_fee_rebate s) (last_payout_date s)
    (current_cycle_fees s) (rebate_payout_day s) (rebate_rate s).

Definition set_long_position (v : Q) (s : Exchange) : Exchange :=
  mk_exchange (balance s) (margin_balance s) v (short_position s)
    (long_entry_price s) (short_entry_price s) (base_leverage s)
    (current_leverage s) (current_price s) (active_buy_orders s)
    (active_sell_orders s) (trade_history s) (equity_history s)
    (liquidation_events s) (order_id_counter s) (total_fees_paid s)
    (maker_fee s) (taker_fee s) (use_fee_rebate s) (last_payout_date s)
    (current_cycle_fees s) (rebate_payout_day s) (rebate_rate s).

Definition set_short_position (v : Q) (s : Exchange) : Exchange :=
  mk_exchange (balance s) (margin_balance s) (long_position s) v
    (long_entry_price s) (short_entry_price s) (base_leverage s)
    (current_leverage s) (current_price s) (active_buy_orders s)
    (active_sell_orders s) (trade_history s) (equity_history s)
    (liquidation_events s) (order_id_counter s) (total_fees_paid s)
    (maker_fee s) (taker_fee s) (use_fee_rebate s) (last_payout_date s)
    (current_cycle_fees s) (rebate_payout_day s) (rebate_rate s).

Definition set_long_entry_price (v : Q) (s : Exchange) : Exchange :=
  mk_exchange (balance s) (margin_balance s) (long_position s)
    (short_position s) v (short_entry_price s) (base_leverage s)
    (current_leverage s) (current_price s) (active_buy_orders s)
    (active_sell_orders s) (trade_history s) (equity_history s)
    (liquidation_events s) (order_id_counter s) (total_fees_paid s)
    (maker_fee s) (taker_fee s) (use_fee_rebate s) (last_payout_date s)
    (current_cycle_fees s) (rebate_payout_day s) (rebate_rate s).

Definition set_short_entry_price (v : Q) (s : Exchange) : Exchange :=
  mk_exchange (balance s) (margin_balance s) (long_position s)
    (short_position s) (long_entry_price s) v (base_leverage s)
    (current_leverage s) (current_price s) (active_buy_orders s)
    (active_sell_orders s) (trade_history s) (equity_history s)
    (liquidation_events s) (order_id_counter s) (total_fees_paid s)
    (maker_fee s) (taker_fee s) (use_fee_rebate s) (last_payout_date s)
    (current_cycle_fees s) (rebate_payout_day s) (rebate_rate s).

Definition set_current_leverage (v : Z) (s : Exchange) : Exchange :=
  mk_exchange (balance s) (margin_balance s) (long_position s)
    (short_position s) (long_entry_price s) (short_entry_price s)
    (base_leverage s) v (current_price s) (active_buy_orders s)
    (active_sell_orders s) (trade_history s) (equity_history s)
    (liquidation_events s) (order_id_counter s) (total_fees_paid s)
    (maker_fee s) (taker_fee s) (use_fee_rebate s) (last_payout_date s)
    (current_cycle_fees s) (rebate_payout_day s) (rebate_rate s).

Definition set_current_price (v : Q) (s : Exchange) : Exchange :=
  mk_exchange (balance s) (margin_balance s) (long_position s)
    (short_position s) (long_entry_price s) (short_entry_price s)
    (base_leverage s) (current_leverage s) v (active_buy_orders s)
    (active_sell_orders s) (trade_history s) (equity_history s)
    (liquidation_events s) (order_id_counter s) (total_fees_paid s)
    (maker_fee s) (taker_fee s) (use_fee_rebate s) (last_payout_date s)
    (current_cycle_fees s) (rebate_payout_day s) (rebate_rate s).

Definition set_active_buy_orders (v : list Order) (s : Exchange) : Exchange :=
  mk_exchange (balance s) (margin_balance s) (long_position s)
    (short_position s) (long_entry_price s) (short_entry_price s)
    (base_leverage s) (current_leverage s) (current_price s) v
    (active_sell_orders s) (trade_history s) (equity_history s)
    (liquidation_events s) (order_id_counter s) (total_fees_paid s)
    (maker_fee s) (taker_fee s) (use_fee_rebate s) (last_payout_date s)
    (current_cycle_fees s) (rebate_payout_day s) (rebate_rate s).

Definition set_active_sell_orders (v : list Order) (s : Exchange) : Exchange :=
  mk_exchange (balance s) (margin_balance s) (long_position s)
    (short_position s) (long_entry_price s) (short_entry_price s)
    (base_leverage s) (current_leverage s) (current_price s)
    (active_buy_orders s) v (trade_history s) (equity_history s)
    (liquidation_events s) (order_id_counter s) (total_fees_paid s)
    (maker_fee s) (taker_fee s) (use_fee_rebate s) (last_payout_date s)
    (current_cycle_fees s) (rebate_payout_day s) (rebate_rate s).

Definition set_trade_history (v : list TradeRecord) (s : Exchange) : Exchange :=
  mk_exchange (balance s) (margin_balance s) (long_position s)
    (short_position s) (long_entry_price s) (short_entry_price s)
    (base_leverage s) (current_leverage s) (current_price s)
    (active_buy_orders s) (active_sell_orders s) v (equity_history s)
    (liquidation_events s) (order_id_counter s) (total_fees_paid s)
    (maker_fee s) (taker_fee s) (use_fee_rebate s) (last_payout_date s)
    (current_cycle_fees s) (rebate_payout_day s) (rebate_rate s).

Definition set_equity_history (v : list (Z * Q)) (s : Exchange) : Exchange :=
  mk_exchange (balance s) (margin_balance s) (long_position s)
    (short_position s) (long_entry_price s) (short_entry_price s)
    (base_leverage s) (current_leverage s) (current_price s)
    (active_buy_orders s) (active_sell_orders s) (trade_history s) v
    (liquidation_events s) (order_id_counter s) (total_fees_paid s)
    (maker_fee s) (taker_fee s) (use_fee_rebate s) (last_payout_date s)
    (current_cycle_fees s) (rebate_payout_day s) (rebate_rate s).

Definition set_liquidation_events (v : list LiquidationEvent) (s : Exchange) : Exchange :=
  mk_exchange (balance s) (margin_balance s) (long_position s)
    (short_position s) (long_entry_price s) (short_entry_price s)
    (base_leverage s) (current_leverage s) (current_price s)
    (active_buy_orders s) (active_sell_orders s) (trade_history s)
    (equity_history s) v (order_id_counter s) (total_fees_paid s)
    (maker_fee s) (taker_fee s) (use_fee_rebate s) (last_payout_date s)
    (current_cycle_fees s) (rebate_payout_day s) (rebate_rate s).

Definition set_order_id_counter (v : Z) (s : Exchange) : Exchange :=
  mk_exchange (balance s) (margin_balance s) (long_position s)
    (short_position s) (long_entry_price s) (short_entry_price s)
    (base_leverage s) (current_leverage s) (current_price s)
    (active_buy_orders s) (active_sell_orders s) (trade_history s)
    (equity_history s) (liquidation_events s) v (total_fees_paid s)
    (maker_fee s) (taker_fee s) (use_fee_rebate s) (last_payout_date s)
    (current_cycle_fees s) (rebate_payout_day s) (rebate_rate s).

Definition set_total_fees_paid (v : Q) (s : Exchange) : Exchange :=
  mk_exchange (balance s) (margin_balance s) (long_position s)
    (short_position s) (long_entry_price s) (short_entry_price s)
    (base_leverage s) (current_leverage s) (current_price s)
    (active_buy_orders s) (active_sell_orders s) (trade_history s)
    (equity_history s) (liquidation_events s) (order_id_counter s) v
    (maker_fee s) (taker_fee s) (use_fee_rebate s) (last_payout_date s)
    (current_cycle_fees s) (rebate_payout_day s) (rebate_rate s).

Definition set_last_payout_date (v : option Pandas.Timestamp) (s : Exchange) : Exchange :=
  mk_exchange (balance s) (margin_balance s) (long_position s)
    (short_position s) (long_entry_price s) (short_entry_price s)
    (base_leverage s) (current_leverage s) (current_price s)
    (active_buy_orders s) (active_sell_orders s) (trade_history s)
    (equity_history s) (liquidation_events s) (order_id_counter s)
    (total_fees_paid s) (maker_fee s) (taker_fee s) (use_fee_rebate s) v
    (current_cycle_fees s) (rebate_payout_day s) (rebate_rate s).

Definition set_current_cycle_fees (v : Q) (s : Exchange) : Exchange :=
  mk_exchange (balance s) (margin_balance s) (long_position s)
    (short_position s) (long_entry_price s) (short_entry_price s)
    (base_leverage s) (current_leverage s) (current_price s)
    (active_buy_orders s) (active_sell_orders s) (trade_history s)
    (equity_history s) (liquidation_events s) (order_id_counter s)
    (total_fees_paid s) (maker_fee s) (taker_fee s) (use_fee_rebate s)
    (last_payout_date s) v (rebate_payout_day s) (rebate_rate s).

(** ** FastPerpetualExchange: methods *)

Definition get_unrealized_pnl (s : Exchange) : Q :=
  let pnl := 0 in
  let pnl :=
    if Decimal.gtb (long_position s) 0
    then pnl + long_position s * (current_price s - long_entry_price s)
    else pnl in
  let pnl :=
    if Decimal.gtb (short_position s) 0
    then pnl + short_position s * (short_entry_price s - current_price s)
    else pnl in
  pnl.

Definition get_equity (s : Exchange) : Q :=
  balance s + get_unrealized_pnl s.

Definition get_net_position (s : Exchange) : Q :=
  long_position s - short_position s.

Definition get_position_value (s : Exchange) : Q :=
  let long_value := long_position s * current_price s in
  let short_value := short_position s * current_price s in
  long_value + short_value.

Definition get_net_position_value (s : Exchange) : Q :=
  let net_pos := get_net_position s in
  Qabs net_pos * current_price s.

(** The loop of [get_current_leverage_tier]: the first row whose bound is
    at least [value]. *)
Fixpoint scan_tiers (value : Q) (tiers : list MarginTier)
  : option MarginTier :=
  match tiers with
  | [] => None
  | t :: rest =>
      if le_bound value (threshold t) then Some t else scan_tiers value rest
  end.

(** [ETH_USDC_TIERS[-1]] *)
Definition last_tier (tiers : list MarginTier) : MarginTier :=
  List.last tiers (mk_tier Infinity 1 0.5 182804300).

Definition get_current_leverage_tier (s : Exchange) : MarginTier :=
  let total_position_value := get_position_value s in
  match scan_tiers total_position_value ETH_USDC_TIERS with
  | Some t => t
  | None => last_tier ETH_USDC_TIERS
  end.

Definition get_current_max_leverage (s : Exchange) : Z :=
  max_leverage (get_current_leverage_tier s).

Definition get_used_margin (s : Exchange) : Q :=
  let current_max_leverage := get_current_max_leverage s in
  let effective_leverage := Z.min current_max_leverage (base_leverage s) in
  if (effective_leverage =? 0)%Z then 0
  else
    let long_value := long_position s * long_entry_price s in
    let short_value := short_position s * short_entry_price s in
    let total_position_value := long_value + short_value in
    total_position_value / Decimal.of_int effective_leverage.

Definition get_available_margin (s : Exchange) : Q :=
  get_equity s - get_used_margin s.

Definition update_current_leverage (s : Exchange) : Exchange :=
  let current_max_leverage := get_current_max_leverage s in
  let new_leverage := Z.min current_max_leverage (base_leverage s) in
  set_current_leverage new_leverage s.

(** The loop of [get_maintenance_margin], with its default after the loop. *)
Fixpoint maintenance_scan (net_position_value : Q) (tiers : list MarginTier)
  : Q :=
  match tiers with
  | [] => 0
  | t :: rest =>
      if le_bound net_position_value (threshold t)
      then net_position_value * mm_rate t - maintenance_amount t
      else maintenance_scan net_position_value rest
  end.

Definition get_maintenance_margin (s : Exchange) : Q :=
  let net_position_value := get_net_position_value s in
  maintenance_scan net_position_value ETH_USDC_TIERS.

Definition process_fee_rebate (s : Exchange) (timestamp : Z)
  : result Exchange :=
  if negb (use_fee_rebate s) then Ok s
  else if (timestamp >? 2147483647)%Z then Ok s
  else
    match Pandas.to_datetime timestamp with
    | None => Ok s
    | Some current_date =>
        let payout_day := rebate_payout_day s in
        match last_payout_date s with
        | None =>
            start_date_payout <- Pandas.replace_day current_date payout_day ;;
            if Pandas.ltb current_date start_date_payout
            then Ok (set_last_payout_date
                       (Some (Pandas.add_months start_date_payout (-1))) s)
            else Ok (set_last_payout_date (Some start_date_payout) s)
        | Some last =>
            let next_payout_date := Pandas.add_months last 1 in
            if Pandas.geb current_date next_payout_date then
              let rebate_amount := current_cycle_fees s * rebate_rate s in
              let s :=
                if Decimal.gtb rebate_amount 0
                then set_current_cycle_fees 0
                       (set_balance (balance s + rebate_amount) s)
                else s in
              Ok (set_last_payout_date (Some next_payout_date) s)
            else Ok s
        end
    end.

(** [if self.use_fee_rebate: self.current_cycle_fees += fee;
    self.process_fee_rebate(timestamp)] *)
Definition accumulate_fee (s : Exchange) (fee : Q) (timestamp : Z)
  : result Exchange :=
  if use_fee_rebate s
  then process_fee_rebate
         (set_current_cycle_fees (current_cycle_fees s + fee) s) timestamp
  else Ok s.

(** The four branches of [execute_fast_trade]; the result carries [pnl]. *)
Definition apply_side (s : Exchange) (side : string) (amount price : Q)
  : result (Q * Exchange) :=
  let pnl := 0 in
  if String.eqb side "buy_long" then
    s <- (if Decimal.eqb (long_position s) 0
          then Ok (set_long_entry_price price s)
          else
            let total_value :=
              long_position s * long_entry_price s + amount * price in
            let s := set_long_position (long_position s + amount) s in
            entry <- Decimal.div total_value (long_position s) ;;
            Ok (set_long_entry_price entry s)) ;;
    Ok (pnl, set_long_position (long_position s + amount) s)
  else if String.eqb side "sell_short" then
    s <- (if Decimal.eqb (short_position s) 0
          then Ok (set_short_entry_price price s)
          else
            let total_value :=
              short_position s * short_entry_price s + amount * price in
            let s := set_short_position (short_position s + amount) s in
            entry <- Decimal.div total_value (short_position s) ;;
            Ok (set_short_entry_price entry s)) ;;
    Ok (pnl, set_short_position (short_position s + amount) s)
  else if String.eqb side "sell_long" && Decimal.gtb (long_position s) 0 then
    let trade_amount := Decimal.min amount (long_position s) in
    let pnl := trade_amount * (price - long_entry_price s) in
    let s := set_balance (balance s + pnl) s in
    let s := set_long_position (long_position s - trade_amount) s in
    let s :=
      if Decimal.eqb (long_position s) 0
      then set_long_entry_price 0 s else s in
    Ok (pnl, s)
  else if String.eqb side "buy_short" && Decimal.gtb (short_position s) 0 then
    let trade_amount := Decimal.min amount (short_position s) in
    let pnl := trade_amount * (short_entry_price s - price) in
    let s := set_balance (balance s + pnl) s in
    let s := set_short_position (short_position s - trade_amount) s in
    let s :=
      if Decimal.eqb (short_position s) 0
      then set_short_entry_price 0 s else s in
    Ok (pnl, s)
  else Ok (pnl, s).

Definition execute_fast_trade (s : Exchange) (side : string)
           (amount price : Q) (timestamp : Z) : result Exchange :=
  let fee := amount * price * maker_fee s in
  let s := set_balance (balance s - fee) s in
  let s := set_total_fees_paid (total_fees_paid s + fee) s in
  s <- accumulate_fee s fee timestamp ;;
  r <- apply_side s side amount price ;;
  let pnl := fst r in
  let s := snd r in
  let s := update_current_leverage s in
  let trade_record :=
    mk_trade timestamp side amount price fee pnl (current_leverage s) in
  let s := set_trade_history (trade_history s ++ [trade_record]) s in
  Ok (set_order_id_counter (order_id_counter s + 1)%Z s).

(** The block that closes the long side at [price] with fee rate
    [taker_fee_rate]; [check_and_handle_liquidation] and
    [close_all_positions_market] both contain it. *)
Definition close_long_at (s : Exchange) (price taker_fee_rate : Q)
           (timestamp : Z) : result Exchange :=
  if Decimal.gtb (long_position s) 0 then
    let pnl := long_position s * (price - long_entry_price s) in
    let fee := long_position s * price * taker_fee_rate in
    let s := set_balance (balance s + (pnl - fee)) s in
    let s := set_total_fees_paid (total_fees_paid s + fee) s in
    s <- accumulate_fee s fee timestamp ;;
    let s := set_long_position 0 s in
    Ok (set_long_entry_price 0 s)
  else Ok s.

(** The same block for the short side. *)
Definition close_short_at (s : Exchange) (price taker_fee_rate : Q)
           (timestamp : Z) : result Exchange :=
  if Decimal.gtb (short_position s) 0 then
    let pnl := short_position s * (short_entry_price s - price) in
    let fee := short_position s * price * taker_fee_rate in
    let s := set_balance (balance s + (pnl - fee)) s in
    let s := set_total_fees_paid (total_fees_paid s + fee) s in
    s <- accumulate_fee s fee timestamp ;;
    let s := set_short_position 0 s in
    Ok (set_short_entry_price 0 s)
  else Ok s.

Definition check_and_handle_liquidation (s : Exchange) (timestamp : Z)
  : result (bool * Exchange) :=
  if Decimal.eqb (long_position s) 0 && Decimal.eqb (short_position s) 0
  then Ok (false, s)
  else
    let equity := get_equity s in
    let maintenance_margin := get_maintenance_margin s in
    if Decimal.leb equity maintenance_margin && Decimal.gtb equity 0 then
      let liquidation_price := current_price s in
      let s :=
        set_liquidation_events
          (liquidation_events s
             ++ [mk_liquidation timestamp equity liquidation_price]) s in
      let s := set_active_buy_orders [] s in
      let s := set_active_sell_orders [] s in
      let taker_fee_rate := taker_fee s in
      s <- close_long_at s liquidation_price taker_fee_rate timestamp ;;
      s <- close_short_at s liquidation_price taker_fee_rate timestamp ;;
      Ok (true, set_balance 0 s)
    else Ok (false, s).

(** [close_all_positions_market(timestamp)] *)
Definition close_all_positions_market (s : Exchange) (timestamp : Z)
  : result Exchange :=
  if Decimal.eqb (long_position s) 0 && Decimal.eqb (short_position s) 0
  then Ok s
  else
    let taker_fee := taker_fee s in
    let price := current_price s in
    s <- close_long_at s price taker_fee timestamp ;;
    close_short_at s price taker_fee timestamp.

(** [for price, amount, side in filled: self.execute_fast_trade(...);
    filled_count += 1] *)
Fixpoint execute_filled (s : Exchange) (filled : list Order) (timestamp : Z)
         (filled_count : Z) : result (Z * Exchange) :=
  match filled with
  | [] => Ok (filled_count, s)
  | o :: rest =>
      s <- execute_fast_trade s (order_side o) (order_amount o)
                              (order_price o) timestamp ;;
      execute_filled s rest timestamp (filled_count + 1)%Z
  end.

Definition fast_order_matching (s : Exchange) (high low : Q) (timestamp : Z)
  : result (Z * Exchange) :=
  let filled_count := 0%Z in
  r <- match active_buy_orders s with
       | [] => Ok (filled_count, s)
       | _ :: _ =>
           let filled_buy_orders :=
             filter (fun o => Decimal.leb low (order_price o))
                    (active_buy_orders s) in
           let remaining_buy_orders :=
             filter (fun o => Decimal.gtb low (order_price o))
                    (active_buy_orders s) in
           r <- execute_filled s filled_buy_orders timestamp filled_count ;;
           Ok (fst r, set_active_buy_orders remaining_buy_orders (snd r))
       end ;;
  let filled_count := fst r in
  let s := snd r in
  match active_sell_orders s with
  | [] => Ok (filled_count, s)
  | _ :: _ =>
      let filled_sell_orders :=
        filter (fun o => Decimal.geb high (order_price o))
               (active_sell_orders s) in
      let remaining_sell_orders :=
        filter (fun o => Decimal.ltb high (order_price o))
               (active_sell_orders s) in
      r <- execute_filled s filled_sell_orders timestamp filled_count ;;
      Ok (fst r, set_active_sell_orders remaining_sell_orders (snd r))
  end.

(** [FastPerpetualExchange(initial_balance)] under the configuration tables
    of the module (leverage 125, maker fee 0, taker fee 0.0005, rebate
    switched off, payout day 19, rebate rate 0.30). *)
Definition new_exchange (initial_balance : Q) : Exchange :=
  mk_exchange initial_balance initial_balance 0 0 0 0 125 125 0
              [] [] [] [] [] 1 0 0.0000 0.0005 false None 0 19 0.30.

(** ** Vocabulary of the statements *)

(** Data-model invariant: a position quantity is never negative. *)
Definition positions_nonneg (s : Exchange) : Prop :=
  0 <= long_position s /\ 0 <= short_position s.

(** The configured payout day exists in every month, so that
    [Timestamp.replace(day=...)] cannot raise. *)
Definition payout_day_ok (s : Exchange) : Prop :=
  use_fee_rebate s = true -> (1 <= rebate_payout_day s <= 28)%Z.

(** [timestamp] passes the guard of [process_fee_rebate] and converts. *)
Definition representable (timestamp : Z) : Prop :=
  (Pandas.min_seconds <= timestamp <= 2147483647)%Z.

(** A payout is due: rebate on, timestamp usable, anchor set, and the
    current date has reached anchor + 1 month. *)
Definition rebate_due (s : Exchange) (timestamp : Z) : bool :=
  use_fee_rebate s
  && negb (timestamp >? 2147483647)%Z
  && match Pandas.to_datetime timestamp, last_payout_date s with
     | Some current_date, Some last =>
         Pandas.geb current_date (Pandas.add_months last 1)
     | _, _ => false
     end.

(** What [process_fee_rebate] adds to the balance. *)
Definition rebate_credit (s : Exchange) (timestamp : Z) : Q :=
  if rebate_due s timestamp
     && Decimal.gtb (current_cycle_fees s * rebate_rate s) 0
  then current_cycle_fees s * rebate_rate s
  else 0.

(** Realized PnL of a fill as the specification words it. *)
Definition realized_pnl (s : Exchange) (side : string) (qty price : Q) : Q :=
  if String.eqb side "sell_long"
  then Decimal.min qty (long_position s) * (price - long_entry_price s)
  else if String.eqb side "buy_short"
  then Decimal.min qty (short_position s) * (short_entry_price s - price)
  else 0.

(** [s'] has the order lists, the logs and the rebate configuration of
    [s]. *)
Definition same_books (s s' : Exchange) : Prop :=
  active_buy_orders s' = active_buy_orders s
  /\ active_sell_orders s' = active_sell_orders s
  /\ liquidation_events s' = liquidation_events s
  /\ trade_history s' = trade_history s
  /\ use_fee_rebate s' = use_fee_rebate s
  /\ rebate_payout_day s' = rebate_payout_day s.

(** [a] comes strictly before [b] in the order of tier bounds. *)
Definition bound_lt (a b : bound) : Prop :=
  match a, b with
  | Finite x, Finite y => x < y
  | Finite _, Infinity => True
  | Infinity, _ => False
  end.

(** [value <= b] in the order of the rationals; every value is at most
    [Infinity]. *)
Definition within_bound (value : Q) (b : bound) : Prop :=
  match b with
  | Finite q => value <= q
  | Infinity => True
  end.

(** [b < value] in the order of the rationals; no value is above
    [Infinity]. *)
Definition beyond_bound (value : Q) (b : bound) : Prop :=
  match b with
  | Finite q => q < value
  | Infinity => False
  end.

(** [t] is the first row of [tiers] whose bound is at least [value]:
    the bound of every row before it is strictly below [value], and
    [value <= bound t]. *)
Definition first_tier_for (value : Q) (tiers : list MarginTier)
           (t : MarginTier) : Prop :=
  exists before after,
    tiers = before ++ t :: after
    /\ Forall (fun t' => beyond_bound value (threshold t')) before
    /\ within_bound value (threshold t).

(** The (price, amount, side) of a trade record. *)
Definition order_of_trade (r : TradeRecord) : Order :=
  mk_order (tr_price r) (tr_amount r) (tr_side r).

(** [gt] is the [>] of an order: asymmetric and transitive (as [>] on
    floats is). *)
Definition strict_order {F : Type} (gt : F -> F -> bool) : Prop :=
  (forall a b, gt a b = true -> gt b a = false)
  /\ (forall a b c, gt a b = true -> gt b c = true -> gt a c = true).

(** Exact-arithmetic stand-ins for the float primitives of
    [VolatilityMonitor], for running it on examples. *)
Definition exact_sum (xs : list Q) : Q := fold_left Qplus xs 0.

Definition exact_div_len (a : Q) (n : nat) : Q := a / inject_Z (Z.of_nat n).

(** ** Objects used in examples *)

(** A rebate-enabled exchange inside the cycle anchored at 2024-01-19, with
    [fees] accumulated so far, holding no position, mark price 3000. *)
Definition rebate_exchange (fees rate maker : Q) : Exchange :=
  mk_exchange 700 700 0 0 0 0 125 125 3000 [] [] [] [] [] 1 fees
              maker 0.0005 true
              (Some (Pandas.mk_timestamp 2024 1 19 0 0 0)) fees 19 rate.

(** A rebate-enabled exchange before its first call of
    [process_fee_rebate]. *)
Definition fresh_rebate_exchange : Exchange :=
  mk_exchange 700 700 0 0 0 0 125 125 3000 [] [] [] [] [] 1 0
              0.0002 0.0005 true None 0 19 0.30.

(** [new_exchange 700] after buying one long unit at 3000 (maker fee 0),
    marked at [mark]. *)
Definition long_one_at_3000 (mark : Q) : Exchange :=
  mk_exchange 700 700 1 0 3000 0 125 125 mark [] []
              [mk_trade 1704067200 "buy_long" 1 3000 0 0 125] [] [] 2 0
              0.0000 0.0005 false None 0 19 0.30.

(** A monitor of period 1 holding two bars and one ATR value. *)
Definition two_bar_monitor : VolatilityMonitor Q :=
  mk_monitor 1 [mk_bar 0 10 8 9; mk_bar 60 12 9 11] [3].

(** [long_one_at_3000 3000] with a resting buy at 2990, a resting buy at
    2900, a resting close of the long at 3010 and one at 3100. *)
Definition quoting_exchange : Exchange :=
  set_active_sell_orders
    [mk_order 3010 0.5 "sell_long"; mk_order 3100 0.5 "sell_long"]
    (set_active_buy_orders
       [mk_order 2990 1 "buy_long"; mk_order 2900 1 "buy_long"]
       (long_one_at_3000 3000)).

(** ** FastPerpetualExchange: the remaining methods *)

(** An order as the strategy hands it over: the tuple
    (side, amount, price). *)
Record Quote : Type := mk_quote {
  quote_side : string;
  quote_amount : Q;
  quote_price : Q
}.

(** [lst.sort(key=...)] and [lst.sort(key=..., reverse=True)] are stable,
    which fixes their result: it is the one of a stable insertion, where an
    element stays in front of a new one only if it is strictly ahead of it
    ([ahead y x]: key of [y] strictly smaller, or strictly greater when
    reversed). *)
Fixpoint insert_stable {A : Type} (ahead : A -> A -> bool) (x : A)
         (l : list A) : list A :=
  match l with
  | [] => [x]
  | y :: l' =>
      if ahead y x then y :: insert_stable ahead x l' else x :: y :: l'
  end.

Fixpoint sort_stable {A : Type} (ahead : A -> A -> bool) (l : list A)
  : list A :=
  match l with
  | [] => []
  | x :: l' => insert_stable ahead x (sort_stable ahead l')
  end.

(** The loop of [place_orders_batch]: each order is appended to the buy
    list when its side is 'buy_long' or 'buy_short', to the sell list
    otherwise. *)
Fixpoint distribute_orders (orders : list Quote) (buys sells : list Order)
  : list Order * list Order :=
  match orders with
  | [] => (buys, sells)
  | q :: rest =>
      let o := mk_order (quote_price q) (quote_amount q) (quote_side q) in
      if String.eqb (quote_side q) "buy_long"
         || String.eqb (quote_side q) "buy_short"
      then distribute_orders rest (buys ++ [o]) sells
      else distribute_orders rest buys (sells ++ [o])
  end.

Definition place_orders_batch (s : Exchange) (orders : list Quote)
  : Exchange :=
  let s := set_active_buy_orders [] s in
  let s := set_active_sell_orders [] s in
  let r := distribute_orders orders (active_buy_orders s)
                             (active_sell_orders s) in
  let s := set_active_buy_orders (fst r) s in
  let s := set_active_sell_orders (snd r) s in
  let s :=
    set_active_buy_orders
      (sort_stable (fun y x => Decimal.gtb (order_price y) (order_price x))
                   (active_buy_orders s)) s in
  set_active_sell_orders
    (sort_stable (fun y x => Decimal.ltb (order_price y) (order_price x))
                 (active_sell_orders s)) s.

(** The divisor is non-zero where the division happens. *)
Definition get_margin_ratio (s : Exchange) : Q :=
  let position_value := get_position_value s in
  if Decimal.eqb position_value 0 then 999
  else
    let equity := margin_balance s + get_unrealized_pnl s in
    equity / position_value.

Definition record_equity (s : Exchange) (timestamp : Z) : Exchange :=
  let equity := balance s + get_unrealized_pnl s in
  set_equity_history (equity_history s ++ [(timestamp, equity)]) s.

Definition record_equity_batch (s : Exchange) (timestamp : Z)
           (cached_unrealized_pnl : option Q) : Exchange :=
  let equity :=
    match cached_unrealized_pnl with
    | Some cached => balance s + cached
    | None => balance s + get_unrealized_pnl s
    end in
  set_equity_history (equity_history s ++ [(timestamp, equity)]) s.

(** ** Configuration

    [STRATEGY_CONFIG], [VOLATILITY_CONFIG] and [RISK_CONFIG] are module
    dictionaries that [run_backtest_with_params] overwrites for a parameter
    sweep; the methods read them at each call.  The entries the modelled
    code reads form one record. *)
Record Config : Type := mk_config {
  (* STRATEGY_CONFIG *)
  leverage : Z;
  use_dynamic_order_size : bool;
  min_order_amount : Q;
  max_order_amount : Q;
  max_position_value_ratio : Q;
  order_refresh_time : Q;
  position_stop_loss : Q;
  enable_position_stop_loss : bool;
  (* VOLATILITY_CONFIG *)
  enable_volatility_adaptive : bool;
  high_volatility_threshold : Q;
  extreme_volatility_threshold : Q;
  position_balance_ratio : Q;
  max_imbalance_ratio : Q;
  base_spread : Q;
  max_spread_multiplier : Q;
  spread_adjustment_factor : Q;
  (* RISK_CONFIG *)
  enable_stop_loss : bool;
  max_drawdown : Q;
  min_equity : Q
}.

(** The values written in the module. *)
Definition default_config : Config :=
  mk_config 125 true 0.009 999.0 1 15.0 0.05 false
            true 0.30 0.50 0.8 0.3 0.002 3.0 2.0
            false 0.30 300.

(** The builtin [max(a, b)]: [b] when [b > a], else [a]. *)
Definition decimal_max (a b : Q) : Q := if Decimal.gtb b a then b else a.

(** [min(threshold, value)] where [threshold] is a tier bound. *)
Definition min_bound (threshold : bound) (value : Q) : Q :=
  match threshold with
  | Finite t => Decimal.min t value
  | Infinity => value
  end.

(** ** VolatilityMonitor: classification, and FastPerpetualStrategy

    The classification works on floats; division, multiplication by 100,
    the tests [x > 0] and [a >= b], the constant 0.0 and the conversion
    [float(d)] of a Decimal are primitives. *)

Section Strategy.

Variable F : Type.
Variable fdiv : F -> F -> F.          (* a / b            *)
Variable fmul100 : F -> F.            (* a * 100          *)
Variable fpositive : F -> bool.       (* a > 0            *)
Variable fge : F -> F -> bool.        (* a >= b           *)
Variable fzero : F.                   (* 0.0              *)
Variable float_of_decimal : Q -> F.   (* float(d)         *)

Definition get_current_atr_percentage (vm : VolatilityMonitor F) : F :=
  match List.rev (atr_values vm), List.rev (price_history vm) with
  | current_atr :: _, last_bar :: _ =>
      let current_price := bar_close last_bar in
      if fpositive current_price
      then fmul100 (fdiv current_atr current_price)
      else fzero
  | _, _ => fzero
  end.

Definition get_volatility_level (cfg : Config) (vm : VolatilityMonitor F)
  : string :=
  let atr_pct := get_current_atr_percentage vm in
  let high_threshold :=
    fmul100 (float_of_decimal (high_volatility_threshold cfg)) in
  let extreme_threshold :=
    fmul100 (float_of_decimal (extreme_volatility_threshold cfg)) in
  if fge atr_pct extreme_threshold then "EXTREME"
  else if fge atr_pct high_threshold then "HIGH"
  else "NORMAL".

Definition should_reduce_exposure (cfg : Config) (vm : VolatilityMonitor F)
  : bool :=
  let level := get_volatility_level cfg vm in
  String.eqb level "HIGH" || String.eqb level "EXTREME".

(** The dictionary returned by [get_volatility_info]. *)
Record VolatilityInfo : Type := mk_volatility_info {
  info_level : string;
  info_atr_percentage : F;
  info_should_reduce_exposure : bool
}.

(** [FastPerpetualExchange.get_volatility_info]; the exchange's
    [volatility_monitor] attribute is passed beside the exchange, [None]
    when the exchange was built without a monitor. *)
Definition get_volatility_info (cfg : Config)
           (monitor : option (VolatilityMonitor F)) : VolatilityInfo :=
  match monitor with
  | None => mk_volatility_info "NORMAL" fzero false
  | Some vm =>
      mk_volatility_info (get_volatility_level cfg vm)
                         (get_current_atr_percentage vm)
                         (should_reduce_exposure cfg vm)
  end.

Definition calculate_dynamic_order_size (cfg : Config) (s : Exchange)
           (current_price : Q) : result Q :=
  if negb (use_dynamic_order_size cfg) then Ok (min_order_amount cfg)
  else
    let current_equity := get_equity s in
    let current_max_leverage := get_current_max_leverage s in
    let effective_leverage := Z.min current_max_leverage (leverage cfg) in
    dynamic_position_ratio <-
      Decimal.div 1 (Decimal.of_int effective_leverage) ;;
    let order_value := current_equity * dynamic_position_ratio in
    order_amount <- Decimal.div order_value current_price ;;
    equity_floor <- Decimal.div (current_equity / 1000) current_price ;;
    let min_amount := decimal_max (min_order_amount cfg) equity_floor in
    let max_amount := max_order_amount cfg in
    Ok (decimal_max min_amount (Decimal.min max_amount order_amount)).

Definition should_place_orders (cfg : Config) (last_order_time : Z)
           (timestamp : Z) : bool :=
  Decimal.geb (inject_Z (timestamp - last_order_time))
              (order_refresh_time cfg).

Definition check_position_stop_loss (cfg : Config) (s : Exchange)
           (current_price : Q) : result (list Quote) :=
  if negb (enable_position_stop_loss cfg) then Ok []
  else
    let orders := [] in
    let stop_loss_pct := position_stop_loss cfg in
    orders <-
      (if Decimal.gtb (long_position s) 0 then
         loss_pct <- Decimal.div (long_entry_price s - current_price)
                                 (long_entry_price s) ;;
         if Decimal.geb loss_pct stop_loss_pct
         then Ok (orders
                    ++ [mk_quote "sell_long" (long_position s) current_price])
         else Ok orders
       else Ok orders) ;;
    orders <-
      (if Decimal.gtb (short_position s) 0 then
         loss_pct <- Decimal.div (current_price - short_entry_price s)
                                 (short_entry_price s) ;;
         if Decimal.geb loss_pct stop_loss_pct
         then Ok (orders
                    ++ [mk_quote "buy_short" (short_position s)
                                 current_price])
         else Ok orders
       else Ok orders) ;;
    Ok orders.

Definition calculate_adaptive_spread (cfg : Config)
           (monitor : option (VolatilityMonitor F)) : Q * Q :=
  let base_spread := base_spread cfg in
  match enable_volatility_adaptive cfg, monitor with
  | true, Some _ =>
      let volatility_info := get_volatility_info cfg monitor in
      let volatility_level := info_level volatility_info in
      let multiplier :=
        if String.eqb volatility_level "EXTREME"
        then max_spread_multiplier cfg
        else if String.eqb volatility_level "HIGH"
        then spread_adjustment_factor cfg
        else 1.0 in
      let adaptive_spread := base_spread * multiplier in
      (adaptive_spread, adaptive_spread)
  | _, _ => (base_spread, base_spread)
  end.

(** The divisor [total_position] is non-zero where the division happens. *)
Definition check_position_balance (cfg : Config) (s : Exchange)
           (monitor : option (VolatilityMonitor F)) (current_price : Q)
  : list Quote :=
  match enable_volatility_adaptive cfg, monitor with
  | true, Some _ =>
      let volatility_info := get_volatility_info cfg monitor in
      if negb (info_should_reduce_exposure volatility_info) then []
      else
        let net_position := get_net_position s in
        let long_pos := long_position s in
        let short_pos := short_position s in
        let total_position := long_pos + short_pos in
        if Decimal.eqb total_position 0 then []
        else
          let imbalance_ratio := Qabs net_position / total_position in
          let max_imbalance := max_imbalance_ratio cfg in
          let orders := [] in
          if Decimal.gtb imbalance_ratio max_imbalance then
            let target_imbalance :=
              max_imbalance * position_balance_ratio cfg in
            let target_net_position := total_position * target_imbalance in
            if Decimal.gtb net_position target_net_position then
              let excess_long := net_position - target_net_position in
              if Decimal.gtb long_pos 0 then
                let close_amount := Decimal.min excess_long long_pos in
                orders ++ [mk_quote "sell_long" close_amount current_price]
              else
                orders ++ [mk_quote "sell_short" excess_long current_price]
            else if Decimal.ltb net_position (- target_net_position) then
              let excess_short := Qabs net_position - target_net_position in
              if Decimal.gtb short_pos 0 then
                let close_amount := Decimal.min excess_short short_pos in
                orders ++ [mk_quote "buy_short" close_amount current_price]
              else
                orders ++ [mk_quote "buy_long" excess_short current_price]
            else orders
          else orders
  | _, _ => []
  end.

(** [generate_orders]; the result carries the orders and the value of
    [self.last_order_time] after the call. *)
Definition generate_orders (cfg : Config) (s : Exchange)
           (monitor : option (VolatilityMonitor F)) (last_order_time : Z)
           (current_price : Q) (timestamp : Z)
  : result (list Quote * Z) :=
  stop_loss_orders <- check_position_stop_loss cfg s current_price ;;
  match stop_loss_orders with
  | _ :: _ => Ok (stop_loss_orders, last_order_time)
  | [] =>
      let balance_orders :=
        check_position_balance cfg s monitor current_price in
      match balance_orders with
      | _ :: _ => Ok (balance_orders, last_order_time)
      | [] =>
          if negb (should_place_orders cfg last_order_time timestamp)
          then Ok ([], last_order_time)
          else
            let spreads := calculate_adaptive_spread cfg monitor in
            let bid_spread := fst spreads in
            let ask_spread := snd spreads in
            let one_minus_bid := 1 - bid_spread in
            let one_plus_ask := 1 + ask_spread in
            let bid_price := current_price * one_minus_bid in
            let ask_price := current_price * one_plus_ask in
            let long_pos := long_position s in
            let short_pos := short_position s in
            let current_equity := get_equity s in
            let available_margin := get_available_margin s in
            let orders := [] in
            let current_max_leverage := get_current_max_leverage s in
            let tier := get_current_leverage_tier s in
            let max_position_value_ratio := max_position_value_ratio cfg in
            let max_position_value_in_tier :=
              min_bound (threshold tier)
                        (current_equity * Decimal.of_int (max_leverage tier)
                         * max_position_value_ratio) in
            max_position_size <-
              Decimal.div max_position_value_in_tier current_price ;;
            let total_position_value :=
              (long_pos + short_pos) * current_price in
            if Decimal.gtb total_position_value max_position_value_in_tier
            then Ok ([], last_order_time)
            else
              let effective_leverage :=
                Z.min current_max_leverage (leverage cfg) in
              let half_max_position := max_position_size * 0.5 in
              let safety_margin_multiplier := 2 in
              let effective_leverage_decimal :=
                Decimal.of_int effective_leverage in
              orders <-
                (if Decimal.ltb long_pos half_max_position then
                   open_long_amount <-
                     calculate_dynamic_order_size cfg s current_price ;;
                   required_margin <-
                     Decimal.div (open_long_amount * bid_price)
                                 effective_leverage_decimal ;;
                   if Decimal.gtb available_margin
                                  (required_margin * safety_margin_multiplier)
                   then Ok (orders
                              ++ [mk_quote "buy_long" open_long_amount
                                           bid_price])
                   else Ok orders
                 else Ok orders) ;;
              orders <-
                (if Decimal.ltb short_pos half_max_position then
                   open_short_amount <-
                     calculate_dynamic_order_size cfg s current_price ;;
                   required_margin <-
                     Decimal.div (open_short_amount * ask_price)
                                 effective_leverage_decimal ;;
                   if Decimal.gtb available_margin
                                  (required_margin * safety_margin_multiplier)
                   then Ok (orders
                              ++ [mk_quote "sell_short" open_short_amount
                                           ask_price])
                   else Ok orders
                 else Ok orders) ;;
              orders <-
                (if Decimal.gtb long_pos 0 then
                   close_long_amount <-
                     calculate_dynamic_order_size cfg s current_price ;;
                   let close_price := ask_price * (1 + ask_spread) in
                   Ok (orders
                         ++ [mk_quote "sell_long"
                                      (Decimal.min close_long_amount long_pos)
                                      close_price])
                 else Ok orders) ;;
              orders <-
                (if Decimal.gtb short_pos 0 then
                   close_short_amount <-
                     calculate_dynamic_order_size cfg s current_price ;;
                   let close_price := bid_price * (1 - bid_spread) in
                   Ok (orders
                         ++ [mk_quote "buy_short"
                                      (Decimal.min close_short_amount
                                                   short_pos)
                                      close_price])
                 else Ok orders) ;;
              Ok (orders, timestamp)
      end
  end.

(** One sub-point of the candle loop of [run_fast_perpetual_backtest]:
    the body of [for j, (price, high_since_open, low_since_open) in
    enumerate(price_trajectory)], after the three floats have been turned
    into Decimals.  The boolean is True when the loop breaks on a
    liquidation; the integer is the strategy's [last_order_time]. *)
Definition process_sub_point (cfg : Config) (s : Exchange)
           (monitor : option (VolatilityMonitor F)) (last_order_time : Z)
           (kline_timestamp j : Z) (price high_since_open low_since_open : Q)
  : result (bool * Exchange * Z) :=
  let sub_timestamp := (kline_timestamp + j * 12)%Z in
  let sub_timestamp :=
    if (sub_timestamp >? 2147483647)%Z || (sub_timestamp <? 0)%Z
    then kline_timestamp else sub_timestamp in
  let current_price_decimal := price in
  let s := set_current_price current_price_decimal s in
  r <- check_and_handle_liquidation s sub_timestamp ;;
  let s := snd r in
  if fst r then Ok (true, s, last_order_time)
  else
    g <- generate_orders cfg s monitor last_order_time
                         current_price_decimal sub_timestamp ;;
    let orders := fst g in
    let last_order_time := snd g in
    let s :=
      match orders with
      | _ :: _ => place_orders_batch s orders
      | [] => s
      end in
    let high_decimal := high_since_open in
    let low_decimal := low_since_open in
    m <- fast_order_matching s high_decimal low_decimal sub_timestamp ;;
    Ok (false, snd m, last_order_time).

(** The loop [for j, (price, high_since_open, low_since_open) in
    enumerate(price_trajectory)] from index [j] on; it stops at the first
    sub-point that liquidates. *)
Fixpoint run_sub_points (cfg : Config) (s : Exchange)
         (monitor : option (VolatilityMonitor F))
         (last_order_time kline_timestamp j : Z)
         (price_trajectory : list (Q * Q * Q))
  : result (bool * Exchange * Z) :=
  match price_trajectory with
  | [] => Ok (false, s, last_order_time)
  | (price, high_since_open, low_since_open) :: rest =>
      r <- process_sub_point cfg s monitor last_order_time kline_timestamp j
                             price high_since_open low_since_open ;;
      if fst (fst r) then Ok r
      else run_sub_points cfg (snd (fst r)) monitor (snd r) kline_timestamp
                          (j + 1)%Z rest
  end.

End Strategy.

Arguments get_current_atr_percentage {F} fdiv fmul100 fpositive fzero vm.
Arguments get_volatility_level {F} fdiv fmul100 fpositive fge fzero
  float_of_decimal cfg vm.
Arguments should_reduce_exposure {F} fdiv fmul100 fpositive fge fzero
  float_of_decimal cfg vm.
Arguments mk_volatility_info {F} _ _ _.
Arguments info_level {F} _.
Arguments info_atr_percentage {F} _.
Arguments info_should_reduce_exposure {F} _.
Arguments get_volatility_info {F} fdiv fmul100 fpositive fge fzero
  float_of_decimal cfg monitor.
Arguments calculate_adaptive_spread {F} fdiv fmul100 fpositive fge fzero
  float_of_decimal cfg monitor.
Arguments check_position_balance {F} fdiv fmul100 fpositive fge fzero
  float_of_decimal cfg s monitor current_price.
Arguments generate_orders {F} fdiv fmul100 fpositive fge fzero
  float_of_decimal cfg s monitor last_order_time current_price timestamp.
Arguments process_sub_point {F} fdiv fmul100 fpositive fge fzero
  float_of_decimal cfg s monitor last_order_time kline_timestamp j price
  high_since_open low_since_open.
Arguments run_sub_points {F} fdiv fmul100 fpositive fge fzero
  float_of_decimal cfg s monitor last_order_time kline_timestamp j
  price_trajectory.

(** The risk monitor at the end of a candle of
    [run_fast_perpetual_backtest]: the block under
    [if RISK_CONFIG["enable_stop_loss"] and not liquidated].  The result is
    [stopped_by_risk] (True when the candle loop breaks), the exchange and
    [peak_equity]. *)
Definition risk_monitor (cfg : Config) (s : Exchange) (liquidated : bool)
           (peak_equity : Q) (kline_timestamp : Z)
  : result (bool * Exchange * Q) :=
  if enable_stop_loss cfg && negb liquidated then
    let equity_now := get_equity s in
    let peak_equity :=
      if Decimal.gtb equity_now peak_equity then equity_now
      else peak_equity in
    drawdown_pct <-
      (if Decimal.gtb peak_equity 0
       then Decimal.div (peak_equity - equity_now) peak_equity
       else Ok 0) ;;
    if Decimal.leb equity_now (min_equity cfg)
       || Decimal.geb drawdown_pct (max_drawdown cfg)
    then
      s <- close_all_positions_market s kline_timestamp ;;
      Ok (true, s, peak_equity)
    else Ok (false, s, peak_equity)
  else Ok (false, s, peak_equity).

(** ** Objects used in examples of the further properties *)

(** One long and one short unit, both entered at 3000, balance 700,
    marked at [mark]. *)
Definition hedged_exchange (mark : Q) : Exchange :=
  mk_exchange 700 700 1 1 3000 3000 125 125 mark [] []
              [mk_trade 1704067200 "buy_long" 1 3000 0 0 125;
               mk_trade 1704067200 "sell_short" 1 3000 0 0 125]
              [] [] 3 0 0.0000 0.0005 false None 0 19 0.30.

(** ** Vocabulary of the further properties *)

(** One side of the book is well formed: the quantity is not negative,
    the entry price is 0 when nothing is held and positive otherwise. *)
Definition side_ok (qty entry : Q) : Prop :=
  0 <= qty /\ (qty == 0 -> entry == 0) /\ (0 < qty -> 0 < entry).

Definition book_ok (s : Exchange) : Prop :=
  side_ok (long_position s) (long_entry_price s)
  /\ side_ok (short_position s) (short_entry_price s).

(** Every resting order has a positive quantity and a positive price. *)
Definition orders_ok (l : list Order) : Prop :=
  Forall (fun o => 0 < order_amount o /\ 0 < order_price o) l.

Definition exchange_ok (s : Exchange) : Prop :=
  book_ok s /\ payout_day_ok s
  /\ orders_ok (active_buy_orders s) /\ orders_ok (active_sell_orders s).

(** [s'] has the attributes of [s] that no trading method assigns: the
    initial margin balance, the configured leverage, the mark price, the
    fee rates, the rebate configuration and the equity samples. *)
Definition same_config (s s' : Exchange) : Prop :=
  margin_balance s' = margin_balance s
  /\ base_leverage s' = base_leverage s
  /\ current_price s' = current_price s
  /\ maker_fee s' = maker_fee s
  /\ taker_fee s' = taker_fee s
  /\ use_fee_rebate s' = use_fee_rebate s
  /\ rebate_payout_day s' = rebate_payout_day s
  /\ rebate_rate s' = rebate_rate s
  /\ equity_history s' = equity_history s.

(** The resting form (price, amount, side) of a strategy order. *)
Definition order_of_quote (q : Quote) : Order :=
  mk_order (quote_price q) (quote_amount q) (quote_side q).

(** The test of [place_orders_batch] for the buy list. *)
Definition is_buy_side (side : string) : bool :=
  String.eqb side "buy_long" || String.eqb side "buy_short".

(** Every submitted order has a positive quantity and a positive price. *)
Definition quotes_ok (orders : list Quote) : Prop :=
  Forall (fun q => 0 < quote_amount q /\ 0 < quote_price q) orders.

(** A spread the quoting arithmetic can use: in [0, 1). *)
Definition spread_ok (x : Q) : Prop := 0 <= x /\ x < 1.

(** The configuration is usable: a leverage of at least 1, a positive
    minimum order quantity, and spreads in [0, 1) at every volatility
    level. *)
Definition config_ok (cfg : Config) : Prop :=
  (1 <= leverage cfg)%Z
  /\ 0 < min_order_amount cfg
  /\ spread_ok (base_spread cfg)
  /\ spread_ok (base_spread cfg * max_spread_multiplier cfg)
  /\ spread_ok (base_spread cfg * spread_adjustment_factor cfg).

(** The floor of [calculate_dynamic_order_size]:
    max(min_order_amount, equity / 1000 / price). *)
Definition order_size_floor (cfg : Config) (s : Exchange) (price : Q) : Q :=
  decimal_max (min_order_amount cfg) (get_equity s / 1000 / price).

(** The stop-loss tests of [check_position_stop_loss], without the
    division: the side is held and the adverse move from the entry price
    is at least [position_stop_loss] of it. *)
Definition long_stop_hit (cfg : Config) (s : Exchange) (price : Q) : Prop :=
  0 < long_position s
  /\ position_stop_loss cfg * long_entry_price s
     <= long_entry_price s - price.

Definition short_stop_hit (cfg : Config) (s : Exchange) (price : Q) : Prop :=
  0 < short_position s
  /\ position_stop_loss cfg * short_entry_price s
     <= price - short_entry_price s.

(** A strategy order fits the book [s] at the mark [price]: positive
    quantity and price, a buy priced at or below the mark and a sell at or
    above it, and a closing order for no more than is held. *)
Definition quote_fits (s : Exchange) (price : Q) (q : Quote) : Prop :=
  0 < quote_amount q /\ 0 < quote_price q
  /\ (if is_buy_side (quote_side q)
      then quote_price q <= price else price <= quote_price q)
  /\ (quote_side q = "sell_long"%string -> quote_amount q <= long_position s)
  /\ (quote_side q = "buy_short"%string
      -> quote_amount q <= short_position s).

(** The price of the last sub-point of a trajectory, [mark] when the
    trajectory is empty. *)
Definition last_price (mark : Q) (price_trajectory : list (Q * Q * Q)) : Q :=
  fold_left (fun _ point => fst (fst point)) price_trajectory mark.

(** The sub-timestamp of sub-point [j] of the candle at [kline_timestamp]. *)
Definition sub_timestamp_of (kline_timestamp j : Z) : Z :=
  let sub_timestamp := (kline_timestamp + j * 12)%Z in
  if (sub_timestamp >? 2147483647)%Z || (sub_timestamp <? 0)%Z
  then kline_timestamp else sub_timestamp.

(** What a fill at [price] is worth against the mark price: the filled
    quantity times the distance between the two, in the fill's favour. *)
Definition fill_gain (s : Exchange) (side : string) (amount price : Q) : Q :=
  if String.eqb side "buy_long"
  then amount * (current_price s - price)
  else if String.eqb side "sell_short"
  then amount * (price - current_price s)
  else if String.eqb side "sell_long"
  then Decimal.min amount (long_position s) * (price - current_price s)
  else if String.eqb side "buy_short"
  then Decimal.min amount (short_position s) * (current_price s - price)
  else 0.

(** What the second addition of the quantity is worth when an opening
    fill adds to a side that is already held: the quantity times the
    distance between the mark price and the new entry price. *)
Definition double_count_gain (s : Exchange) (side : string)
           (amount price : Q) : Q :=
  if String.eqb side "buy_long" then
    if Decimal.eqb (long_position s) 0 then 0
    else amount
         * (current_price s
            - (long_position s * long_entry_price s + amount * price)
              / (long_position s + amount))
  else if String.eqb side "sell_short" then
    if Decimal.eqb (short_position s) 0 then 0
    else amount
         * ((short_position s * short_entry_price s + amount * price)
            / (short_position s + amount)
            - current_price s)
  else 0.

(** ** The candle loop of [run_fast_perpetual_backtest]

    The candles are rows of floats; the floats are finite, so that
    [Decimal(str(x))] is a number.  Beside the primitives of the
    trajectory, of the monitor and of the volatility classification, the
    conversion [Decimal(str(x))] is a primitive. *)

Section Backtest.

Variable F : Type.
Variable num_ge : F -> F -> bool.     (* a >= b                *)
Variable fsub : F -> F -> F.          (* a - b                 *)
Variable fabs : F -> F.               (* abs(a)                *)
Variable fgt : F -> F -> bool.        (* a > b                 *)
Variable fsum : list F -> F.          (* sum(xs)               *)
Variable fdiv_len : F -> nat -> F.    (* a / n, n = len(...)   *)
Variable fdiv : F -> F -> F.          (* a / b                 *)
Variable fmul100 : F -> F.            (* a * 100               *)
Variable fpositive : F -> bool.       (* a > 0                 *)
Variable fge : F -> F -> bool.        (* a >= b                *)
Variable fzero : F.                   (* 0.0                   *)
Variable float_of_decimal : Q -> F.   (* float(d)              *)
Variable decimal_of_float : F -> Q.   (* Decimal(str(x))       *)

(** [FastPerpetualExchange.update_volatility_monitor] *)
Definition update_volatility_monitor
           (monitor : option (VolatilityMonitor F))
           (timestamp : Z) (high low close : F)
  : option (VolatilityMonitor F) :=
  match monitor with
  | Some vm =>
      Some (update_price fsub fabs fgt fsum fdiv_len vm timestamp
                         high low close)
  | None => None
  end.

(** The monitor after one call of [update_volatility_monitor] per bar. *)
Definition feed_monitor (vm : VolatilityMonitor F) (bars : list (bar F))
  : VolatilityMonitor F :=
  fold_left
    (fun vm b =>
       update_price fsub fabs fgt fsum fdiv_len vm (bar_timestamp b)
                    (bar_high b) (bar_low b) (bar_close b))
    bars vm.

(** One row: [timestamps[i]] and [o, h, l, c = ohlc_data[i]]. *)
Record Candle : Type := mk_candle {
  candle_timestamp : Z;
  candle_open : F;
  candle_high : F;
  candle_low : F;
  candle_close : F
}.

(** The variables of the loop: the exchange and its monitor, the
    strategy's [last_order_time], and the locals [prev_close],
    [peak_equity], [liquidated] and [stopped_by_risk]. *)
Record Backtest : Type := mk_backtest {
  bt_exchange : Exchange;
  bt_monitor : option (VolatilityMonitor F);
  bt_last_order_time : Z;
  bt_prev_close : F;
  bt_peak_equity : Q;
  bt_liquidated : bool;
  bt_stopped_by_risk : bool
}.

(** The three floats of a sub-point as the loop body converts them. *)
Definition decimal_point (p : sample F) : Q * Q * Q :=
  (decimal_of_float (sample_price p),
   decimal_of_float (sample_high p),
   decimal_of_float (sample_low p)).

(** The body of [for i in range(data_length)] up to the risk monitor. *)
Definition process_candle (cfg : Config) (st : Backtest) (k : Candle)
  : result Backtest :=
  let kline_timestamp := candle_timestamp k in
  let o := candle_open k in
  let h := candle_high k in
  let l := candle_low k in
  let c := candle_close k in
  let price_trajectory :=
    get_price_trajectory_vectorized num_ge o h l c (bt_prev_close st) in
  r <- run_sub_points fdiv fmul100 fpositive fge fzero float_of_decimal
                      cfg (bt_exchange st) (bt_monitor st)
                      (bt_last_order_time st) kline_timestamp 0
                      (map decimal_point price_trajectory) ;;
  let liquidated := if fst (fst r) then true else bt_liquidated st in
  let s := snd (fst r) in
  let last_order_time := snd r in
  let prev_close := c in
  let monitor :=
    update_volatility_monitor (bt_monitor st) kline_timestamp h l c in
  let s :=
    if (kline_timestamp <=? 2147483647)%Z && (kline_timestamp >=? 0)%Z
    then record_equity s kline_timestamp else s in
  rk <- risk_monitor cfg s liquidated (bt_peak_equity st) kline_timestamp ;;
  let stopped_by_risk :=
    if fst (fst rk) then true else bt_stopped_by_risk st in
  Ok (mk_backtest (snd (fst rk)) monitor last_order_time prev_close
                  (snd rk) liquidated stopped_by_risk).

(** The loop [for i in range(data_length)]: it stops after the candle
    that liquidates or that the risk monitor stops. *)
Fixpoint run_candles (cfg : Config) (st : Backtest) (candles : list Candle)
  : result Backtest :=
  match candles with
  | [] => Ok st
  | k :: rest =>
      st <- process_candle cfg st k ;;
      if bt_liquidated st || bt_stopped_by_risk st then Ok st
      else run_candles cfg st rest
  end.

End Backtest.

Arguments update_volatility_monitor {F} fsub fabs fgt fsum fdiv_len monitor
  timestamp high low close.
Arguments feed_monitor {F} fsub fabs fgt fsum fdiv_len vm bars.
Arguments mk_candle {F} _ _ _ _ _.
Arguments candle_timestamp {F} _.
Arguments candle_open {F} _.
Arguments candle_high {F} _.
Arguments candle_low {F} _.
Arguments candle_close {F} _.
Arguments mk_backtest {F} _ _ _ _ _ _ _.
Arguments bt_exchange {F} _.
Arguments bt_monitor {F} _.
Arguments bt_last_order_time {F} _.
Arguments bt_prev_close {F} _.
Arguments bt_peak_equity {F} _.
Arguments bt_liquidated {F} _.
Arguments bt_stopped_by_risk {F} _.
Arguments decimal_point {F} decimal_of_float p.
Arguments process_candle {F} num_ge fsub fabs fgt fsum fdiv_len fdiv fmul100
  fpositive fge fzero float_of_decimal decimal_of_float cfg st k.
Arguments run_candles {F} num_ge fsub fabs fgt fsum fdiv_len fdiv fmul100
  fpositive fge fzero float_of_decimal decimal_of_float cfg st candles.

(** The last [k] entries of a list (all of them when it is shorter). *)
Definition last_entries {A : Type} (k : nat) (l : list A) : list A :=
  skipn (List.length l - k) l.

(** The four prices of a candle convert to positive decimals. *)
Definition candle_positive {F : Type} (decimal_of_float : F -> Q)
           (k : Candle F) : Prop :=
  0 < decimal_of_float (candle_open k)
  /\ 0 < decimal_of_float (candle_high k)
  /\ 0 < decimal_of_float (candle_low k)
  /\ 0 < decimal_of_float (candle_close k).

(** The timestamps for which the loop records an equity sample. *)
Definition recordable (timestamp : Z) : bool :=
  (timestamp <=? 2147483647)%Z && (timestamp >=? 0)%Z.

(** The monitor entry of a candle: (timestamp, high, low, close). *)
Definition bar_of_candle {F : Type} (k : Candle F) : bar F :=
  mk_bar (candle_timestamp k) (candle_high k) (candle_low k)
         (candle_close k).

(** ** Win-rate pairing

    [run_fast_perpetual_backtest] pairs opening and closing trades twice,
    once before the performance analysis and once for its result; the
    second copy also stores the timestamp of an opening trade.
    [str.upper] is a primitive. *)

Section WinRate.

Variable upper : string -> string.    (* s.upper() *)

(** The locals of the pairing loop; [E] is the stored opening trade. *)
Record Pairing (E : Type) : Type := mk_pairing {
  long_positions : list E;
  short_positions : list E;
  profitable_trades : Z;
  total_trade_pairs : Z
}.

Arguments mk_pairing {E} _ _ _ _.
Arguments long_positions {E} _.
Arguments short_positions {E} _.
Arguments profitable_trades {E} _.
Arguments total_trade_pairs {E} _.

Definition nonempty {A : Type} (l : list A) : bool :=
  match l with [] => false | _ :: _ => true end.

(** The body of the first loop: the stored dict is
    {'price': price, 'amount': amount}. *)
Definition pair_trade_temp (st : Pairing (Q * Q)) (trade : TradeRecord)
  : Pairing (Q * Q) :=
  let side := upper (tr_side trade) in
  let price := tr_price trade in
  let amount := tr_amount trade in
  if String.eqb side "BUY_LONG" then
    mk_pairing (long_positions st ++ [(price, amount)]) (short_positions st)
               (profitable_trades st) (total_trade_pairs st)
  else if String.eqb side "SELL_LONG" && nonempty (long_positions st) then
    match long_positions st with
    | open_trade :: rest =>
        let pnl :=
          (price - fst open_trade) * Decimal.min amount (snd open_trade) in
        mk_pairing rest (short_positions st)
                   (if Decimal.gtb pnl 0 then profitable_trades st + 1
                    else profitable_trades st)
                   (total_trade_pairs st + 1)
    | [] => st
    end
  else if String.eqb side "SELL_SHORT" then
    mk_pairing (long_positions st) (short_positions st ++ [(price, amount)])
               (profitable_trades st) (total_trade_pairs st)
  else if String.eqb side "BUY_SHORT" && nonempty (short_positions st) then
    match short_positions st with
    | open_trade :: rest =>
        let pnl :=
          (fst open_trade - price) * Decimal.min amount (snd open_trade) in
        mk_pairing (long_positions st) rest
                   (if Decimal.gtb pnl 0 then profitable_trades st + 1
                    else profitable_trades st)
                   (total_trade_pairs st + 1)
    | [] => st
    end
  else st.

(** The body of the second loop: the stored dict is
    {'price': price, 'amount': amount, 'timestamp': timestamp}. *)
Definition pair_trade (st : Pairing (Q * Q * Z)) (trade : TradeRecord)
  : Pairing (Q * Q * Z) :=
  let side := upper (tr_side trade) in
  let price := tr_price trade in
  let amount := tr_amount trade in
  let timestamp := tr_timestamp trade in
  if String.eqb side "BUY_LONG" then
    mk_pairing (long_positions st ++ [(price, amount, timestamp)])
               (short_positions st)
               (profitable_trades st) (total_trade_pairs st)
  else if String.eqb side "SELL_LONG" && nonempty (long_positions st) then
    match long_positions st with
    | open_trade :: rest =>
        let pnl :=
          (price - fst (fst open_trade))
          * Decimal.min amount (snd (fst open_trade)) in
        mk_pairing rest (short_positions st)
                   (if Decimal.gtb pnl 0 then profitable_trades st + 1
                    else profitable_trades st)
                   (total_trade_pairs st + 1)
    | [] => st
    end
  else if String.eqb side "SELL_SHORT" then
    mk_pairing (long_positions st)
               (short_positions st ++ [(price, amount, timestamp)])
               (profitable_trades st) (total_trade_pairs st)
  else if String.eqb side "BUY_SHORT" && nonempty (short_positions st) then
    match short_positions st with
    | open_trade :: rest =>
        let pnl :=
          (fst (fst open_trade) - price)
          * Decimal.min amount (snd (fst open_trade)) in
        mk_pairing (long_positions st) rest
                   (if Decimal.gtb pnl 0 then profitable_trades st + 1
                    else profitable_trades st)
                   (total_trade_pairs st + 1)
    | [] => st
    end
  else st.

(** (profitable_trades_temp, total_trade_pairs_temp) of the first copy. *)
Definition count_trade_pairs_temp (trade_history : list TradeRecord)
  : Z * Z :=
  if (len trade_history >? 1)%Z then
    let st := fold_left pair_trade_temp trade_history
                        (mk_pairing [] [] 0%Z 0%Z) in
    (profitable_trades st, total_trade_pairs st)
  else (0%Z, 0%Z).

(** (profitable_trades, total_trade_pairs) of the second copy. *)
Definition count_trade_pairs (trade_history : list TradeRecord) : Z * Z :=
  if (len trade_history >? 1)%Z then
    let st := fold_left pair_trade trade_history
                        (mk_pairing [] [] 0%Z 0%Z) in
    (profitable_trades st, total_trade_pairs st)
  else (0%Z, 0%Z).

End WinRate.

Arguments mk_pairing {E} _ _ _ _.
Arguments long_positions {E} _.
Arguments short_positions {E} _.
Arguments profitable_trades {E} _.
Arguments total_trade_pairs {E} _.

(** The two copies of the pairing loop are in step: same counters, and the
    same opening trades once the timestamps of the second copy are
    dropped. *)
Definition pairing_agrees (st1 : Pairing (Q * Q)) (st2 : Pairing (Q * Q * Z))
  : Prop :=
  long_positions st1 = map fst (long_positions st2)
  /\ short_positions st1 = map fst (short_positions st2)
  /\ profitable_trades st1 = profitable_trades st2
  /\ total_trade_pairs st1 = total_trade_pairs st2.

(** After [processed] trades: every pair used two of them, every stored
    opening trade one. *)
Definition pairing_bounded {E : Type} (st : Pairing E) (processed : Z)
  : Prop :=
  (0 <= profitable_trades st <= total_trade_pairs st)%Z
  /\ (2 * total_trade_pairs st + len (long_positions st)
      + len (short_positions st) <= processed)%Z.

(** ** Further objects used in examples *)

(** The module's configuration with the per-position stop loss enabled. *)
Definition stop_loss_config : Config :=
  mk_config 125 true 0.009 999.0 1 15.0 0.05 true
            true 0.30 0.50 0.8 0.3 0.002 3.0 2.0
            false 0.30 300.

(** The module's configuration with the risk monitor enabled. *)
Definition risk_config : Config :=
  mk_config 125 true 0.009 999.0 1 15.0 0.05 false
            true 0.30 0.50 0.8 0.3 0.002 3.0 2.0
            true 0.30 300.

(** A monitor whose latest ATR is 40 percent of the last close. *)
Definition volatile_monitor : VolatilityMonitor Q :=
  mk_monitor 1 [mk_bar 0 10 8 9; mk_bar 60 12 9 10] [4].

(** Three sub-points of a candle: (price, high so far, low so far). *)
Definition three_sub_points : list (Q * Q * Q) :=
  [(3000, 3000, 3000); (3010, 3010, 3000); (2990, 3010, 2990)].

(** Two one-minute candles around 3000. *)
Definition two_candles : list (Candle Q) :=
  [mk_candle 1704067200 3000 3010 2990 3005;
   mk_candle 1704067260 3005 3020 3000 3010].

(** The loop variables before the first candle, balance 700, previous
    close 3000, with the monitor the default configuration creates. *)
Definition initial_backtest : Backtest Q :=
  mk_backtest (new_exchange 700) (Some (new_monitor 1440)) 0 3000 700
              false false.

(** Four orders around 3000 as the strategy would submit them. *)
Definition four_quotes : list Quote :=
  [mk_quote "buy_long" 1 2990; mk_quote "buy_long" 1 2900;
   mk_quote "sell_long" 0.5 3010; mk_quote "sell_long" 0.5 3100].

(** * Properties *)

(** ** Python lists *)

Lemma len_app_one {A : Type} (l : list A) (x : A) :
  len (l ++ [x]) = (len l + 1)%Z.
Proof. unfold len. rewrite length_app, Nat2Z.inj_add. reflexivity. Qed.

Lemma len_pop0 {A : Type} (l : list A) :
  l <> [] -> len (pop0 l) = (len l - 1)%Z.
Proof.
  destruct l as [|a l]; [congruence|].
  intros _. unfold len, pop0. cbn [tl List.length].
  rewrite Nat2Z.inj_succ. lia.
Qed.

Lemma pop0_app_one {A : Type} (l : list A) (x : A) :
  l <> [] -> pop0 (l ++ [x]) = pop0 l ++ [x].
Proof. destruct l; [congruence | reflexivity]. Qed.

(** ** Decimal comparisons *)

Lemma decimal_eqb_iff (a b : Q) : Decimal.eqb a b = true <-> a == b.
Proof.
  unfold Decimal.eqb. rewrite Qeq_alt.
  destruct (a ?= b); split; congruence.
Qed.

Lemma decimal_leb_iff (a b : Q) : Decimal.leb a b = true <-> a <= b.
Proof.
  unfold Decimal.leb. split.
  - intros H. destruct (Qlt_le_dec b a) as [Hlt|Hle]; [|exact Hle].
    apply (proj1 (Qgt_alt a b)) in Hlt. rewrite Hlt in H. discriminate.
  - intros Hle. destruct (a ?= b) eqn:Hc; trivial.
    apply (proj2 (Qgt_alt a b)) in Hc. exfalso. apply (Qlt_not_le _ _ Hc Hle).
Qed.

Lemma decimal_ltb_iff (a b : Q) : Decimal.ltb a b = true <-> a < b.
Proof.
  unfold Decimal.ltb. rewrite Qlt_alt.
  destruct (a ?= b); split; congruence.
Qed.

Lemma decimal_gtb_iff (a b : Q) : Decimal.gtb a b = true <-> b < a.
Proof.
  unfold Decimal.gtb. rewrite Qgt_alt.
  destruct (a ?= b); split; congruence.
Qed.

Lemma decimal_geb_iff (a b : Q) : Decimal.geb a b = true <-> b <= a.
Proof.
  unfold Decimal.geb. split.
  - intros H. destruct (Qlt_le_dec a b) as [Hlt|Hle]; [|exact Hle].
    apply (proj1 (Qlt_alt a b)) in Hlt. rewrite Hlt in H. discriminate.
  - intros Hle. destruct (a ?= b) eqn:Hc; trivial.
    apply (proj2 (Qlt_alt a b)) in Hc. exfalso. apply (Qlt_not_le _ _ Hc Hle).
Qed.

(** [low > price] is the negation of [low <= price]. *)
Lemma decimal_gtb_negb_leb (a b : Q) : Decimal.gtb a b = negb (Decimal.leb a b).
Proof. unfold Decimal.gtb, Decimal.leb. destruct (a ?= b); reflexivity. Qed.

(** [high < price] is the negation of [high >= price]. *)
Lemma decimal_ltb_negb_geb (a b : Q) : Decimal.ltb a b = negb (Decimal.geb a b).
Proof. unfold Decimal.ltb, Decimal.geb. destruct (a ?= b); reflexivity. Qed.

Lemma decimal_eqb_false_iff (a b : Q) : Decimal.eqb a b = false <-> ~ a == b.
Proof.
  rewrite <- decimal_eqb_iff. destruct (Decimal.eqb a b); split; congruence.
Qed.

Lemma decimal_gtb_false_iff (a b : Q) : Decimal.gtb a b = false <-> a <= b.
Proof.
  rewrite decimal_gtb_negb_leb, negb_false_iff. apply decimal_leb_iff.
Qed.

(** With [0 <= a], [min(a, b)] stays between 0 and [b] when [0 <= b]. *)
Lemma decimal_min_spec (a b : Q) :
  (b < a /\ Decimal.min a b = b) \/ (a <= b /\ Decimal.min a b = a).
Proof.
  unfold Decimal.min. destruct (Decimal.ltb b a) eqn:H.
  - left. apply decimal_ltb_iff in H. auto.
  - right. split; [|reflexivity].
    destruct (Qlt_le_dec b a) as [Hlt|Hle]; [|exact Hle].
    apply decimal_ltb_iff in Hlt. congruence.
Qed.

Lemma decimal_div_ok (a b : Q) :
  ~ b == 0 -> Decimal.div a b = Ok (a / b).
Proof.
  intros H. unfold Decimal.div.
  apply decimal_eqb_false_iff in H. rewrite H. reflexivity.
Qed.

(** ** Dates *)

Example to_datetime_epoch :
  Pandas.to_datetime 0 = Some (Pandas.mk_timestamp 1970 1 1 0 0 0).
Proof. reflexivity. Qed.

Example to_datetime_leap_day :
  Pandas.to_datetime 951782400 = Some (Pandas.mk_timestamp 2000 2 29 0 0 0).
Proof. reflexivity. Qed.

Example to_datetime_int32_max :
  Pandas.to_datetime 2147483647 = Some (Pandas.mk_timestamp 2038 1 19 3 14 7).
Proof. reflexivity. Qed.

Example to_datetime_before_epoch :
  Pandas.to_datetime (-1) = Some (Pandas.mk_timestamp 1969 12 31 23 59 59).
Proof. reflexivity. Qed.

Example to_datetime_lower_bound :
  Pandas.to_datetime (-9223372036) = Some (Pandas.mk_timestamp 1677 9 21 0 12 44).
Proof. reflexivity. Qed.

(** [>] on exact values is the [>] of an order. *)
Lemma decimal_gtb_strict_order : strict_order Decimal.gtb.
Proof.
  split.
  - intros a b H. apply decimal_gtb_iff in H.
    apply decimal_gtb_false_iff. lra.
  - intros a b c H1 H2. apply decimal_gtb_iff in H1.
    apply decimal_gtb_iff in H2. apply decimal_gtb_iff. lra.
Qed.

(** ** Price trajectory *)

Section TrajectoryProperties.

Variable num : Type.
Variable num_ge : num -> num -> bool.

Lemma trajectory_length (o h l c prev_close : num) :
  List.length (get_price_trajectory_vectorized num_ge o h l c prev_close)
  = 5%nat.
Proof.
  unfold get_price_trajectory_vectorized.
  destruct (num_ge c o); reflexivity.
Qed.

Lemma trajectory_row_eq_vectorized (o h l c prev_close : num) :
  get_price_trajectory num_ge (mk_kline o h l c) prev_close
  = get_price_trajectory_vectorized num_ge o h l c prev_close.
Proof. reflexivity. Qed.

(** C8.  The trajectory of a candle is a function of
    (open, high, low, close, prevClose) alone and always has exactly five
    samples; its prices are prevClose, open, low, high, close when the test
    [close >= open] succeeds (low before high) and prevClose, open, high,
    low, close when it fails (high before low).  The row-based
    [get_price_trajectory] returns the same list as the vectorized one. *)
Theorem price_trajectory_five_points :
  forall o h l c prev_close : num,
    let traj := get_price_trajectory_vectorized num_ge o h l c prev_close in
    List.length traj = 5%nat
    /\ map sample_price traj
       = (if num_ge c o
          then [prev_close; o; l; h; c]
          else [prev_close; o; h; l; c])
    /\ get_price_trajectory num_ge (mk_kline o h l c) prev_close = traj.
Proof.
  intros o h l c prev_close traj. subst traj.
  split; [apply trajectory_length|].
  split; [|apply trajectory_row_eq_vectorized].
  unfold get_price_trajectory_vectorized.
  destruct (num_ge c o); reflexivity.
Qed.

End TrajectoryProperties.

(** ** VolatilityMonitor *)

Section VolatilityMonitorProperties.

Local Open Scope Z_scope.

Variable F : Type.
Variable fsub : F -> F -> F.
Variable fabs : F -> F.
Variable fgt : F -> F -> bool.
Variable fsum : list F -> F.
Variable fdiv_len : F -> nat -> F.

Abbreviation true_ranges' := (true_ranges fsub fabs fgt).
Abbreviation calculate_atr' := (_calculate_atr fsub fabs fgt fsum fdiv_len).
Abbreviation update_price' := (update_price fsub fabs fgt fsum fdiv_len).
Abbreviation atr_of' := (atr_of fsub fabs fgt fsum fdiv_len).

Lemma true_ranges_length (h : list (bar F)) :
  List.length (true_ranges' h) = (List.length h - 1)%nat.
Proof.
  induction h as [|previous rest IH]; [reflexivity|].
  destruct rest as [|current rest']; [reflexivity|].
  change (true_ranges' (previous :: current :: rest'))
    with (true_range fsub fabs fgt current previous
            :: true_ranges' (current :: rest')).
  cbn [List.length] in *. rewrite IH. lia.
Qed.

(** Entry [i] of the recomputed series is the true range of the adjacent
    pair (h[i+1], h[i]). *)
Lemma true_ranges_nth (h : list (bar F)) :
  forall (i : nat) (previous current : bar F),
    nth_error h i = Some previous ->
    nth_error h (S i) = Some current ->
    nth_error (true_ranges' h) i
    = Some (true_range fsub fabs fgt current previous).
Proof.
  induction h as [|b0 rest IH]; intros i previous current Hp Hc.
  - destruct i; discriminate.
  - destruct rest as [|b1 rest'].
    + destruct i; simpl in Hc; discriminate.
    + change (true_ranges' (b0 :: b1 :: rest'))
        with (true_range fsub fabs fgt b1 b0 :: true_ranges' (b1 :: rest')).
      destruct i as [|i].
      * simpl in Hp, Hc. inversion Hp; inversion Hc; subst. reflexivity.
      * simpl in Hp. cbn [nth_error] in Hc |- *.
        apply IH; assumption.
Qed.

Lemma calculate_atr_spec (vm : VolatilityMonitor F) :
  2 <= len (price_history vm) ->
  calculate_atr' vm
  = mk_monitor (atr_period vm) (price_history vm)
               (capped_append (atr_values vm) (atr_of' (price_history vm))).
Proof.
  intros H2. unfold _calculate_atr.
  destruct (len (price_history vm) <? 2) eqn:Hlt; [apply Z.ltb_lt in Hlt; lia|].
  pose proof (true_ranges_length (price_history vm)) as Hlen.
  unfold atr_of, capped_append.
  destruct (true_ranges' (price_history vm)) as [|t trs] eqn:Htr.
  - unfold len in H2. simpl in Hlen. lia.
  - reflexivity.
Qed.

Lemma capped_append_ends (vals : list F) (atr : F) :
  exists kept, capped_append vals atr = kept ++ [atr]
               /\ (kept = vals \/ kept = pop0 vals).
Proof.
  unfold capped_append.
  destruct (len (vals ++ [atr]) >? 100) eqn:Hc.
  - exists (pop0 vals). split; [|now right].
    apply pop0_app_one. intros ->. simpl in Hc. discriminate.
  - exists vals. auto.
Qed.

Lemma capped_append_len (vals : list F) (atr : F) :
  len vals <= 100 -> len (capped_append vals atr) <= 100.
Proof.
  intros H. unfold capped_append.
  destruct (len (vals ++ [atr]) >? 100) eqn:Hc.
  - rewrite len_pop0 by (destruct vals; discriminate).
    rewrite len_app_one. lia.
  - rewrite Z.gtb_ltb in Hc. apply Z.ltb_ge in Hc. exact Hc.
Qed.

Lemma update_price_history (vm : VolatilityMonitor F) ts high low close :
  price_history (update_price' vm ts high low close)
  = next_history vm ts high low close
  /\ atr_period (update_price' vm ts high low close) = atr_period vm.
Proof.
  unfold update_price, next_history.
  set (hist := if _ >? _ then _ else _).
  cbn [price_history atr_period atr_values].
  destruct (len hist >=? 2) eqn:H2.
  - rewrite calculate_atr_spec; [split; reflexivity|].
    cbn [price_history]. apply Z.geb_le in H2. lia.
  - split; reflexivity.
Qed.

Lemma next_history_len (vm : VolatilityMonitor F) ts high low close :
  len (price_history vm) <= atr_period vm + 1 ->
  len (next_history vm ts high low close) <= atr_period vm + 1.
Proof.
  intros H. unfold next_history.
  destruct (len (price_history vm ++ [mk_bar ts high low close])
            >? atr_period vm + 1) eqn:Hc.
  - rewrite len_pop0 by (destruct (price_history vm); discriminate).
    rewrite len_app_one. lia.
  - rewrite Z.gtb_ltb in Hc. apply Z.ltb_ge in Hc. exact Hc.
Qed.

(** A new monitor satisfies both bounds when its period is at least -1. *)
Lemma new_monitor_bounded (period : Z) :
  -1 <= period ->
  len (price_history (@new_monitor F period))
  <= atr_period (@new_monitor F period) + 1
  /\ len (atr_values (@new_monitor F period)) <= 100.
Proof. intros H. unfold len. cbn. lia. Qed.

(** Under an order, the builtin [max] of three values is one of them and
    none of them is greater. *)
Lemma max3_greatest (a b c : F) :
  strict_order fgt ->
  In (max3 fgt a b c) [a; b; c]
  /\ fgt a (max3 fgt a b c) = false
  /\ fgt b (max3 fgt a b c) = false
  /\ fgt c (max3 fgt a b c) = false.
Proof.
  intros [Hasym Htrans].
  assert (Hirr : forall x, fgt x x = false).
  { intros x. destruct (fgt x x) eqn:E; [|reflexivity].
    rewrite (Hasym x x E) in E. discriminate E. }
  assert (Hbelow : forall x y z, fgt x y = false -> fgt z y = true ->
                                 fgt x z = false).
  { intros x y z Hxy Hzy. destruct (fgt x z) eqn:E; [|reflexivity].
    rewrite (Htrans x z y E Hzy) in Hxy. discriminate Hxy. }
  unfold max3.
  destruct (fgt b a) eqn:Hba.
  - destruct (fgt c b) eqn:Hcb.
    + split; [cbn [In]; auto|].
      split; [apply (Hbelow a b c); [apply Hasym; exact Hba | exact Hcb]|].
      split; [apply Hasym; exact Hcb | apply Hirr].
    + split; [cbn [In]; auto|].
      split; [apply Hasym; exact Hba|].
      split; [apply Hirr | exact Hcb].
  - destruct (fgt c a) eqn:Hca.
    + split; [cbn [In]; auto|].
      split; [apply Hasym; exact Hca|].
      split; [apply (Hbelow b a c); assumption | apply Hirr].
    + split; [cbn [In]; auto|].
      split; [apply Hirr|].
      split; [exact Hba | exact Hca].
Qed.

(** C10.  [update_price] appends the new bar and evicts the oldest one when
    the history would exceed period+1 entries, so a history of at most
    period+1 entries stays so.  Whenever the resulting history has at least
    two entries, one ATR value is appended: the builtin sum of the true
    ranges divided by their number, where entry i of the true ranges is
    max(high - low, |high - prevClose|, |low - prevClose|) for the adjacent
    pair (history[i+1], history[i]): the value the builtin [max] returns,
    which, [>] being the [>] of an order, is one of the three ranges such
    that none of the three is greater.  The ATR list keeps at most 100
    values, the oldest being dropped.  With fewer than two entries no ATR
    value is appended. *)
Theorem update_price_history_bounded_atr_average :
  forall (vm : VolatilityMonitor F) (ts : Z) (high low close : F),
    len (price_history vm) <= atr_period vm + 1 ->
    len (atr_values vm) <= 100 ->
    let vm' := update_price' vm ts high low close in
    let appended := price_history vm ++ [mk_bar ts high low close] in
    let hist := price_history vm' in
    let trs := true_ranges' hist in
    hist = (if len appended >? atr_period vm + 1
            then pop0 appended else appended)
    /\ len hist <= atr_period vm + 1
    /\ atr_period vm' = atr_period vm
    /\ len (atr_values vm') <= 100
    /\ (len hist < 2 -> atr_values vm' = atr_values vm)
    /\ (2 <= len hist ->
        List.length trs = (List.length hist - 1)%nat
        /\ (forall (i : nat) (previous current : bar F),
               nth_error hist i = Some previous ->
               nth_error hist (S i) = Some current ->
               nth_error trs i
               = Some (max3 fgt
                         (fsub (bar_high current) (bar_low current))
                         (fabs (fsub (bar_high current) (bar_close previous)))
                         (fabs (fsub (bar_low current) (bar_close previous)))))
        /\ (strict_order fgt ->
            forall (i : nat) (previous current : bar F) (tr : F),
              nth_error hist i = Some previous ->
              nth_error hist (S i) = Some current ->
              nth_error trs i = Some tr ->
              let tr1 := fsub (bar_high current) (bar_low current) in
              let tr2 :=
                fabs (fsub (bar_high current) (bar_close previous)) in
              let tr3 :=
                fabs (fsub (bar_low current) (bar_close previous)) in
              In tr [tr1; tr2; tr3]
              /\ fgt tr1 tr = false
              /\ fgt tr2 tr = false
              /\ fgt tr3 tr = false)
        /\ exists kept,
            atr_values vm'
            = kept ++ [fdiv_len (fsum trs) (List.length trs)]
            /\ (kept = atr_values vm \/ kept = pop0 (atr_values vm))).
Proof.
  intros vm ts high low close Hh Ha vm' appended hist trs.
  destruct (update_price_history vm ts high low close) as [Hhist Hper].
  fold vm' in Hhist, Hper. fold hist in Hhist.
  assert (Hvals :
            atr_values vm'
            = if len hist >=? 2
              then capped_append (atr_values vm) (atr_of' hist)
              else atr_values vm).
  { subst hist. rewrite Hhist. subst vm'. unfold update_price.
    fold (next_history vm ts high low close).
    cbn [price_history atr_period atr_values].
    destruct (len (next_history vm ts high low close) >=? 2) eqn:H2.
    - rewrite calculate_atr_spec; [reflexivity|].
      cbn [price_history]. apply Z.geb_le in H2. lia.
    - reflexivity. }
  split; [exact Hhist|].
  split; [rewrite Hhist; apply next_history_len; exact Hh|].
  split; [exact Hper|].
  split.
  { rewrite Hvals. destruct (len hist >=? 2).
    - apply capped_append_len; exact Ha.
    - exact Ha. }
  split.
  { intros Hlt. rewrite Hvals.
    destruct (len hist >=? 2) eqn:H2; [apply Z.geb_le in H2; lia|reflexivity]. }
  intros H2.
  split; [apply true_ranges_length|].
  split.
  { intros i previous current Hp Hc.
    apply (true_ranges_nth hist i previous current Hp Hc). }
  split.
  { intros Hord i previous current tr Hp Hc Htr tr1 tr2 tr3.
    pose proof (true_ranges_nth hist i previous current Hp Hc) as Hentry.
    unfold trs in Htr. rewrite Hentry in Htr.
    inversion Htr; subst tr. unfold true_range. cbv zeta.
    apply max3_greatest. exact Hord. }
  rewrite Hvals.
  destruct (len hist >=? 2) eqn:H2b;
    [|apply Z.geb_le in H2; rewrite H2 in H2b; discriminate].
  apply capped_append_ends.
Qed.

End VolatilityMonitorProperties.

(** ** Fee rebate *)

Lemma days_in_month_ge_28 (y m : Z) : (28 <= Pandas.days_in_month y m)%Z.
Proof.
  unfold Pandas.days_in_month.
  destruct (m =? 2)%Z; [destruct (Pandas.is_leap y); lia|].
  destruct ((m =? 4) || (m =? 6) || (m =? 9) || (m =? 11))%Z; lia.
Qed.

Lemma replace_day_ok (t : Pandas.Timestamp) (d : Z) :
  (1 <= d <= Pandas.days_in_month (Pandas.year t) (Pandas.month t))%Z ->
  Pandas.replace_day t d
  = Ok (Pandas.mk_timestamp (Pandas.year t) (Pandas.month t) d 0 0 0).
Proof.
  intros [H1 H2]. unfold Pandas.replace_day.
  apply Z.leb_le in H1. apply Z.leb_le in H2.
  rewrite H1, H2. reflexivity.
Qed.

Lemma to_datetime_representable (timestamp : Z) :
  representable timestamp ->
  (timestamp >? 2147483647)%Z = false
  /\ exists current_date, Pandas.to_datetime timestamp = Some current_date.
Proof.
  unfold representable, Pandas.min_seconds. intros [Hlo Hhi].
  split; [rewrite Z.gtb_ltb; apply Z.ltb_ge; exact Hhi|].
  unfold Pandas.to_datetime, Pandas.min_seconds, Pandas.max_seconds.
  replace (timestamp <? -9223372036)%Z with false
    by (symmetry; apply Z.ltb_ge; exact Hlo).
  replace (timestamp >? 9223372036)%Z with false
    by (symmetry; rewrite Z.gtb_ltb; apply Z.ltb_ge; lia).
  cbn [orb].
  destruct (Pandas.civil_from_days (timestamp / 86400)) as [[y m] d].
  eexists. reflexivity.
Qed.

(** The comparison of two timestamps decides the order of the calendar. *)
Lemma pandas_compare_spec (a b : Pandas.Timestamp) :
  match Pandas.compare a b with
  | Lt => Pandas.lt a b
  | Eq => a = b
  | Gt => Pandas.lt b a
  end.
Proof.
  destruct a as [y1 m1 d1 h1 i1 s1], b as [y2 m2 d2 h2 i2 s2].
  unfold Pandas.compare, Pandas.fields, Pandas.lt.
  cbn [Pandas.lex_compare Pandas.year Pandas.month Pandas.day Pandas.hour
       Pandas.minute Pandas.second].
  destruct (Z.compare_spec y1 y2) as [Hy|Hy|Hy]; [subst y2|lia|lia].
  destruct (Z.compare_spec m1 m2) as [Hm|Hm|Hm]; [subst m2|lia|lia].
  destruct (Z.compare_spec d1 d2) as [Hd|Hd|Hd]; [subst d2|lia|lia].
  destruct (Z.compare_spec h1 h2) as [Hh|Hh|Hh]; [subst h2|lia|lia].
  destruct (Z.compare_spec i1 i2) as [Hi|Hi|Hi]; [subst i2|lia|lia].
  destruct (Z.compare_spec s1 s2) as [Hs|Hs|Hs]; [subst s2|lia|lia].
  reflexivity.
Qed.

Lemma pandas_lt_asym (a b : Pandas.Timestamp) :
  Pandas.lt a b -> ~ Pandas.le b a.
Proof.
  destruct a as [y1 m1 d1 h1 i1 s1], b as [y2 m2 d2 h2 i2 s2].
  unfold Pandas.le, Pandas.lt.
  cbn [Pandas.year Pandas.month Pandas.day Pandas.hour Pandas.minute
       Pandas.second].
  intros H [H'|H']; [lia|]. inversion H'; subst. lia.
Qed.

(** [current < start] holds exactly when [current] is strictly earlier. *)
Lemma pandas_ltb_lt (a b : Pandas.Timestamp) :
  Pandas.lt a b -> Pandas.ltb a b = true.
Proof.
  intros H. unfold Pandas.ltb.
  pose proof (pandas_compare_spec a b) as Hc.
  destruct (Pandas.compare a b); [|reflexivity|].
  - exfalso. apply (pandas_lt_asym a b H). right. symmetry. exact Hc.
  - exfalso. apply (pandas_lt_asym a b H). left. exact Hc.
Qed.

Lemma pandas_ltb_le (a b : Pandas.Timestamp) :
  Pandas.le b a -> Pandas.ltb a b = false.
Proof.
  intros H. unfold Pandas.ltb.
  pose proof (pandas_compare_spec a b) as Hc.
  destruct (Pandas.compare a b); [reflexivity| |reflexivity].
  exfalso. exact (pandas_lt_asym a b Hc H).
Qed.

(** [current >= next] holds exactly when [next] is [current] or
    earlier. *)
Lemma pandas_geb_le (a b : Pandas.Timestamp) :
  Pandas.le b a -> Pandas.geb a b = true.
Proof.
  intros H. unfold Pandas.geb.
  pose proof (pandas_compare_spec a b) as Hc.
  destruct (Pandas.compare a b); [reflexivity| |reflexivity].
  exfalso. exact (pandas_lt_asym a b Hc H).
Qed.

Lemma pandas_geb_lt (a b : Pandas.Timestamp) :
  Pandas.lt a b -> Pandas.geb a b = false.
Proof.
  intros H. unfold Pandas.geb.
  pose proof (pandas_compare_spec a b) as Hc.
  destruct (Pandas.compare a b); [|reflexivity|].
  - exfalso. apply (pandas_lt_asym a b H). right. symmetry. exact Hc.
  - exfalso. apply (pandas_lt_asym a b H). left. exact Hc.
Qed.

(** Writing back the three attributes [process_fee_rebate] can assign
    gives the same object. *)
Lemma rebate_fields_eta (s : Exchange) :
  s = set_last_payout_date (last_payout_date s)
        (set_current_cycle_fees (current_cycle_fees s)
           (set_balance (balance s) s)).
Proof. destruct s; reflexivity. Qed.

(** [process_fee_rebate] returns whenever the payout day is valid; it
    assigns at most [balance], [current_cycle_fees] and
    [last_payout_date], and the balance grows by [rebate_credit]. *)
Lemma process_fee_rebate_frame (s : Exchange) (timestamp : Z) :
  payout_day_ok s ->
  exists b f d,
    process_fee_rebate s timestamp
    = Ok (set_last_payout_date d
            (set_current_cycle_fees f (set_balance b s)))
    /\ b == balance s + rebate_credit s timestamp.
Proof.
  intros Hday.
  assert (Hsame : forall c, c == 0 ->
            exists b f d,
              Ok s = Ok (set_last_payout_date d
                           (set_current_cycle_fees f (set_balance b s)))
              /\ b == balance s + c).
  { intros c Hc. exists (balance s), (current_cycle_fees s), (last_payout_date s).
    split; [f_equal; apply rebate_fields_eta|]. rewrite Hc. ring. }
  unfold process_fee_rebate, rebate_credit, rebate_due.
  destruct (use_fee_rebate s) eqn:Huse; cbn [negb andb];
    [|apply Hsame; reflexivity].
  destruct (timestamp >? 2147483647)%Z; cbn [negb andb];
    [apply Hsame; reflexivity|].
  destruct (Pandas.to_datetime timestamp) as [current_date|];
    [|apply Hsame; reflexivity].
  destruct (last_payout_date s) as [last|] eqn:Hlast.
  - destruct (Pandas.geb current_date (Pandas.add_months last 1));
      cbn [andb]; [|apply Hsame; reflexivity].
    destruct (Decimal.gtb (current_cycle_fees s * rebate_rate s) 0).
    + exists (balance s + current_cycle_fees s * rebate_rate s), 0,
        (Some (Pandas.add_months last 1)).
      split; [destruct s; reflexivity | reflexivity].
    + exists (balance s), (current_cycle_fees s),
        (Some (Pandas.add_months last 1)).
      split; [destruct s; reflexivity | ring].
  - rewrite replace_day_ok.
    + cbn [bind].
      destruct (Pandas.ltb current_date _); eexists (balance s),
        (current_cycle_fees s), _;
        (split; [destruct s; reflexivity | cbn [andb]; ring]).
    + specialize (Hday Huse).
      pose proof (days_in_month_ge_28 (Pandas.year current_date)
                                      (Pandas.month current_date)).
      lia.
Qed.

(** The same for the accumulate-then-process step shared by every fill. *)
Lemma accumulate_fee_frame (s : Exchange) (fee : Q) (timestamp : Z) :
  payout_day_ok s ->
  exists b f d,
    accumulate_fee s fee timestamp
    = Ok (set_last_payout_date d
            (set_current_cycle_fees f (set_balance b s)))
    /\ b == balance s
            + rebate_credit
                (set_current_cycle_fees (current_cycle_fees s + fee) s)
                timestamp
    /\ (use_fee_rebate s = false -> b == balance s).
Proof.
  intros Hday. unfold accumulate_fee.
  destruct (use_fee_rebate s) eqn:Huse.
  - destruct (process_fee_rebate_frame
                (set_current_cycle_fees (current_cycle_fees s + fee) s)
                timestamp) as (b & f & d & Heq & Hb).
    { unfold payout_day_ok. destruct s; cbn in *. exact Hday. }
    exists b, f, d. split; [|split].
    + rewrite Heq. destruct s; reflexivity.
    + rewrite Hb. destruct s; reflexivity.
    + discriminate.
  - exists (balance s), (current_cycle_fees s), (last_payout_date s).
    split; [f_equal; apply rebate_fields_eta|].
    split; [|reflexivity].
    unfold rebate_credit, rebate_due.
    replace (use_fee_rebate (set_current_cycle_fees _ s)) with false
      by (destruct s; cbn in *; congruence).
    cbn [andb]. ring.
Qed.

(** C9 (as amended).  With fee rebate enabled and a timestamp that passes
    the 2038 guard and converts to a date:
    - on the first call (no anchor yet), for a payout day that exists in
      the current month, the anchor becomes that day of the current month
      at 00:00:00 when the current date is that instant or later, and the
      same day one month earlier when the current date is strictly
      earlier; nothing else changes (nothing is credited);
    - on a later call whose date is anchor + 1 month or later, the anchor
      advances by exactly one month; if current_cycle_fees * rebate_rate is
      positive it is added to the balance and current_cycle_fees is reset to
      0, otherwise balance and current_cycle_fees are left as they are;
    - on a later call whose date is strictly earlier than anchor + 1 month
      nothing changes.
    Earlier and later are the order of the calendar on
    (year, month, day, hour, minute, second). *)
Theorem process_fee_rebate_cycle :
  forall (s : Exchange) (timestamp : Z) (current_date : Pandas.Timestamp),
    use_fee_rebate s = true ->
    (timestamp <= 2147483647)%Z ->
    Pandas.to_datetime timestamp = Some current_date ->
    (last_payout_date s = None ->
     (1 <= rebate_payout_day s
      <= Pandas.days_in_month (Pandas.year current_date)
                              (Pandas.month current_date))%Z ->
     let start :=
       Pandas.mk_timestamp (Pandas.year current_date)
                           (Pandas.month current_date)
                           (rebate_payout_day s) 0 0 0 in
     (Pandas.lt current_date start ->
      process_fee_rebate s timestamp
      = Ok (set_last_payout_date
              (Some (Pandas.add_months start (-1))) s))
     /\ (Pandas.le start current_date ->
         process_fee_rebate s timestamp
         = Ok (set_last_payout_date (Some start) s)))
    /\ (forall last : Pandas.Timestamp,
           last_payout_date s = Some last ->
           let next := Pandas.add_months last 1 in
           let amount := current_cycle_fees s * rebate_rate s in
           (Pandas.le next current_date ->
            (0 < amount ->
             process_fee_rebate s timestamp
             = Ok (set_last_payout_date (Some next)
                     (set_current_cycle_fees 0
                        (set_balance (balance s + amount) s))))
            /\ (amount <= 0 ->
                process_fee_rebate s timestamp
                = Ok (set_last_payout_date (Some next) s)))
           /\ (Pandas.lt current_date next ->
               process_fee_rebate s timestamp = Ok s)).
Proof.
  intros s timestamp current_date Huse Hmax Hdate.
  assert (Hguard : (timestamp >? 2147483647)%Z = false)
    by (rewrite Z.gtb_ltb; apply Z.ltb_ge; exact Hmax).
  split.
  - intros Hnone Hday start. split; intros Horder;
      unfold process_fee_rebate;
      rewrite Huse, Hguard, Hdate, Hnone; cbn [negb];
      rewrite (replace_day_ok _ _ Hday); cbn [bind]; fold start.
    + rewrite (pandas_ltb_lt _ _ Horder). reflexivity.
    + rewrite (pandas_ltb_le _ _ Horder). reflexivity.
  - intros last Hlast next amount. split.
    + intros Hge. apply pandas_geb_le in Hge.
      split; intros Hamt; unfold process_fee_rebate;
        rewrite Huse, Hguard, Hdate, Hlast; cbn [negb];
        fold next; rewrite Hge; fold amount.
      * apply decimal_gtb_iff in Hamt. rewrite Hamt. reflexivity.
      * apply decimal_gtb_false_iff in Hamt. rewrite Hamt. reflexivity.
    + intros Hlt. apply pandas_geb_lt in Hlt. unfold process_fee_rebate.
      rewrite Huse, Hguard, Hdate, Hlast. cbn [negb].
      fold next. rewrite Hlt. reflexivity.
Qed.

(** C9 as worded does not hold: with a rebate rate of 0 and 5 of fees
    accumulated, a call on 2024-02-20 (anchor 2024-01-19, so the payout date
    2024-02-19 has passed) advances the anchor but leaves
    current_cycle_fees at 5 instead of resetting it to 0. *)
Lemma process_fee_rebate_keeps_fees_when_nothing_to_pay :
  exists current_date next s',
    use_fee_rebate (rebate_exchange 5 0 0.0002) = true
    /\ Pandas.to_datetime 1708387200 = Some current_date
    /\ last_payout_date (rebate_exchange 5 0 0.0002)
       = Some (Pandas.mk_timestamp 2024 1 19 0 0 0)
    /\ next = Pandas.add_months (Pandas.mk_timestamp 2024 1 19 0 0 0) 1
    /\ Pandas.le next current_date
    /\ process_fee_rebate (rebate_exchange 5 0 0.0002) 1708387200 = Ok s'
    /\ last_payout_date s' = Some next
    /\ current_cycle_fees s' == 5
    /\ ~ current_cycle_fees s' == 0.
Proof.
  exists (Pandas.mk_timestamp 2024 2 20 0 0 0),
    (Pandas.mk_timestamp 2024 2 19 0 0 0).
  eexists.
  split; [reflexivity|].
  split; [reflexivity|].
  split; [reflexivity|].
  split; [reflexivity|].
  split; [left; unfold Pandas.lt; cbn; lia|].
  split; [vm_compute; reflexivity|].
  split; [reflexivity|].
  split; [reflexivity|].
  cbn. intros H. discriminate H.
Qed.

(** ** Trades *)

(** Reading an attribute after assignments. *)
Ltac attrs :=
  cbn [balance margin_balance long_position short_position long_entry_price
       short_entry_price base_leverage current_leverage current_price
       active_buy_orders active_sell_orders trade_history equity_history
       liquidation_events order_id_counter total_fees_paid maker_fee
       taker_fee use_fee_rebate last_payout_date current_cycle_fees
       rebate_payout_day rebate_rate
       set_balance set_long_position set_short_position set_long_entry_price
       set_short_entry_price set_current_leverage set_current_price
       set_active_buy_orders set_active_sell_orders set_trade_history
       set_equity_history set_liquidation_events set_order_id_counter
       set_total_fees_paid set_last_payout_date set_current_cycle_fees
       fst snd bind] in *.

Lemma side_eqb_cases (side : string) :
  side = "buy_long"%string \/ side = "sell_short"%string
  \/ side = "sell_long"%string \/ side = "buy_short"%string
  \/ (String.eqb side "buy_long" = false
      /\ String.eqb side "sell_short" = false
      /\ String.eqb side "sell_long" = false
      /\ String.eqb side "buy_short" = false).
Proof.
  destruct (String.eqb side "buy_long") eqn:H1;
    [apply String.eqb_eq in H1; auto|].
  destruct (String.eqb side "sell_short") eqn:H2;
    [apply String.eqb_eq in H2; auto|].
  destruct (String.eqb side "sell_long") eqn:H3;
    [apply String.eqb_eq in H3; auto|].
  destruct (String.eqb side "buy_short") eqn:H4;
    [apply String.eqb_eq in H4; auto 6|].
  auto 8.
Qed.

(** The position and entry price an opening fill leaves behind, given the
    quantity [held] and entry price [entry] before it. *)
Lemma opening_quantity_positive (held amount : Q) :
  0 <= held -> 0 <= amount -> Decimal.eqb held 0 = false ->
  ~ held + amount == 0.
Proof.
  intros Hh Ha Hne. apply decimal_eqb_false_iff in Hne. intros H.
  apply Hne. lra.
Qed.

(** With non-negative quantities, [min(qty, held)] is 0 when nothing is
    held. *)
Lemma decimal_min_held_zero (qty held : Q) :
  0 <= qty -> 0 <= held -> Decimal.gtb held 0 = false ->
  Decimal.min qty held == 0.
Proof.
  intros Hq Hh Hgt. apply decimal_gtb_false_iff in Hgt.
  destruct (decimal_min_spec qty held) as [[H1 ->]|[H1 ->]]; lra.
Qed.

Lemma decimal_min_bounds (qty held : Q) :
  0 <= qty -> 0 <= held ->
  0 <= Decimal.min qty held /\ Decimal.min qty held <= held.
Proof.
  intros Hq Hh.
  destruct (decimal_min_spec qty held) as [[H1 ->]|[H1 ->]]; lra.
Qed.

Ltac frame_side :=
  repeat split; try discriminate; try lra;
  try (intros _; split; [lra | reflexivity]).

(** The branches of [execute_fast_trade] return for non-negative
    quantities; they assign at most the balance, the two positions and the
    two entry prices. *)
Lemma apply_side_frame (s : Exchange) (side : string) (amount price : Q) :
  positions_nonneg s -> 0 <= amount ->
  exists pnl b q1 q2 e1 e2,
    apply_side s side amount price
    = Ok (pnl,
          set_short_entry_price e2
            (set_long_entry_price e1
               (set_short_position q2
                  (set_long_position q1 (set_balance b s)))))
    /\ b == balance s + pnl
    /\ pnl == realized_pnl s side amount price
    /\ 0 <= q1 /\ 0 <= q2
    /\ (side = "sell_long"%string ->
        q1 == long_position s - Decimal.min amount (long_position s))
    /\ (side = "buy_short"%string ->
        q2 == short_position s - Decimal.min amount (short_position s))
    /\ (side = "buy_long"%string ->
        q1 == long_position s + amount
              + (if Decimal.eqb (long_position s) 0 then 0 else amount)
        /\ e1 == (if Decimal.eqb (long_position s) 0 then price
                  else (long_position s * long_entry_price s + amount * price)
                       / (long_position s + amount)))
    /\ (side = "sell_short"%string ->
        q2 == short_position s + amount
              + (if Decimal.eqb (short_position s) 0 then 0 else amount)
        /\ e2 == (if Decimal.eqb (short_position s) 0 then price
                  else (short_position s * short_entry_price s
                        + amount * price)
                       / (short_position s + amount))).
Proof.
  intros [Hl Hs] Ha.
  destruct (side_eqb_cases side) as [->|[->|[->|[->|(H1 & H2 & H3 & H4)]]]].
  - (* buy_long *)
    unfold apply_side, realized_pnl. cbn [String.eqb Ascii.eqb Bool.eqb andb].
    destruct (Decimal.eqb (long_position s) 0) eqn:Hz.
    + attrs.
      exists 0, (balance s), (long_position s + amount), (short_position s),
        price, (short_entry_price s).
      split; [destruct s; reflexivity|].
      frame_side.
    + attrs.
      rewrite decimal_div_ok by (apply opening_quantity_positive; assumption).
      attrs.
      exists 0, (balance s), (long_position s + amount + amount),
        (short_position s),
        ((long_position s * long_entry_price s + amount * price)
         / (long_position s + amount)),
        (short_entry_price s).
      split; [destruct s; reflexivity|].
      frame_side.
  - (* sell_short *)
    unfold apply_side, realized_pnl. cbn [String.eqb Ascii.eqb Bool.eqb andb].
    destruct (Decimal.eqb (short_position s) 0) eqn:Hz.
    + attrs.
      exists 0, (balance s), (long_position s), (short_position s + amount),
        (long_entry_price s), price.
      split; [destruct s; reflexivity|].
      frame_side.
    + attrs.
      rewrite decimal_div_ok by (apply opening_quantity_positive; assumption).
      attrs.
      exists 0, (balance s), (long_position s),
        (short_position s + amount + amount), (long_entry_price s),
        ((short_position s * short_entry_price s + amount * price)
         / (short_position s + amount)).
      split; [destruct s; reflexivity|].
      frame_side.
  - (* sell_long *)
    unfold apply_side, realized_pnl. cbn [String.eqb Ascii.eqb Bool.eqb andb].
    pose proof (decimal_min_bounds amount (long_position s) Ha Hl) as [Hm0 Hm1].
    destruct (Decimal.gtb (long_position s) 0) eqn:Hgt.
    + attrs.
      set (trade_amount := Decimal.min amount (long_position s)) in *.
      destruct (Decimal.eqb (long_position s - trade_amount) 0).
      * exists (trade_amount * (price - long_entry_price s)),
          (balance s + trade_amount * (price - long_entry_price s)),
          (long_position s - trade_amount), (short_position s),
          0, (short_entry_price s).
        split; [destruct s; reflexivity|].
        frame_side.
      * exists (trade_amount * (price - long_entry_price s)),
          (balance s + trade_amount * (price - long_entry_price s)),
          (long_position s - trade_amount), (short_position s),
          (long_entry_price s), (short_entry_price s).
        split; [destruct s; reflexivity|].
        frame_side.
    + pose proof (decimal_min_held_zero amount (long_position s) Ha Hl Hgt)
        as Hmin.
      exists 0, (balance s), (long_position s), (short_position s),
        (long_entry_price s), (short_entry_price s).
      split; [destruct s; reflexivity|].
      frame_side. rewrite Hmin. ring.
  - (* buy_short *)
    unfold apply_side, realized_pnl. cbn [String.eqb Ascii.eqb Bool.eqb andb].
    pose proof (decimal_min_bounds amount (short_position s) Ha Hs)
      as [Hm0 Hm1].
    destruct (Decimal.gtb (short_position s) 0) eqn:Hgt.
    + attrs.
      set (trade_amount := Decimal.min amount (short_position s)) in *.
      destruct (Decimal.eqb (short_position s - trade_amount) 0).
      * exists (trade_amount * (short_entry_price s - price)),
          (balance s + trade_amount * (short_entry_price s - price)),
          (long_position s), (short_position s - trade_amount),
          (long_entry_price s), 0.
        split; [destruct s; reflexivity|].
        frame_side.
      * exists (trade_amount * (short_entry_price s - price)),
          (balance s + trade_amount * (short_entry_price s - price)),
          (long_position s), (short_position s - trade_amount),
          (long_entry_price s), (short_entry_price s).
        split; [destruct s; reflexivity|].
        frame_side.
    + pose proof (decimal_min_held_zero amount (short_position s) Ha Hs Hgt)
        as Hmin.
      exists 0, (balance s), (long_position s), (short_position s),
        (long_entry_price s), (short_entry_price s).
      split; [destruct s; reflexivity|].
      frame_side. rewrite Hmin. ring.
  - (* any other string *)
    unfold apply_side, realized_pnl. rewrite H1, H2, H3, H4. cbn [andb].
    exists 0, (balance s), (long_position s), (short_position s),
      (long_entry_price s), (short_entry_price s).
    split; [destruct s; reflexivity|].
    repeat split; try (intros ->; discriminate); try lra;
      subst side; discriminate.
Qed.

(** What one call of [execute_fast_trade] does, for a non-negative
    quantity on a well-formed exchange. *)
Lemma execute_fast_trade_frame
      (s : Exchange) (side : string) (amount price : Q) (timestamp : Z) :
  positions_nonneg s -> payout_day_ok s -> 0 <= amount ->
  let fee := amount * price * maker_fee s in
  exists s',
    execute_fast_trade s side amount price timestamp = Ok s'
    /\ positions_nonneg s' /\ payout_day_ok s'
    /\ active_buy_orders s' = active_buy_orders s
    /\ active_sell_orders s' = active_sell_orders s
    /\ liquidation_events s' = liquidation_events s
    /\ (exists r, trade_history s' = trade_history s ++ [r]
                  /\ order_of_trade r = mk_order price amount side
                  /\ tr_timestamp r = timestamp
                  /\ tr_fee r = fee
                  /\ tr_pnl r == realized_pnl s side amount price)
    /\ balance s'
       == balance s - fee
          + rebate_credit
              (set_current_cycle_fees (current_cycle_fees s + fee) s)
              timestamp
          + realized_pnl s side amount price
    /\ (use_fee_rebate s = false ->
        balance s' == balance s - fee + realized_pnl s side amount price)
    /\ (side = "sell_long"%string ->
        long_position s'
        == long_position s - Decimal.min amount (long_position s))
    /\ (side = "buy_short"%string ->
        short_position s'
        == short_position s - Decimal.min amount (short_position s))
    /\ (side = "buy_long"%string ->
        long_position s'
        == long_position s + amount
           + (if Decimal.eqb (long_position s) 0 then 0 else amount)
        /\ long_entry_price s'
           == (if Decimal.eqb (long_position s) 0 then price
               else (long_position s * long_entry_price s + amount * price)
                    / (long_position s + amount)))
    /\ (side = "sell_short"%string ->
        short_position s'
        == short_position s + amount
           + (if Decimal.eqb (short_position s) 0 then 0 else amount)
        /\ short_entry_price s'
           == (if Decimal.eqb (short_position s) 0 then price
               else (short_position s * short_entry_price s
                     + amount * price)
                    / (short_position s + amount))).
Proof.
  intros Hpos Hday Ha fee.
  unfold execute_fast_trade. fold fee.
  set (s1 := set_total_fees_paid _ (set_balance _ s)).
  destruct (accumulate_fee_frame s1 fee timestamp) as (b & f & d & Heq & Hb & Hoff).
  { unfold payout_day_ok, s1. attrs. exact Hday. }
  rewrite Heq. cbn [bind].
  set (s2 := set_last_payout_date d _).
  destruct (apply_side_frame s2 side amount price)
    as (pnl & b' & q1 & q2 & e1 & e2 & Hside & Hb' & Hpnl & Hq1 & Hq2
        & Hsl & Hbs & Hbl & Hss).
  { unfold positions_nonneg, s2, s1. attrs. exact Hpos. }
  { exact Ha. }
  rewrite Hside. cbn [bind fst snd].
  assert (Hrp : realized_pnl s2 side amount price
                = realized_pnl s side amount price) by reflexivity.
  assert (Hrc : rebate_credit
                  (set_current_cycle_fees (current_cycle_fees s1 + fee) s1)
                  timestamp
                = rebate_credit
                    (set_current_cycle_fees (current_cycle_fees s + fee) s)
                    timestamp) by reflexivity.
  rewrite Hrp in Hpnl. rewrite Hrc in Hb.
  eexists. split; [reflexivity|].
  unfold update_current_leverage, positions_nonneg, payout_day_ok.
  unfold s2, s1 in *. attrs.
  split; [split; assumption|].
  split; [exact Hday|].
  split; [reflexivity|].
  split; [reflexivity|].
  split; [reflexivity|].
  split.
  { eexists. split; [reflexivity|].
    unfold order_of_trade. cbn [tr_price tr_amount tr_side tr_timestamp
                                 tr_fee tr_pnl].
    repeat split. exact Hpnl. }
  split; [rewrite Hb', Hb, Hpnl; ring|].
  split.
  { intros Hu. rewrite Hb', (Hoff Hu), Hpnl. ring. }
  split; [exact Hsl|].
  split; [exact Hbs|].
  split; [exact Hbl | exact Hss].
Qed.

(** C2 (what the code does).  An opening fill of quantity q > 0 raises the
    position by q when the position was 0, but by 2q when a position was
    already held: the held-position branch adds the quantity before it
    recomputes the entry price, and the common tail adds it again. *)
Theorem opening_fill_quantity :
  forall (s : Exchange) (q price : Q) (timestamp : Z),
    positions_nonneg s -> payout_day_ok s -> 0 < q ->
    (exists s',
        execute_fast_trade s "buy_long" q price timestamp = Ok s'
        /\ long_position s'
           == (if Decimal.eqb (long_position s) 0
               then long_position s + q
               else long_position s + q + q))
    /\ (exists s',
           execute_fast_trade s "sell_short" q price timestamp = Ok s'
           /\ short_position s'
              == (if Decimal.eqb (short_position s) 0
                  then short_position s + q
                  else short_position s + q + q)).
Proof.
  intros s q price timestamp Hpos Hday Hq.
  assert (Hq0 : 0 <= q) by lra.
  split.
  - destruct (execute_fast_trade_frame s "buy_long" q price timestamp
                                       Hpos Hday Hq0)
      as (s' & Hex & _ & _ & _ & _ & _ & _ & _ & _ & _ & _ & Hbl & _).
    exists s'. split; [exact Hex|].
    destruct (Hbl eq_refl) as [Hqty _]. rewrite Hqty.
    destruct (Decimal.eqb (long_position s) 0); ring.
  - destruct (execute_fast_trade_frame s "sell_short" q price timestamp
                                       Hpos Hday Hq0)
      as (s' & Hex & _ & _ & _ & _ & _ & _ & _ & _ & _ & _ & _ & Hss).
    exists s'. split; [exact Hex|].
    destruct (Hss eq_refl) as [Hqty _]. rewrite Hqty.
    destruct (Decimal.eqb (short_position s) 0); ring.
Qed.

(** C3 (as amended).  For a fill of non-negative quantity on an exchange
    with non-negative positions (and, when rebate is on, a payout day every
    month has), [execute_fast_trade] returns and
      balance_after = balance_before - qty * price * makerFeeRate
                      + rebateCredit + realizedPnL,
    where rebateCredit is what [process_fee_rebate] credits during the call
    (nothing when fee rebate is off, in which case the balance is
    balance_before - fee + realizedPnL), and realizedPnL is 0 for buy_long,
    sell_short and any other side string,
    min(qty, heldLong) * (price - longEntry) for sell_long and
    min(qty, heldShort) * (shortEntry - price) for buy_short.  A closing
    fill larger than the held quantity is clipped to it without an error:
    the position drops by min(qty, held). *)
Theorem execute_fast_trade_balance :
  forall (s : Exchange) (side : string) (qty price : Q) (timestamp : Z),
    positions_nonneg s -> payout_day_ok s -> 0 <= qty ->
    let fee := qty * price * maker_fee s in
    let credit :=
      rebate_credit (set_current_cycle_fees (current_cycle_fees s + fee) s)
                    timestamp in
    exists s',
      execute_fast_trade s side qty price timestamp = Ok s'
      /\ balance s'
         == balance s - fee + credit + realized_pnl s side qty price
      /\ (use_fee_rebate s = false ->
          balance s' == balance s - fee + realized_pnl s side qty price)
      /\ (side = "sell_long"%string ->
          long_position s'
          == long_position s - Decimal.min qty (long_position s))
      /\ (side = "buy_short"%string ->
          short_position s'
          == short_position s - Decimal.min qty (short_position s)).
Proof.
  intros s side qty price timestamp Hpos Hday Hq fee credit.
  destruct (execute_fast_trade_frame s side qty price timestamp Hpos Hday Hq)
    as (s' & Hex & _ & _ & _ & _ & _ & _ & Hbal & Hoff & Hsl & Hbs & _).
  exists s'. repeat split; assumption.
Qed.

(** C3 as worded does not hold when a rebate payout falls due during the
    call: with 10 of fees accumulated since the anchor 2024-01-19, rate
    0.30 and maker fee 0.0002, buying 1 at 3000 on 2024-02-20 leaves the
    balance at 700 - 0.6 + 3.18 = 702.58, not at 700 - 0.6 = 699.4. *)
Lemma execute_fast_trade_balance_includes_rebate :
  exists s',
    execute_fast_trade (rebate_exchange 10 0.30 0.0002)
                       "buy_long" 1 3000 1708387200 = Ok s'
    /\ balance s' == 702.58
    /\ balance (rebate_exchange 10 0.30 0.0002)
       - 1 * 3000 * maker_fee (rebate_exchange 10 0.30 0.0002)
       + realized_pnl (rebate_exchange 10 0.30 0.0002) "buy_long" 1 3000
       == 699.4
    /\ ~ balance s'
         == balance (rebate_exchange 10 0.30 0.0002)
            - 1 * 3000 * maker_fee (rebate_exchange 10 0.30 0.0002)
            + realized_pnl (rebate_exchange 10 0.30 0.0002) "buy_long" 1 3000.
Proof.
  eexists. split; [vm_compute; reflexivity|].
  split; [reflexivity|].
  split; [reflexivity|].
  intros H. vm_compute in H. discriminate H.
Qed.

(** C4.  Starting from a side whose position is 0, two opening fills
    (q1 at p1, then q2 at p2) of non-negative quantities with q1 + q2 <> 0
    both return, and the entry price recorded for that side is
    (q1 * p1 + q2 * p2) / (q1 + q2). *)
Theorem two_fills_weighted_average_entry :
  forall (s : Exchange) (q1 p1 q2 p2 : Q) (t1 t2 : Z),
    positions_nonneg s -> payout_day_ok s ->
    0 <= q1 -> 0 <= q2 -> ~ q1 + q2 == 0 ->
    (long_position s == 0 ->
     exists s1 s2,
       execute_fast_trade s "buy_long" q1 p1 t1 = Ok s1
       /\ execute_fast_trade s1 "buy_long" q2 p2 t2 = Ok s2
       /\ long_entry_price s2 == (q1 * p1 + q2 * p2) / (q1 + q2))
    /\ (short_position s == 0 ->
        exists s1 s2,
          execute_fast_trade s "sell_short" q1 p1 t1 = Ok s1
          /\ execute_fast_trade s1 "sell_short" q2 p2 t2 = Ok s2
          /\ short_entry_price s2 == (q1 * p1 + q2 * p2) / (q1 + q2)).
Proof.
  intros s q1 p1 q2 p2 t1 t2 Hpos Hday Hq1 Hq2 Hsum.
  split; intros Hzero.
  - destruct (execute_fast_trade_frame s "buy_long" q1 p1 t1 Hpos Hday Hq1)
      as (s1 & Hex1 & Hpos1 & Hday1 & _ & _ & _ & _ & _ & _ & _ & _ & Hbl1 & _).
    destruct (execute_fast_trade_frame s1 "buy_long" q2 p2 t2 Hpos1 Hday1 Hq2)
      as (s2 & Hex2 & _ & _ & _ & _ & _ & _ & _ & _ & _ & _ & Hbl2 & _).
    exists s1, s2. split; [exact Hex1|]. split; [exact Hex2|].
    destruct (Hbl1 eq_refl) as [Hqty1 Hent1].
    destruct (Hbl2 eq_refl) as [_ Hent2].
    apply decimal_eqb_iff in Hzero. rewrite Hzero in Hqty1, Hent1.
    apply decimal_eqb_iff in Hzero.
    rewrite Hent2.
    destruct (Decimal.eqb (long_position s1) 0) eqn:Hz1.
    + apply decimal_eqb_iff in Hz1.
      assert (Hq1z : q1 == 0) by (rewrite Hz1 in Hqty1; lra).
      rewrite Hq1z. field. intros Hq2z. apply Hsum. lra.
    + rewrite Hqty1, Hent1, Hzero. field. exact Hsum.
  - destruct (execute_fast_trade_frame s "sell_short" q1 p1 t1 Hpos Hday Hq1)
      as (s1 & Hex1 & Hpos1 & Hday1 & _ & _ & _ & _ & _ & _ & _ & _ & _ & Hss1).
    destruct (execute_fast_trade_frame s1 "sell_short" q2 p2 t2
                                       Hpos1 Hday1 Hq2)
      as (s2 & Hex2 & _ & _ & _ & _ & _ & _ & _ & _ & _ & _ & _ & Hss2).
    exists s1, s2. split; [exact Hex1|]. split; [exact Hex2|].
    destruct (Hss1 eq_refl) as [Hqty1 Hent1].
    destruct (Hss2 eq_refl) as [_ Hent2].
    apply decimal_eqb_iff in Hzero. rewrite Hzero in Hqty1, Hent1.
    apply decimal_eqb_iff in Hzero.
    rewrite Hent2.
    destruct (Decimal.eqb (short_position s1) 0) eqn:Hz1.
    + apply decimal_eqb_iff in Hz1.
      assert (Hq1z : q1 == 0) by (rewrite Hz1 in Hqty1; lra).
      rewrite Hq1z. field. intros Hq2z. apply Hsum. lra.
    + rewrite Hqty1, Hent1, Hzero. field. exact Hsum.
Qed.

(** ** Margin tiers *)

Lemma decimal_leb_compat (a a' b : Q) :
  a == a' -> Decimal.leb a b = Decimal.leb a' b.
Proof. intros H. unfold Decimal.leb. rewrite H. reflexivity. Qed.

Lemma le_bound_compat (a a' : Q) (b : bound) :
  a == a' -> le_bound a b = le_bound a' b.
Proof.
  intros H. destruct b; [apply decimal_leb_compat; exact H | reflexivity].
Qed.

Lemma scan_tiers_compat (a a' : Q) (tiers : list MarginTier) :
  a == a' -> scan_tiers a tiers = scan_tiers a' tiers.
Proof.
  intros H. induction tiers as [|t rest IH]; [reflexivity|].
  cbn [scan_tiers]. rewrite (le_bound_compat a a' _ H), IH. reflexivity.
Qed.

(** The test [value <= bound] of the scans decides the order of the
    rationals. *)
Lemma le_bound_within (value : Q) (b : bound) :
  le_bound value b = true -> within_bound value b.
Proof.
  destruct b as [q|]; cbn [le_bound within_bound]; [|trivial].
  apply decimal_leb_iff.
Qed.

Lemma le_bound_beyond (value : Q) (b : bound) :
  le_bound value b = false -> beyond_bound value b.
Proof.
  destruct b as [q|]; cbn [le_bound beyond_bound]; [|discriminate].
  intros H. destruct (Qlt_le_dec q value) as [Hlt|Hle]; [exact Hlt|].
  apply decimal_leb_iff in Hle. congruence.
Qed.

(** The loop stops at the first row whose bound is at least the value. *)
Lemma scan_tiers_first (value : Q) (tiers : list MarginTier) (t : MarginTier) :
  scan_tiers value tiers = Some t -> first_tier_for value tiers t.
Proof.
  induction tiers as [|t0 rest IH]; [discriminate|].
  cbn [scan_tiers]. destruct (le_bound value (threshold t0)) eqn:Hle.
  - intros Heq. inversion Heq; subst t0.
    exists [], rest.
    split; [reflexivity|]. split; [constructor|].
    apply le_bound_within. exact Hle.
  - intros Hscan. destruct (IH Hscan) as (before & after & -> & Hall & Ht).
    exists (t0 :: before), after.
    split; [reflexivity|].
    split; [constructor; [apply le_bound_beyond; exact Hle | exact Hall]|].
    exact Ht.
Qed.

(** A table holding a row with bound Infinity always yields a row. *)
Lemma scan_tiers_total (value : Q) (tiers : list MarginTier) :
  Exists (fun t => threshold t = Infinity) tiers ->
  exists t, scan_tiers value tiers = Some t.
Proof.
  induction 1 as [t rest Hinf | t rest _ IH]; cbn [scan_tiers].
  - rewrite Hinf. cbn [le_bound]. eexists; reflexivity.
  - destruct (le_bound value (threshold t)); [eexists; reflexivity | exact IH].
Qed.

Lemma tiers_have_infinity :
  Exists (fun t => threshold t = Infinity) ETH_USDC_TIERS.
Proof.
  unfold ETH_USDC_TIERS.
  do 10 apply Exists_cons_tl. apply Exists_cons_hd. reflexivity.
Qed.

(** The table is in strictly ascending order of bound. *)
Lemma tiers_ascending :
  StronglySorted bound_lt (map threshold ETH_USDC_TIERS).
Proof.
  unfold ETH_USDC_TIERS. cbn [map threshold].
  repeat (constructor; [|repeat constructor; cbn [bound_lt]; lra]).
  constructor.
Qed.

Lemma maintenance_scan_first (value : Q) (tiers : list MarginTier)
      (t : MarginTier) :
  scan_tiers value tiers = Some t ->
  maintenance_scan value tiers = value * mm_rate t - maintenance_amount t.
Proof.
  induction tiers as [|t0 rest IH]; [discriminate|].
  cbn [scan_tiers maintenance_scan].
  destruct (le_bound value (threshold t0)).
  - intros Heq. inversion Heq. reflexivity.
  - exact IH.
Qed.

(** C5.  [get_maintenance_margin] returns
    netNotional * mmRate - mmFixedSubtrahend, with
    netNotional = |longQty - shortQty| * markPrice and the rate and
    subtrahend of the first row of the tier table whose bound is at least
    netNotional: netNotional <= bound for that row, and bound < netNotional
    for every row before it, in the order of the rationals.  The table is
    in ascending order of bound, and the difference is returned as it is
    (no clamp at zero). *)
Theorem maintenance_margin_formula :
  forall s : Exchange,
    let net_notional :=
      Qabs (long_position s - short_position s) * current_price s in
    StronglySorted bound_lt (map threshold ETH_USDC_TIERS)
    /\ exists t,
        first_tier_for net_notional ETH_USDC_TIERS t
        /\ get_maintenance_margin s
           = net_notional * mm_rate t - maintenance_amount t.
Proof.
  intros s net_notional. split; [exact tiers_ascending|].
  destruct (scan_tiers_total net_notional ETH_USDC_TIERS tiers_have_infinity)
    as [t Ht].
  exists t. split; [apply scan_tiers_first; exact Ht|].
  unfold get_maintenance_margin, get_net_position_value, get_net_position.
  fold net_notional. apply maintenance_scan_first. exact Ht.
Qed.

(** C6 (as amended).  [get_used_margin] is the entry-price notional
    longQty * longEntry + shortQty * shortEntry divided by the effective
    leverage (and 0 when the effective leverage is 0), where the effective
    leverage is min(max leverage of the tier, configured leverage) and the
    tier is the first row, in ascending order of bound, whose bound is at
    least the gross mark-price notional (longQty + shortQty) * markPrice:
    notional <= bound for that row, and bound < notional for every row
    before it, in the order of the rationals. *)
Theorem used_margin_formula :
  forall s : Exchange,
    let gross_notional :=
      (long_position s + short_position s) * current_price s in
    StronglySorted bound_lt (map threshold ETH_USDC_TIERS)
    /\ exists t,
        first_tier_for gross_notional ETH_USDC_TIERS t
        /\ get_current_leverage_tier s = t
        /\ let effective_leverage :=
             Z.min (max_leverage t) (base_leverage s) in
           get_used_margin s
           = if (effective_leverage =? 0)%Z then 0
             else (long_position s * long_entry_price s
                   + short_position s * short_entry_price s)
                  / inject_Z effective_leverage.
Proof.
  intros s gross_notional. split; [exact tiers_ascending|].
  destruct (scan_tiers_total gross_notional ETH_USDC_TIERS tiers_have_infinity)
    as [t Ht].
  assert (Hg : get_position_value s == gross_notional)
    by (unfold get_position_value, gross_notional; ring).
  assert (Htier : get_current_leverage_tier s = t).
  { unfold get_current_leverage_tier.
    rewrite (scan_tiers_compat _ _ ETH_USDC_TIERS Hg), Ht. reflexivity. }
  exists t. split; [apply scan_tiers_first; exact Ht|].
  split; [exact Htier|].
  unfold get_used_margin, get_current_max_leverage. rewrite Htier.
  reflexivity.
Qed.

(** C6 as worded does not hold: one long unit entered at 3000 and marked
    at 2000 (gross mark-price notional 2000, first tier, effective leverage
    125) uses 3000 / 125 = 24 of margin, not 2000 / 125 = 16. *)
Lemma used_margin_uses_entry_prices :
  Z.min (max_leverage (get_current_leverage_tier (long_one_at_3000 2000)))
        (base_leverage (long_one_at_3000 2000)) = 125%Z
  /\ (long_position (long_one_at_3000 2000)
      + short_position (long_one_at_3000 2000))
     * current_price (long_one_at_3000 2000) / inject_Z 125 == 16
  /\ get_used_margin (long_one_at_3000 2000) == 24
  /\ ~ get_used_margin (long_one_at_3000 2000)
       == (long_position (long_one_at_3000 2000)
           + short_position (long_one_at_3000 2000))
          * current_price (long_one_at_3000 2000) / inject_Z 125.
Proof.
  split; [reflexivity|]. split; [reflexivity|]. split; [reflexivity|].
  intros H. vm_compute in H. discriminate H.
Qed.

(** ** Order matching *)



(** ** Liquidation *)

Lemma not_gtb_zero_of_nonneg (q : Q) :
  0 <= q -> Decimal.gtb q 0 = false -> q == 0.
Proof. intros H0 H. apply decimal_gtb_false_iff in H. lra. Qed.

(** With non-negative positions the guarded sum of [get_unrealized_pnl] is
    the plain two-sided formula. *)
Lemma equity_formula (s : Exchange) :
  positions_nonneg s ->
  get_equity s
  == balance s
     + long_position s * (current_price s - long_entry_price s)
     + short_position s * (short_entry_price s - current_price s).
Proof.
  intros [Hl Hs]. unfold get_equity, get_unrealized_pnl.
  destruct (Decimal.gtb (long_position s) 0) eqn:Hgl;
    destruct (Decimal.gtb (short_position s) 0) eqn:Hgs;
    try (rewrite (not_gtb_zero_of_nonneg _ Hl Hgl));
    try (rewrite (not_gtb_zero_of_nonneg _ Hs Hgs)); ring.
Qed.

(** Closing the long side returns, leaves no long quantity, charges
    position * price * rate of fees and leaves the short side alone. *)
Lemma close_long_at_frame (s : Exchange) (price rate : Q) (timestamp : Z) :
  0 <= long_position s -> payout_day_ok s ->
  exists s',
    close_long_at s price rate timestamp = Ok s'
    /\ long_position s' == 0
    /\ short_position s' = short_position s
    /\ total_fees_paid s'
       == total_fees_paid s + long_position s * price * rate
    /\ same_books s s'.
Proof.
  intros Hl Hday. unfold close_long_at.
  destruct (Decimal.gtb (long_position s) 0) eqn:Hgl.
  - match goal with
    | |- context [accumulate_fee ?st ?fee ?ts] =>
        destruct (accumulate_fee_frame st fee ts) as (b & f & d & Hacc & _);
          [exact Hday | rewrite Hacc]
    end.
    eexists. split; [reflexivity|]. unfold same_books. attrs.
    split; [reflexivity|]. split; [reflexivity|]. split; [reflexivity|].
    repeat (split; [reflexivity|]). reflexivity.
  - exists s. split; [reflexivity|].
    pose proof (not_gtb_zero_of_nonneg _ Hl Hgl) as Hl0.
    split; [exact Hl0|]. split; [reflexivity|].
    split; [rewrite Hl0; ring|].
    unfold same_books. repeat (split; [reflexivity|]). reflexivity.
Qed.

Lemma close_short_at_frame (s : Exchange) (price rate : Q) (timestamp : Z) :
  0 <= short_position s -> payout_day_ok s ->
  exists s',
    close_short_at s price rate timestamp = Ok s'
    /\ short_position s' == 0
    /\ long_position s' = long_position s
    /\ total_fees_paid s'
       == total_fees_paid s + short_position s * price * rate
    /\ same_books s s'.
Proof.
  intros Hs Hday. unfold close_short_at.
  destruct (Decimal.gtb (short_position s) 0) eqn:Hgs.
  - match goal with
    | |- context [accumulate_fee ?st ?fee ?ts] =>
        destruct (accumulate_fee_frame st fee ts) as (b & f & d & Hacc & _);
          [exact Hday | rewrite Hacc]
    end.
    eexists. split; [reflexivity|]. unfold same_books. attrs.
    split; [reflexivity|]. split; [reflexivity|]. split; [reflexivity|].
    repeat (split; [reflexivity|]). reflexivity.
  - exists s. split; [reflexivity|].
    pose proof (not_gtb_zero_of_nonneg _ Hs Hgs) as Hs0.
    split; [exact Hs0|]. split; [reflexivity|].
    split; [rewrite Hs0; ring|].
    unfold same_books. repeat (split; [reflexivity|]). reflexivity.
Qed.

(** C1.  On an exchange with non-negative positions (and, when rebate is
    on, a payout day every month has), [check_and_handle_liquidation(ts)]
    returns; equity is balance + unrealized PnL at the mark price; the
    result is True iff a position is non-zero and
    0 < equity <= maintenanceMargin.  When it is True both positions are
    closed (quantity 0), the fees paid grow by position * mark * takerFee
    for each side, exactly one event (ts, equity, mark) is appended, both
    resting lists are empty and the balance is 0.  When it is False the
    exchange is unchanged. *)
Theorem liquidation_check :
  forall (s : Exchange) (timestamp : Z),
    positions_nonneg s -> payout_day_ok s ->
    let equity := get_equity s in
    let liquidated :=
      (~ long_position s == 0 \/ ~ short_position s == 0)
      /\ 0 < equity /\ equity <= get_maintenance_margin s in
    equity
    == balance s
       + long_position s * (current_price s - long_entry_price s)
       + short_position s * (short_entry_price s - current_price s)
    /\ exists (b : bool) (s' : Exchange),
        check_and_handle_liquidation s timestamp = Ok (b, s')
        /\ (b = true <-> liquidated)
        /\ (b = true ->
            long_position s' == 0
            /\ short_position s' == 0
            /\ total_fees_paid s'
               == total_fees_paid s
                  + long_position s * current_price s * taker_fee s
                  + short_position s * current_price s * taker_fee s
            /\ liquidation_events s'
               = liquidation_events s
                   ++ [mk_liquidation timestamp equity (current_price s)]
            /\ active_buy_orders s' = []
            /\ active_sell_orders s' = []
            /\ trade_history s' = trade_history s
            /\ balance s' = 0)
        /\ (b = false -> s' = s).
Proof.
  intros s timestamp Hpos Hday equity liquidated.
  split; [apply equity_formula; exact Hpos|].
  destruct Hpos as [Hl Hs].
  unfold check_and_handle_liquidation. fold equity.
  destruct (Decimal.eqb (long_position s) 0 && Decimal.eqb (short_position s) 0)
    eqn:Hflat.
  { (* no position *)
    exists false, s. split; [reflexivity|].
    apply andb_true_iff in Hflat. destruct Hflat as [Hzl Hzs].
    apply decimal_eqb_iff in Hzl. apply decimal_eqb_iff in Hzs.
    split; [|split; [discriminate | reflexivity]].
    split; [discriminate|].
    intros [[Hn|Hn] _]; contradiction. }
  assert (Hheld : ~ long_position s == 0 \/ ~ short_position s == 0).
  { apply andb_false_iff in Hflat.
    destruct Hflat as [H|H]; apply decimal_eqb_false_iff in H; auto. }
  destruct (Decimal.leb equity (get_maintenance_margin s)
            && Decimal.gtb equity 0) eqn:Hcond.
  2:{ (* equity outside (0, maintenance margin] *)
    exists false, s. split; [reflexivity|].
    split; [|split; [discriminate | reflexivity]].
    split; [discriminate|].
    intros (_ & Hgt & Hle).
    apply decimal_leb_iff in Hle. apply decimal_gtb_iff in Hgt.
    rewrite Hle, Hgt in Hcond. discriminate. }
  apply andb_true_iff in Hcond. destruct Hcond as [Hle Hgt].
  apply decimal_leb_iff in Hle. apply decimal_gtb_iff in Hgt.
  assert (Hliq : liquidated) by (unfold liquidated; auto).
  cbv zeta.
  set (event := mk_liquidation timestamp equity (current_price s)).
  set (sa := set_active_sell_orders []
               (set_active_buy_orders []
                  (set_liquidation_events (liquidation_events s ++ [event]) s))).
  change (taker_fee sa) with (taker_fee s).
  destruct (close_long_at_frame sa (current_price s) (taker_fee s) timestamp)
    as (sb & Hlong & Hlb & Hsb & Hfb & Hbooks_b); [exact Hl | exact Hday |].
  destruct Hbooks_b as (Hb1 & Hb2 & Hb3 & Hb4 & Hb5 & Hb6).
  destruct (close_short_at_frame sb (current_price s) (taker_fee s) timestamp)
    as (sc & Hshort & Hsc & Hlc & Hfc & Hbooks_c).
  { rewrite Hsb. exact Hs. }
  { unfold payout_day_ok. rewrite Hb5, Hb6. exact Hday. }
  destruct Hbooks_c as (Hc1 & Hc2 & Hc3 & Hc4 & Hc5 & Hc6).
  rewrite Hlong. cbn [bind]. rewrite Hshort. cbn [bind].
  exists true, (set_balance 0 sc). split; [reflexivity|].
  split; [split; [intros _; exact Hliq | reflexivity]|].
  split; [|discriminate]. intros _.
  change (long_position (set_balance 0 sc)) with (long_position sc).
  change (short_position (set_balance 0 sc)) with (short_position sc).
  change (total_fees_paid (set_balance 0 sc)) with (total_fees_paid sc).
  change (liquidation_events (set_balance 0 sc)) with (liquidation_events sc).
  change (active_buy_orders (set_balance 0 sc)) with (active_buy_orders sc).
  change (active_sell_orders (set_balance 0 sc)) with (active_sell_orders sc).
  change (trade_history (set_balance 0 sc)) with (trade_history sc).
  split; [rewrite Hlc; exact Hlb|].
  split; [exact Hsc|].
  split; [rewrite Hfc, Hfb, Hsb; reflexivity|].
  split; [rewrite Hc3, Hb3; reflexivity|].
  split; [rewrite Hc1, Hb1; reflexivity|].
  split; [rewrite Hc2, Hb2; reflexivity|].
  split; [rewrite Hc4, Hb4; reflexivity|].
  reflexivity.
Qed.

(** ** The theorems at concrete inputs *)

(** C1 at a concrete input.  One long unit entered at 3000 with balance
    700, marked at 2309: equity is 9 and the maintenance margin 9.236, so
    the position is liquidated. *)
Lemma liquidation_check_at_2309 :
  positions_nonneg (long_one_at_3000 2309)
  /\ payout_day_ok (long_one_at_3000 2309)
  /\ exists s',
      check_and_handle_liquidation (long_one_at_3000 2309) 1704067212
      = Ok (true, s')
      /\ balance s' = 0
      /\ liquidation_events s'
         = [mk_liquidation 1704067212
                           (get_equity (long_one_at_3000 2309)) 2309].
Proof.
  assert (Hpos : positions_nonneg (long_one_at_3000 2309))
    by (split; vm_compute; discriminate).
  assert (Hday : payout_day_ok (long_one_at_3000 2309))
    by (intros H; vm_compute in H; discriminate H).
  split; [exact Hpos|]. split; [exact Hday|].
  destruct (liquidation_check (long_one_at_3000 2309) 1704067212 Hpos Hday)
    as (_ & b & s' & Hex & Hiff & Htrue & _).
  assert (Hb : b = true).
  { apply Hiff. split; [left; intros H; vm_compute in H; discriminate H|].
    split; vm_compute; [reflexivity | discriminate]. }
  subst b. exists s'. split; [exact Hex|].
  destruct (Htrue eq_refl) as (_ & _ & _ & Hev & _ & _ & _ & Hbal).
  split; [exact Hbal | exact Hev].
Defined.

(** C2 at a concrete input.  Buying 1 more at 3100 on top of one long
    unit leaves 3 units. *)
Lemma opening_fill_quantity_at_held_position :
  positions_nonneg (long_one_at_3000 3000)
  /\ payout_day_ok (long_one_at_3000 3000)
  /\ 0 < 1
  /\ exists s',
      execute_fast_trade (long_one_at_3000 3000) "buy_long" 1 3100 1704067200
      = Ok s'
      /\ long_position s' == 3.
Proof.
  assert (Hpos : positions_nonneg (long_one_at_3000 3000))
    by (split; vm_compute; discriminate).
  assert (Hday : payout_day_ok (long_one_at_3000 3000))
    by (intros H; vm_compute in H; discriminate H).
  assert (Hq : 0 < 1) by reflexivity.
  split; [exact Hpos|]. split; [exact Hday|]. split; [exact Hq|].
  destruct (opening_fill_quantity (long_one_at_3000 3000) 1 3100 1704067200
                                  Hpos Hday Hq)
    as [(s' & Hex & Hqty) _].
  exists s'. split; [exact Hex|].
  rewrite Hqty. vm_compute. reflexivity.
Defined.

(** C3 at a concrete input.  Closing 5 against one long unit at 3100: the
    fill is clipped to 1, the balance grows by 100 and the position is
    flat. *)
Lemma execute_fast_trade_balance_at_clipped_close :
  positions_nonneg (long_one_at_3000 3000)
  /\ payout_day_ok (long_one_at_3000 3000)
  /\ 0 <= 5
  /\ exists s',
      execute_fast_trade (long_one_at_3000 3000) "sell_long" 5 3100 1704067200
      = Ok s'
      /\ balance s' == 800
      /\ long_position s' == 0.
Proof.
  assert (Hpos : positions_nonneg (long_one_at_3000 3000))
    by (split; vm_compute; discriminate).
  assert (Hday : payout_day_ok (long_one_at_3000 3000))
    by (intros H; vm_compute in H; discriminate H).
  assert (Hq : 0 <= 5) by (vm_compute; discriminate).
  split; [exact Hpos|]. split; [exact Hday|]. split; [exact Hq|].
  destruct (execute_fast_trade_balance (long_one_at_3000 3000) "sell_long"
                                       5 3100 1704067200 Hpos Hday Hq)
    as (s' & Hex & _ & Hoff & Hsl & _).
  exists s'. split; [exact Hex|]. split.
  - rewrite (Hoff eq_refl). vm_compute. reflexivity.
  - rewrite (Hsl eq_refl). vm_compute. reflexivity.
Defined.

(** C4 at a concrete input.  Two long fills of 1 at 3000 and 1 at 3100
    from a flat exchange give
    the entry price 3050. *)
Lemma two_fills_weighted_average_entry_3050 :
  positions_nonneg (new_exchange 700)
  /\ payout_day_ok (new_exchange 700)
  /\ 0 <= 1 /\ ~ 1 + 1 == 0
  /\ long_position (new_exchange 700) == 0
  /\ exists s1 s2,
      execute_fast_trade (new_exchange 700) "buy_long" 1 3000 1704067200
      = Ok s1
      /\ execute_fast_trade s1 "buy_long" 1 3100 1704067212 = Ok s2
      /\ long_entry_price s2 == 3050.
Proof.
  assert (Hpos : positions_nonneg (new_exchange 700))
    by (split; vm_compute; discriminate).
  assert (Hday : payout_day_ok (new_exchange 700))
    by (intros H; vm_compute in H; discriminate H).
  assert (Hq : 0 <= 1) by (vm_compute; discriminate).
  assert (Hsum : ~ 1 + 1 == 0) by (intros H; vm_compute in H; discriminate H).
  assert (Hflat : long_position (new_exchange 700) == 0) by reflexivity.
  split; [exact Hpos|]. split; [exact Hday|]. split; [exact Hq|].
  split; [exact Hsum|]. split; [exact Hflat|].
  destruct (two_fills_weighted_average_entry (new_exchange 700) 1 3000 1 3100
              1704067200 1704067212 Hpos Hday Hq Hq Hsum)
    as [Hlong _].
  destruct (Hlong Hflat) as (s1 & s2 & Hex1 & Hex2 & Hentry).
  exists s1, s2. split; [exact Hex1|]. split; [exact Hex2|].
  rewrite Hentry. vm_compute. reflexivity.
Defined.


(** C9 at concrete inputs, payout day 19.
    First call: on 2024-01-20 the anchor becomes 2024-01-19; on 2024-01-10,
    before this month's payout day, it becomes 2023-12-19; at the instant
    2024-01-19 00:00:00 itself it becomes 2024-01-19.
    Later call with the anchor at 2024-01-19, 10 of cycle fees and rate
    0.30: at 2024-02-18 23:59:59 nothing changes; at the instant
    2024-02-19 00:00:00 and on 2024-02-20, 3 is credited, the cycle fees
    are reset and the anchor moves to 2024-02-19. *)
Lemma process_fee_rebate_cycle_at_payout :
  (Pandas.to_datetime 1705708800
   = Some (Pandas.mk_timestamp 2024 1 20 0 0 0)
   /\ process_fee_rebate fresh_rebate_exchange 1705708800
      = Ok (set_last_payout_date
              (Some (Pandas.mk_timestamp 2024 1 19 0 0 0))
              fresh_rebate_exchange))
  /\ (Pandas.to_datetime 1704844800
      = Some (Pandas.mk_timestamp 2024 1 10 0 0 0)
      /\ process_fee_rebate fresh_rebate_exchange 1704844800
         = Ok (set_last_payout_date
                 (Some (Pandas.mk_timestamp 2023 12 19 0 0 0))
                 fresh_rebate_exchange))
  /\ (Pandas.to_datetime 1705622400
      = Some (Pandas.mk_timestamp 2024 1 19 0 0 0)
      /\ process_fee_rebate fresh_rebate_exchange 1705622400
         = Ok (set_last_payout_date
                 (Some (Pandas.mk_timestamp 2024 1 19 0 0 0))
                 fresh_rebate_exchange))
  /\ (Pandas.to_datetime 1708300799
      = Some (Pandas.mk_timestamp 2024 2 18 23 59 59)
      /\ process_fee_rebate (rebate_exchange 10 0.30 0.0002) 1708300799
         = Ok (rebate_exchange 10 0.30 0.0002))
  /\ (Pandas.to_datetime 1708300800
      = Some (Pandas.mk_timestamp 2024 2 19 0 0 0)
      /\ process_fee_rebate (rebate_exchange 10 0.30 0.0002) 1708300800
         = Ok (set_last_payout_date
                 (Some (Pandas.mk_timestamp 2024 2 19 0 0 0))
                 (set_current_cycle_fees 0
                    (set_balance (700 + 10 * 0.30)
                       (rebate_exchange 10 0.30 0.0002)))))
  /\ (Pandas.to_datetime 1708387200
      = Some (Pandas.mk_timestamp 2024 2 20 0 0 0)
      /\ process_fee_rebate (rebate_exchange 10 0.30 0.0002) 1708387200
         = Ok (set_last_payout_date
                 (Some (Pandas.mk_timestamp 2024 2 19 0 0 0))
                 (set_current_cycle_fees 0
                    (set_balance (700 + 10 * 0.30)
                       (rebate_exchange 10 0.30 0.0002))))).
Proof.
  assert (Hfresh : use_fee_rebate fresh_rebate_exchange = true)
    by reflexivity.
  assert (Huse : use_fee_rebate (rebate_exchange 10 0.30 0.0002) = true)
    by reflexivity.
  split; [|split; [|split; [|split; [|split]]]].
  - assert (Hmax : (1705708800 <= 2147483647)%Z) by lia.
    assert (Hdate : Pandas.to_datetime 1705708800
                    = Some (Pandas.mk_timestamp 2024 1 20 0 0 0))
      by reflexivity.
    split; [exact Hdate|].
    destruct (process_fee_rebate_cycle fresh_rebate_exchange 1705708800
                (Pandas.mk_timestamp 2024 1 20 0 0 0) Hfresh Hmax Hdate)
      as [Hfirst _].
    destruct (Hfirst eq_refl) as [_ Hthis]; [vm_compute; split; discriminate|].
    apply Hthis. left. unfold Pandas.lt. cbn. lia.
  - assert (Hmax : (1704844800 <= 2147483647)%Z) by lia.
    assert (Hdate : Pandas.to_datetime 1704844800
                    = Some (Pandas.mk_timestamp 2024 1 10 0 0 0))
      by reflexivity.
    split; [exact Hdate|].
    destruct (process_fee_rebate_cycle fresh_rebate_exchange 1704844800
                (Pandas.mk_timestamp 2024 1 10 0 0 0) Hfresh Hmax Hdate)
      as [Hfirst _].
    destruct (Hfirst eq_refl) as [Hprior _]; [vm_compute; split; discriminate|].
    apply Hprior. unfold Pandas.lt. cbn. lia.
  - assert (Hmax : (1705622400 <= 2147483647)%Z) by lia.
    assert (Hdate : Pandas.to_datetime 1705622400
                    = Some (Pandas.mk_timestamp 2024 1 19 0 0 0))
      by reflexivity.
    split; [exact Hdate|].
    destruct (process_fee_rebate_cycle fresh_rebate_exchange 1705622400
                (Pandas.mk_timestamp 2024 1 19 0 0 0) Hfresh Hmax Hdate)
      as [Hfirst _].
    destruct (Hfirst eq_refl) as [_ Hthis]; [vm_compute; split; discriminate|].
    apply Hthis. right. reflexivity.
  - assert (Hmax : (1708300799 <= 2147483647)%Z) by lia.
    assert (Hdate : Pandas.to_datetime 1708300799
                    = Some (Pandas.mk_timestamp 2024 2 18 23 59 59))
      by reflexivity.
    split; [exact Hdate|].
    destruct (process_fee_rebate_cycle (rebate_exchange 10 0.30 0.0002)
                1708300799 (Pandas.mk_timestamp 2024 2 18 23 59 59)
                Huse Hmax Hdate) as [_ Hlater].
    destruct (Hlater (Pandas.mk_timestamp 2024 1 19 0 0 0) eq_refl)
      as [_ Hearly].
    apply Hearly. unfold Pandas.lt. cbn. lia.
  - assert (Hmax : (1708300800 <= 2147483647)%Z) by lia.
    assert (Hdate : Pandas.to_datetime 1708300800
                    = Some (Pandas.mk_timestamp 2024 2 19 0 0 0))
      by reflexivity.
    split; [exact Hdate|].
    destruct (process_fee_rebate_cycle (rebate_exchange 10 0.30 0.0002)
                1708300800 (Pandas.mk_timestamp 2024 2 19 0 0 0)
                Huse Hmax Hdate) as [_ Hlater].
    destruct (Hlater (Pandas.mk_timestamp 2024 1 19 0 0 0) eq_refl)
      as [Hdue _].
    destruct Hdue as [Hpay _]; [right; reflexivity|].
    apply Hpay. reflexivity.
  - assert (Hmax : (1708387200 <= 2147483647)%Z) by lia.
    assert (Hdate : Pandas.to_datetime 1708387200
                    = Some (Pandas.mk_timestamp 2024 2 20 0 0 0))
      by reflexivity.
    split; [exact Hdate|].
    destruct (process_fee_rebate_cycle (rebate_exchange 10 0.30 0.0002)
                1708387200 (Pandas.mk_timestamp 2024 2 20 0 0 0)
                Huse Hmax Hdate) as [_ Hlater].
    destruct (Hlater (Pandas.mk_timestamp 2024 1 19 0 0 0) eq_refl)
      as [Hdue _].
    destruct Hdue as [Hpay _]; [left; unfold Pandas.lt; cbn; lia|].
    apply Hpay. reflexivity.
Defined.

(** C10 at concrete inputs.  [two_bar_monitor] (period 1, two bars, last
    close 11) fed a third bar: the oldest bar is evicted and the ATR of the
    remaining pair is appended.  For the bar (13, 10, 12) it is 3 / 1, the
    range high - low.  For the bar (15, 14, 14.5), which opens above the
    previous close, the three ranges are 1, 4 and 3 and the true range is
    4 = |high - prevClose|. *)
Lemma update_price_at_two_bar_monitor :
  (len (price_history two_bar_monitor) <= atr_period two_bar_monitor + 1)%Z
  /\ (len (atr_values two_bar_monitor) <= 100)%Z
  /\ price_history
       (update_price Qminus Qabs Decimal.gtb exact_sum exact_div_len
                     two_bar_monitor 120 13%Q 10%Q 12%Q)
     = [mk_bar 60 12%Q 9%Q 11%Q; mk_bar 120 13%Q 10%Q 12%Q]
  /\ (len (atr_values
             (update_price Qminus Qabs Decimal.gtb exact_sum exact_div_len
                           two_bar_monitor 120 13%Q 10%Q 12%Q)) <= 100)%Z
  /\ (exists kept,
         atr_values
           (update_price Qminus Qabs Decimal.gtb exact_sum exact_div_len
                         two_bar_monitor 120 13%Q 10%Q 12%Q)
         = kept ++ [exact_div_len (exact_sum [3]) 1])
  /\ exists tr,
      nth_error
        (true_ranges Qminus Qabs Decimal.gtb
           (price_history
              (update_price Qminus Qabs Decimal.gtb exact_sum exact_div_len
                            two_bar_monitor 120 15%Q 14%Q 14.5%Q)))
        0
      = Some tr
      /\ tr = Qabs (15 - 11)
      /\ tr == 4.
Proof.
  assert (H1 : (len (price_history two_bar_monitor)
                <= atr_period two_bar_monitor + 1)%Z)
    by (vm_compute; discriminate).
  assert (H2 : (len (atr_values two_bar_monitor) <= 100)%Z)
    by (vm_compute; discriminate).
  split; [exact H1|]. split; [exact H2|].
  destruct (update_price_history_bounded_atr_average
              Q Qminus Qabs Decimal.gtb exact_sum exact_div_len
              two_bar_monitor 120 13%Q 10%Q 12%Q H1 H2)
    as (Hhist & _ & _ & Hcap & _ & Hatr).
  split; [rewrite Hhist; reflexivity|].
  split; [exact Hcap|].
  split.
  { destruct Hatr as (_ & _ & _ & kept & Hvals & _).
    { vm_compute. discriminate. }
    exists kept. exact Hvals. }
  destruct (update_price_history_bounded_atr_average
              Q Qminus Qabs Decimal.gtb exact_sum exact_div_len
              two_bar_monitor 120 15%Q 14%Q 14.5%Q H1 H2)
    as (_ & _ & _ & _ & _ & Hgap).
  destruct Hgap as (_ & Hnth & Hord & _).
  { vm_compute. discriminate. }
  pose proof (Hnth 0%nat (mk_bar 60 12%Q 9%Q 11%Q)
                   (mk_bar 120 15%Q 14%Q 14.5%Q) eq_refl eq_refl) as Hentry.
  cbn [bar_high bar_low bar_close] in Hentry.
  match type of Hentry with
  | _ = Some ?x => set (tr := x) in Hentry
  end.
  pose proof (Hord decimal_gtb_strict_order 0%nat (mk_bar 60 12%Q 9%Q 11%Q)
                   (mk_bar 120 15%Q 14%Q 14.5%Q) tr eq_refl eq_refl Hentry)
    as Hmax.
  cbv zeta in Hmax. cbn [bar_high bar_low bar_close] in Hmax.
  clearbody tr.
  exists tr. split; [exact Hentry|].
  destruct Hmax as (Hin & G1 & G2 & G3).
  assert (Htr : tr = Qabs (15 - 11)).
  { destruct Hin as [E|[E|[E|[]]]]; subst tr.
    - vm_compute in G2. discriminate G2.
    - reflexivity.
    - vm_compute in G2. discriminate G2. }
  split; [exact Htr|]. rewrite Htr. reflexivity.
Defined.

(** C5 at the edge of the first tier.  One long unit marked at 50000 has
    a net notional of exactly 50000, which the first row (bound 50000,
    rate 0.004, amount 0) still takes: 200.  Marked at 50001 it is the
    second row (rate 0.005, amount 50): 200.005. *)
Lemma maintenance_margin_formula_at_tier_bound :
  get_maintenance_margin (long_one_at_3000 50000) == 200
  /\ get_maintenance_margin (long_one_at_3000 50001) == 200.005.
Proof.
  split.
  - destruct (maintenance_margin_formula (long_one_at_3000 50000))
      as [_ (t & (before & after & Heq & Hbefore & Hin) & Hval)].
    unfold ETH_USDC_TIERS in Heq.
    destruct before as [|b0 before].
    + inversion Heq; subst t. rewrite Hval. vm_compute. reflexivity.
    + inversion Heq; subst b0. inversion Hbefore as [|x l H0 Hrest]; subst.
      vm_compute in H0. discriminate H0.
  - destruct (maintenance_margin_formula (long_one_at_3000 50001))
      as [_ (t & (before & after & Heq & Hbefore & Hin) & Hval)].
    unfold ETH_USDC_TIERS in Heq.
    destruct before as [|b0 [|b1 before]].
    + inversion Heq; subst t. vm_compute in Hin. exfalso. apply Hin.
      reflexivity.
    + inversion Heq; subst t. rewrite Hval. vm_compute. reflexivity.
    + inversion Heq; subst b0 b1.
      inversion Hbefore as [|x l H0 Hrest]; subst.
      inversion Hrest as [|x l H1 Hrest']; subst.
      vm_compute in H1. discriminate H1.
Defined.

(** C6 at the edge of the first tier.  One long unit entered at 3000 and
    marked at 50000 has a gross notional of exactly 50000, which the first
    row (max leverage 125) still takes: 3000 / 125 = 24.  Marked at 50001
    it is the second row (max leverage 100): 3000 / 100 = 30. *)
Lemma used_margin_formula_at_tier_bound :
  get_used_margin (long_one_at_3000 50000) == 24
  /\ get_used_margin (long_one_at_3000 50001) == 30.
Proof.
  split.
  - destruct (used_margin_formula (long_one_at_3000 50000))
      as [_ (t & (before & after & Heq & Hbefore & Hin) & _ & Hval)].
    unfold ETH_USDC_TIERS in Heq.
    destruct before as [|b0 before].
    + inversion Heq; subst t. rewrite Hval. vm_compute. reflexivity.
    + inversion Heq; subst b0. inversion Hbefore as [|x l H0 Hrest]; subst.
      vm_compute in H0. discriminate H0.
  - destruct (used_margin_formula (long_one_at_3000 50001))
      as [_ (t & (before & after & Heq & Hbefore & Hin) & _ & Hval)].
    unfold ETH_USDC_TIERS in Heq.
    destruct before as [|b0 [|b1 before]].
    + inversion Heq; subst t. vm_compute in Hin. exfalso. apply Hin.
      reflexivity.
    + inversion Heq; subst t. rewrite Hval. vm_compute. reflexivity.
    + inversion Heq; subst b0 b1.
      inversion Hbefore as [|x l H0 Hrest]; subst.
      inversion Hrest as [|x l H1 Hrest']; subst.
      vm_compute in H1. discriminate H1.
Defined.

(** * Further properties of the simulator *)

(** ** Margin tiers: shape of the table *)

Lemma le_bound_false_mono (v1 v2 : Q) (b : bound) :
  v1 <= v2 -> le_bound v1 b = false -> le_bound v2 b = false.
Proof.
  destruct b as [q|]; cbn [le_bound]; [|discriminate].
  intros Hle H1.
  destruct (Decimal.leb v2 q) eqn:H2; [|reflexivity].
  apply decimal_leb_iff in H2.
  assert (H : Decimal.leb v1 q = true) by (apply decimal_leb_iff; lra).
  congruence.
Qed.

Lemma scan_tiers_in (v : Q) (tiers : list MarginTier) (t : MarginTier) :
  scan_tiers v tiers = Some t -> In t tiers.
Proof.
  induction tiers as [|t0 rest IH]; [discriminate|].
  cbn [scan_tiers]. destruct (le_bound v (threshold t0)).
  - intros H. inversion H. left. reflexivity.
  - intros H. right. apply IH. exact H.
Qed.

(** In a table whose maximum leverage never grows from one row to the
    next, a larger notional never selects a larger leverage. *)
Lemma scan_tiers_leverage_antitone (tiers : list MarginTier) :
  StronglySorted (fun a b => (max_leverage b <= max_leverage a)%Z) tiers ->
  forall (v1 v2 : Q) (t1 t2 : MarginTier),
    v1 <= v2 ->
    scan_tiers v1 tiers = Some t1 ->
    scan_tiers v2 tiers = Some t2 ->
    (max_leverage t2 <= max_leverage t1)%Z.
Proof.
  induction 1 as [|t rest Hrest IH Hall]; intros v1 v2 t1 t2 Hle H1 H2;
    [discriminate|].
  cbn [scan_tiers] in H1, H2.
  destruct (le_bound v1 (threshold t)) eqn:Hb1.
  - inversion H1; subst t1.
    destruct (le_bound v2 (threshold t)).
    + inversion H2. lia.
    + apply scan_tiers_in in H2.
      rewrite Forall_forall in Hall. apply Hall. exact H2.
  - rewrite (le_bound_false_mono v1 v2 _ Hle Hb1) in H2.
    eapply IH; eassumption.
Qed.

Lemma tiers_leverage_descending :
  StronglySorted (fun a b => (max_leverage b <= max_leverage a)%Z)
                 ETH_USDC_TIERS.
Proof.
  unfold ETH_USDC_TIERS.
  repeat (constructor; [|repeat constructor; cbn [max_leverage]; lia]).
  constructor.
Qed.

Lemma tiers_leverage_range :
  Forall (fun t => (1 <= max_leverage t <= 125)%Z) ETH_USDC_TIERS.
Proof. unfold ETH_USDC_TIERS. repeat constructor; cbn; lia. Qed.

Lemma current_tier_is_scanned (s : Exchange) :
  scan_tiers (get_position_value s) ETH_USDC_TIERS
  = Some (get_current_leverage_tier s).
Proof.
  unfold get_current_leverage_tier.
  destruct (scan_tiers_total (get_position_value s) ETH_USDC_TIERS
                             tiers_have_infinity) as [t Ht].
  rewrite Ht. reflexivity.
Qed.

Lemma current_max_leverage_range (s : Exchange) :
  (1 <= get_current_max_leverage s <= 125)%Z.
Proof.
  unfold get_current_max_leverage.
  pose proof (scan_tiers_in _ _ _ (current_tier_is_scanned s)) as Hin.
  pose proof tiers_leverage_range as Hall.
  rewrite Forall_forall in Hall. apply Hall. exact Hin.
Qed.

(** X1.  The maximum leverage of the tier selected for an exchange lies
    between 1 and 125, and an exchange with a larger gross mark-price
    notional never gets a larger maximum leverage. *)
Theorem max_leverage_bounded_and_antitone :
  forall s1 s2 : Exchange,
    (1 <= get_current_max_leverage s1 <= 125)%Z
    /\ (get_position_value s1 <= get_position_value s2 ->
        (get_current_max_leverage s2 <= get_current_max_leverage s1)%Z).
Proof.
  intros s1 s2. split; [apply current_max_leverage_range|].
  intros Hle. unfold get_current_max_leverage.
  eapply (scan_tiers_leverage_antitone ETH_USDC_TIERS
            tiers_leverage_descending); [exact Hle | |];
    apply current_tier_is_scanned.
Qed.

(** The step of the maintenance-margin loop on the hard-coded table:
    each test is decided and turned into an inequality. *)
Ltac scan_step :=
  match goal with
  | |- context [Decimal.leb ?a ?b] =>
      let H := fresh "Hb" in
      destruct (Decimal.leb a b) eqn:H;
      [ apply decimal_leb_iff in H
      | apply (proj1 (negb_true_iff _)) in H || idtac;
        assert (b < a)
          by (destruct (Qlt_le_dec b a) as [Hlt|Hge];
              [ exact Hlt
              | apply decimal_leb_iff in Hge; congruence ]);
        clear H ]
  end.

Lemma maintenance_scan_monotone (v1 v2 : Q) :
  0 <= v1 -> v1 <= v2 ->
  0 <= maintenance_scan v1 ETH_USDC_TIERS
  /\ maintenance_scan v1 ETH_USDC_TIERS <= maintenance_scan v2 ETH_USDC_TIERS.
Proof.
  intros H0 Hle.
  unfold ETH_USDC_TIERS.
  cbn [maintenance_scan le_bound threshold mm_rate maintenance_amount].
  repeat scan_step; split; lra.
Qed.

(** X2.  With a non-negative mark price the maintenance margin is never
    negative, and it never decreases when the net notional grows: the
    fixed amounts of the table make the formula continuous across tier
    bounds. *)
Theorem maintenance_margin_nonneg_monotone :
  forall s1 s2 : Exchange,
    0 <= current_price s1 ->
    0 <= get_maintenance_margin s1
    /\ (get_net_position_value s1 <= get_net_position_value s2 ->
        get_maintenance_margin s1 <= get_maintenance_margin s2).
Proof.
  intros s1 s2 Hprice.
  assert (Hnet : 0 <= get_net_position_value s1).
  { unfold get_net_position_value.
    apply Qmult_le_0_compat; [apply Qabs_nonneg | exact Hprice]. }
  unfold get_maintenance_margin. split.
  - apply (maintenance_scan_monotone _ _ Hnet (Qle_refl _)).
  - intros Hle. apply (maintenance_scan_monotone _ _ Hnet Hle).
Qed.

Lemma maintenance_scan_compat (a a' : Q) (tiers : list MarginTier) :
  a == a' -> maintenance_scan a tiers == maintenance_scan a' tiers.
Proof.
  intros H. induction tiers as [|t rest IH]; [reflexivity|].
  cbn [maintenance_scan]. rewrite (le_bound_compat a a' _ H).
  destruct (le_bound a' (threshold t)); [rewrite H; reflexivity | exact IH].
Qed.

Lemma maintenance_margin_hedged (s : Exchange) :
  long_position s == short_position s -> get_maintenance_margin s == 0.
Proof.
  intros Heq. unfold get_maintenance_margin.
  assert (Hnet : get_net_position_value s == 0).
  { unfold get_net_position_value, get_net_position.
    assert (Hz : long_position s - short_position s == 0) by lra.
    rewrite Hz. reflexivity. }
  rewrite (maintenance_scan_compat _ _ _ Hnet). reflexivity.
Qed.

(** X3.  A fully hedged book (long quantity equal to short quantity) is
    never liquidated, whatever the balance and the mark price: the
    maintenance margin of a zero net notional is 0, so
    [check_and_handle_liquidation] returns False and changes nothing. *)
Theorem hedged_book_never_liquidated :
  forall (s : Exchange) (timestamp : Z),
    long_position s == short_position s ->
    check_and_handle_liquidation s timestamp = Ok (false, s).
Proof.
  intros s timestamp Heq. unfold check_and_handle_liquidation.
  destruct (Decimal.eqb (long_position s) 0 && Decimal.eqb (short_position s) 0);
    [reflexivity|].
  destruct (Decimal.leb (get_equity s) (get_maintenance_margin s)) eqn:Hle;
    [|reflexivity].
  destruct (Decimal.gtb (get_equity s) 0) eqn:Hgt; [|reflexivity].
  apply decimal_leb_iff in Hle. apply decimal_gtb_iff in Hgt.
  rewrite (maintenance_margin_hedged s Heq) in Hle. lra.
Qed.

(** X3 at a concrete input: one long and one short unit entered at 3000,
    marked at 1 with balance 700. *)
Lemma hedged_book_never_liquidated_at_crash :
  long_position (hedged_exchange 1) == short_position (hedged_exchange 1)
  /\ check_and_handle_liquidation (hedged_exchange 1) 1704067212
     = Ok (false, hedged_exchange 1).
Proof.
  assert (H : long_position (hedged_exchange 1)
              == short_position (hedged_exchange 1)) by reflexivity.
  split; [exact H|].
  apply (hedged_book_never_liquidated (hedged_exchange 1) 1704067212 H).
Defined.

(** X2 at a concrete input: one long unit at mark 3000 against one long
    and one short unit at mark 3000. *)
Lemma maintenance_margin_nonneg_monotone_at_3000 :
  0 <= current_price (hedged_exchange 3000)
  /\ get_net_position_value (hedged_exchange 3000)
     <= get_net_position_value (long_one_at_3000 3000)
  /\ 0 <= get_maintenance_margin (hedged_exchange 3000)
  /\ get_maintenance_margin (hedged_exchange 3000)
     <= get_maintenance_margin (long_one_at_3000 3000).
Proof.
  assert (Hprice : 0 <= current_price (hedged_exchange 3000))
    by (vm_compute; discriminate).
  assert (Hnet : get_net_position_value (hedged_exchange 3000)
                 <= get_net_position_value (long_one_at_3000 3000))
    by (vm_compute; discriminate).
  split; [exact Hprice|]. split; [exact Hnet|].
  destruct (maintenance_margin_nonneg_monotone (hedged_exchange 3000)
              (long_one_at_3000 3000) Hprice) as [H0 Hmono].
  split; [exact H0 | exact (Hmono Hnet)].
Defined.

(** ** The book invariant *)

Lemma same_config_refl (s : Exchange) : same_config s s.
Proof. unfold same_config. repeat (split; [reflexivity|]). reflexivity. Qed.

Lemma same_config_trans (s1 s2 s3 : Exchange) :
  same_config s1 s2 -> same_config s2 s3 -> same_config s1 s3.
Proof.
  unfold same_config.
  intros (A1 & A2 & A3 & A4 & A5 & A6 & A7 & A8 & A9)
         (B1 & B2 & B3 & B4 & B5 & B6 & B7 & B8 & B9).
  repeat (split; [congruence|]). congruence.
Qed.

Lemma book_ok_positions_nonneg (s : Exchange) :
  book_ok s -> positions_nonneg s.
Proof. intros [[Hl _] [Hs _]]. split; assumption. Qed.

Lemma payout_day_ok_same_config (s s' : Exchange) :
  same_config s s' -> payout_day_ok s -> payout_day_ok s'.
Proof.
  intros (_ & _ & _ & _ & _ & Hu & Hd & _) H. unfold payout_day_ok.
  rewrite Hu, Hd. exact H.
Qed.

Lemma side_ok_flat : side_ok 0 0.
Proof. unfold side_ok. split; [lra|]. split; intros H; lra. Qed.

Lemma side_ok_held (qty entry : Q) : 0 < qty -> 0 < entry -> side_ok qty entry.
Proof.
  intros Hq He. unfold side_ok. split; [lra|].
  split; [intros H; lra | intros _; exact He].
Qed.

Lemma div_pos (a b : Q) : 0 < a -> 0 < b -> 0 < a / b.
Proof.
  intros Ha Hb. unfold Qdiv.
  apply Qmult_lt_0_compat; [exact Ha | apply Qinv_lt_0_compat; exact Hb].
Qed.

(** An opening fill keeps a side well formed. *)
Lemma side_ok_open (qty entry amount price : Q) :
  side_ok qty entry -> 0 < amount -> 0 < price ->
  (Decimal.eqb qty 0 = true -> side_ok (qty + amount) price)
  /\ (Decimal.eqb qty 0 = false ->
      ~ qty + amount == 0
      /\ side_ok (qty + amount + amount)
                 ((qty * entry + amount * price) / (qty + amount))).
Proof.
  intros (H0 & Hz & Hp) Ha Hpr. split.
  - intros _. unfold side_ok. split; [lra|].
    split; [intros H; lra | intros _; exact Hpr].
  - intros Hne. apply decimal_eqb_false_iff in Hne.
    assert (Hq : 0 < qty) by lra.
    split; [lra|].
    unfold side_ok. split; [lra|]. split; [intros H; lra|].
    intros _. apply div_pos; [|lra].
    pose proof (Qmult_lt_0_compat _ _ Hq (Hp Hq)).
    pose proof (Qmult_lt_0_compat _ _ Ha Hpr). lra.
Qed.

(** A closing fill keeps a side well formed. *)
Lemma side_ok_close (qty entry amount : Q) :
  side_ok qty entry -> 0 < amount -> 0 < qty ->
  let trade_amount := Decimal.min amount qty in
  side_ok (qty - trade_amount)
          (if Decimal.eqb (qty - trade_amount) 0 then 0 else entry).
Proof.
  intros (H0 & Hz & Hp) Ha Hq trade_amount.
  assert (Hb : 0 <= trade_amount /\ trade_amount <= qty)
    by (apply decimal_min_bounds; lra).
  destruct (Decimal.eqb (qty - trade_amount) 0) eqn:He.
  - apply decimal_eqb_iff in He. unfold side_ok.
    split; [lra|]. split; intros H; lra.
  - apply decimal_eqb_false_iff in He. unfold side_ok.
    split; [lra|]. split; [intros H; contradiction|].
    intros _. exact (Hp Hq).
Qed.

(** The branches of [execute_fast_trade] keep the book well formed and
    assign nothing but the balance, the positions and the entry prices. *)
Lemma apply_side_book (s : Exchange) (side : string) (amount price : Q) :
  book_ok s -> 0 < amount -> 0 < price ->
  exists pnl s',
    apply_side s side amount price = Ok (pnl, s')
    /\ book_ok s' /\ same_config s s' /\ same_books s s'
    /\ total_fees_paid s' = total_fees_paid s
    /\ current_cycle_fees s' = current_cycle_fees s
    /\ last_payout_date s' = last_payout_date s.
Proof.
  intros [Hlong Hshort] Ha Hp.
  assert (Hfin : forall (pnl : Q) (s' : Exchange),
             book_ok s' ->
             (exists b q1 q2 e1 e2,
                 s' = set_short_entry_price e2
                        (set_long_entry_price e1
                           (set_short_position q2
                              (set_long_position q1 (set_balance b s))))) ->
             exists (pnl0 : Q) (s0 : Exchange),
               @Ok (Q * Exchange) (pnl, s') = Ok (pnl0, s0)
               /\ book_ok s0 /\ same_config s s0 /\ same_books s s0
               /\ total_fees_paid s0 = total_fees_paid s
               /\ current_cycle_fees s0 = current_cycle_fees s
               /\ last_payout_date s0 = last_payout_date s).
  { intros pnl s' Hbook (b & q1 & q2 & e1 & e2 & ->).
    exists pnl. eexists. split; [reflexivity|]. split; [exact Hbook|].
    unfold same_config, same_books. attrs.
    repeat split; reflexivity. }
  destruct (side_eqb_cases side) as [->|[->|[->|[->|(H1 & H2 & H3 & H4)]]]].
  - (* buy_long *)
    unfold apply_side. cbn [String.eqb Ascii.eqb Bool.eqb andb].
    destruct (side_ok_open _ _ amount price Hlong Ha Hp) as [Hflat Hheld].
    destruct (Decimal.eqb (long_position s) 0) eqn:Hz.
    + attrs. apply Hfin.
      * split; attrs; [exact (Hflat eq_refl) | exact Hshort].
      * exists (balance s), (long_position s + amount), (short_position s),
          price, (short_entry_price s). destruct s; reflexivity.
    + destruct (Hheld eq_refl) as [Hne Hok]. attrs.
      rewrite (decimal_div_ok _ _ Hne). attrs. apply Hfin.
      * split; attrs; [exact Hok | exact Hshort].
      * exists (balance s), (long_position s + amount + amount),
          (short_position s),
          ((long_position s * long_entry_price s + amount * price)
           / (long_position s + amount)),
          (short_entry_price s).
        destruct s; reflexivity.
  - (* sell_short *)
    unfold apply_side. cbn [String.eqb Ascii.eqb Bool.eqb andb].
    destruct (side_ok_open _ _ amount price Hshort Ha Hp) as [Hflat Hheld].
    destruct (Decimal.eqb (short_position s) 0) eqn:Hz.
    + attrs. apply Hfin.
      * split; attrs; [exact Hlong | exact (Hflat eq_refl)].
      * exists (balance s), (long_position s), (short_position s + amount),
          (long_entry_price s), price. destruct s; reflexivity.
    + destruct (Hheld eq_refl) as [Hne Hok]. attrs.
      rewrite (decimal_div_ok _ _ Hne). attrs. apply Hfin.
      * split; attrs; [exact Hlong | exact Hok].
      * exists (balance s), (long_position s),
          (short_position s + amount + amount), (long_entry_price s),
          ((short_position s * short_entry_price s + amount * price)
           / (short_position s + amount)).
        destruct s; reflexivity.
  - (* sell_long *)
    unfold apply_side. cbn [String.eqb Ascii.eqb Bool.eqb andb].
    destruct (Decimal.gtb (long_position s) 0) eqn:Hgt.
    + apply decimal_gtb_iff in Hgt.
      pose proof (side_ok_close _ _ amount Hlong Ha Hgt) as Hok.
      cbv zeta in Hok. attrs.
      set (trade_amount := Decimal.min amount (long_position s)) in *.
      destruct (Decimal.eqb (long_position s - trade_amount) 0);
        apply Hfin; try (split; attrs; [exact Hok | exact Hshort]).
      * exists (balance s + trade_amount * (price - long_entry_price s)),
          (long_position s - trade_amount), (short_position s), 0,
          (short_entry_price s).
        destruct s; reflexivity.
      * exists (balance s + trade_amount * (price - long_entry_price s)),
          (long_position s - trade_amount), (short_position s),
          (long_entry_price s), (short_entry_price s).
        destruct s; reflexivity.
    + apply Hfin; [split; assumption|].
      exists (balance s), (long_position s), (short_position s),
        (long_entry_price s), (short_entry_price s).
      destruct s; reflexivity.
  - (* buy_short *)
    unfold apply_side. cbn [String.eqb Ascii.eqb Bool.eqb andb].
    destruct (Decimal.gtb (short_position s) 0) eqn:Hgt.
    + apply decimal_gtb_iff in Hgt.
      pose proof (side_ok_close _ _ amount Hshort Ha Hgt) as Hok.
      cbv zeta in Hok. attrs.
      set (trade_amount := Decimal.min amount (short_position s)) in *.
      destruct (Decimal.eqb (short_position s - trade_amount) 0);
        apply Hfin; try (split; attrs; [exact Hlong | exact Hok]).
      * exists (balance s + trade_amount * (short_entry_price s - price)),
          (long_position s), (short_position s - trade_amount),
          (long_entry_price s), 0.
        destruct s; reflexivity.
      * exists (balance s + trade_amount * (short_entry_price s - price)),
          (long_position s), (short_position s - trade_amount),
          (long_entry_price s), (short_entry_price s).
        destruct s; reflexivity.
    + apply Hfin; [split; assumption|].
      exists (balance s), (long_position s), (short_position s),
        (long_entry_price s), (short_entry_price s).
      destruct s; reflexivity.
  - unfold apply_side. rewrite H1, H2, H3, H4. cbn [andb].
    apply Hfin; [split; assumption|].
    exists (balance s), (long_position s), (short_position s),
      (long_entry_price s), (short_entry_price s).
    destruct s; reflexivity.
Qed.

(** One fill keeps the book well formed, whatever the side string. *)
Lemma execute_fast_trade_book
      (s : Exchange) (side : string) (amount price : Q) (timestamp : Z) :
  book_ok s -> payout_day_ok s -> 0 < amount -> 0 < price ->
  exists s',
    execute_fast_trade s side amount price timestamp = Ok s'
    /\ book_ok s' /\ same_config s s'
    /\ active_buy_orders s' = active_buy_orders s
    /\ active_sell_orders s' = active_sell_orders s
    /\ liquidation_events s' = liquidation_events s.
Proof.
  intros Hbook Hday Ha Hp.
  unfold execute_fast_trade.
  set (fee := amount * price * maker_fee s).
  set (s1 := set_total_fees_paid _ (set_balance _ s)).
  destruct (accumulate_fee_frame s1 fee timestamp) as (b & f & d & Heq & _).
  { unfold payout_day_ok, s1. attrs. exact Hday. }
  rewrite Heq. cbn [bind].
  set (s2 := set_last_payout_date d _).
  assert (Hcfg12 : same_config s s2)
    by (unfold same_config, s2, s1; attrs; repeat split; reflexivity).
  assert (Hbooks12 : same_books s s2)
    by (unfold same_books, s2, s1; attrs; repeat split; reflexivity).
  destruct (apply_side_book s2 side amount price)
    as (pnl & s3 & Hside & Hbook3 & Hcfg23 & Hbooks23 & _); [|exact Ha|exact Hp|].
  { unfold book_ok, s2, s1. attrs. exact Hbook. }
  rewrite Hside. cbn [bind fst snd].
  eexists. split; [reflexivity|].
  destruct Hbooks12 as (A1 & A2 & A3 & _).
  destruct Hbooks23 as (B1 & B2 & B3 & _).
  split; [unfold book_ok, update_current_leverage; attrs; exact Hbook3|].
  split.
  { apply (same_config_trans s s3); [apply (same_config_trans s s2); assumption|].
    unfold same_config, update_current_leverage. attrs.
    repeat split; reflexivity. }
  unfold update_current_leverage. attrs.
  split; [congruence|]. split; congruence.
Qed.

Lemma orders_ok_filter (f : Order -> bool) (l : list Order) :
  orders_ok l -> orders_ok (filter f l).
Proof.
  unfold orders_ok. intros H.
  apply incl_Forall with (l1 := l); [|exact H].
  intros x Hx. apply filter_In in Hx. tauto.
Qed.

(** A batch of matched orders with positive quantities and prices. *)
Lemma execute_filled_book (filled : list Order) :
  forall (s : Exchange) (timestamp count : Z),
    book_ok s -> payout_day_ok s -> orders_ok filled ->
    exists s',
      execute_filled s filled timestamp count
      = Ok ((count + len filled)%Z, s')
      /\ book_ok s' /\ same_config s s'
      /\ active_buy_orders s' = active_buy_orders s
      /\ active_sell_orders s' = active_sell_orders s
      /\ liquidation_events s' = liquidation_events s.
Proof.
  induction filled as [|o rest IH]; intros s timestamp count Hbook Hday Hok.
  - exists s. cbn [execute_filled]. unfold len. cbn [List.length Z.of_nat].
    rewrite Z.add_0_r. split; [reflexivity|]. split; [exact Hbook|].
    split; [apply same_config_refl|]. repeat split; reflexivity.
  - inversion Hok as [|? ? [Ho1 Ho2] Hrest]; subst.
    destruct (execute_fast_trade_book s (order_side o) (order_amount o)
                (order_price o) timestamp Hbook Hday Ho1 Ho2)
      as (s1 & Hex & Hbook1 & Hcfg1 & Hb1 & Hs1 & Hl1).
    destruct (IH s1 timestamp (count + 1)%Z Hbook1
                 (payout_day_ok_same_config _ _ Hcfg1 Hday) Hrest)
      as (s' & Hex' & Hbook' & Hcfg' & Hb' & Hs' & Hl').
    exists s'. cbn [execute_filled]. rewrite Hex. cbn [bind]. rewrite Hex'.
    split.
    { do 2 f_equal. unfold len. cbn [List.length].
      rewrite Nat2Z.inj_succ. lia. }
    split; [exact Hbook'|].
    split; [apply (same_config_trans s s1); assumption|].
    split; [congruence|]. split; congruence.
Qed.

(** A matching pass on a well-formed exchange: it returns, the exchange
    stays well formed, and the resting lists are the unmatched orders. *)
Lemma fast_order_matching_book
      (s : Exchange) (high low : Q) (timestamp : Z) :
  exchange_ok s ->
  exists filled_count s',
    fast_order_matching s high low timestamp = Ok (filled_count, s')
    /\ exchange_ok s' /\ same_config s s'
    /\ liquidation_events s' = liquidation_events s
    /\ active_buy_orders s'
       = filter (fun o => Decimal.gtb low (order_price o))
                (active_buy_orders s)
    /\ active_sell_orders s'
       = filter (fun o => Decimal.ltb high (order_price o))
                (active_sell_orders s)
    /\ filled_count
       = (len (filter (fun o => Decimal.leb low (order_price o))
                      (active_buy_orders s))
          + len (filter (fun o => Decimal.geb high (order_price o))
                        (active_sell_orders s)))%Z.
Proof.
  intros (Hbook & Hday & Hbuys & Hsells).
  unfold fast_order_matching.
  (* buy side *)
  assert (Hstep1 :
    exists n1 s1,
      match active_buy_orders s with
      | [] => Ok (0%Z, s)
      | _ :: _ =>
          r <- execute_filled s
                 (filter (fun o => Decimal.leb low (order_price o))
                         (active_buy_orders s)) timestamp 0 ;;
          Ok (fst r,
              set_active_buy_orders
                (filter (fun o => Decimal.gtb low (order_price o))
                        (active_buy_orders s)) (snd r))
      end = Ok (n1, s1)
      /\ n1 = len (filter (fun o => Decimal.leb low (order_price o))
                          (active_buy_orders s))
      /\ book_ok s1 /\ same_config s s1
      /\ liquidation_events s1 = liquidation_events s
      /\ active_buy_orders s1
         = filter (fun o => Decimal.gtb low (order_price o))
                  (active_buy_orders s)
      /\ active_sell_orders s1 = active_sell_orders s).
  { destruct (active_buy_orders s) as [|o0 rest] eqn:Hb.
    - exists 0%Z, s. split; [reflexivity|]. split; [reflexivity|].
      split; [exact Hbook|].
      split; [apply same_config_refl|]. rewrite Hb.
      repeat split; reflexivity.
    - destruct (execute_filled_book
                  (filter (fun o => Decimal.leb low (order_price o))
                          (o0 :: rest)) s timestamp 0 Hbook Hday)
        as (s1 & Hex & Hbook1 & Hcfg1 & Hb1 & Hs1 & Hl1).
      { apply orders_ok_filter. exact Hbuys. }
      rewrite Hex. cbn [bind fst snd].
      eexists _, _. split; [reflexivity|].
      unfold book_ok, same_config in *. attrs.
      split; [reflexivity|].
      split; [exact Hbook1|]. split; [exact Hcfg1|].
      split; [exact Hl1|]. split; [reflexivity | exact Hs1]. }
  destruct Hstep1
    as (n1 & s1 & Hstep1 & Hn1 & Hbook1 & Hcfg1 & Hl1 & Hb1 & Hs1).
  rewrite Hstep1. cbn [bind fst snd].
  pose proof (payout_day_ok_same_config _ _ Hcfg1 Hday) as Hday1.
  destruct (active_sell_orders s1) as [|o0 rest] eqn:Hsl.
  - exists n1, s1. split; [reflexivity|].
    split.
    { split; [exact Hbook1|]. split; [exact Hday1|].
      split; [rewrite Hb1; apply orders_ok_filter; exact Hbuys|].
      rewrite Hsl. constructor. }
    split; [exact Hcfg1|]. split; [exact Hl1|]. split; [exact Hb1|].
    split; [rewrite Hsl, <- Hs1; reflexivity|].
    rewrite <- Hs1. cbn [filter]. unfold len at 2. cbn [List.length Z.of_nat].
    rewrite Z.add_0_r. exact Hn1.
  - destruct (execute_filled_book
                (filter (fun o => Decimal.geb high (order_price o))
                        (o0 :: rest)) s1 timestamp n1 Hbook1 Hday1)
      as (s2 & Hex & Hbook2 & Hcfg2 & Hb2 & Hs2 & Hl2).
    { apply orders_ok_filter. rewrite Hs1. exact Hsells. }
    rewrite Hex. cbn [bind fst snd].
    eexists _, _. split; [reflexivity|].
    pose proof (payout_day_ok_same_config _ _ Hcfg2 Hday1) as Hday2.
    assert (Hcfg : same_config s s2)
      by (apply (same_config_trans s s1); assumption).
    unfold exchange_ok, book_ok, payout_day_ok, same_config in *. attrs.
    split.
    { split; [exact Hbook2|]. split; [exact Hday2|].
      split; [rewrite Hb2, Hb1; apply orders_ok_filter; exact Hbuys|].
      apply orders_ok_filter. rewrite Hs1. exact Hsells. }
    split; [exact Hcfg|].
    split; [congruence|].
    split; [rewrite Hb2, Hb1; reflexivity|].
    split; [rewrite Hs1; reflexivity|].
    rewrite <- Hs1, Hn1. reflexivity.
Qed.

(** ** Forced and voluntary closing *)

Lemma positive_of_nonzero (q : Q) : 0 <= q -> ~ q == 0 -> 0 < q.
Proof. intros H0 Hne. lra. Qed.

(** Closing the long side on a well-formed book. *)
Lemma close_long_at_book (s : Exchange) (price rate : Q) (timestamp : Z) :
  book_ok s -> payout_day_ok s ->
  exists s',
    close_long_at s price rate timestamp = Ok s'
    /\ book_ok s' /\ long_position s' == 0
    /\ short_position s' = short_position s
    /\ short_entry_price s' = short_entry_price s
    /\ same_config s s' /\ same_books s s'
    /\ (use_fee_rebate s = false ->
        balance s'
        == balance s + long_position s * (price - long_entry_price s)
           - long_position s * price * rate).
Proof.
  intros [Hlong Hshort] Hday. unfold close_long_at.
  destruct (Decimal.gtb (long_position s) 0) eqn:Hgl.
  - match goal with
    | |- context [accumulate_fee ?st ?fee ?ts] =>
        destruct (accumulate_fee_frame st fee ts)
          as (b & f & d & Hacc & _ & Hoff); [exact Hday | rewrite Hacc]
    end.
    eexists. split; [reflexivity|].
    unfold book_ok, same_config, same_books. attrs.
    split; [split; [apply side_ok_flat | exact Hshort]|].
    split; [reflexivity|]. split; [reflexivity|]. split; [reflexivity|].
    split; [repeat split; reflexivity|].
    split; [repeat split; reflexivity|].
    intros Hu. rewrite (Hoff Hu). attrs. ring.
  - exists s. split; [reflexivity|].
    destruct Hlong as (H0 & Hz & Hp).
    pose proof (not_gtb_zero_of_nonneg _ H0 Hgl) as Hl0.
    split; [split; [repeat split; assumption | exact Hshort]|].
    split; [exact Hl0|]. split; [reflexivity|]. split; [reflexivity|].
    split; [apply same_config_refl|].
    split; [unfold same_books; repeat split; reflexivity|].
    intros _. rewrite Hl0. ring.
Qed.

Lemma close_short_at_book (s : Exchange) (price rate : Q) (timestamp : Z) :
  book_ok s -> payout_day_ok s ->
  exists s',
    close_short_at s price rate timestamp = Ok s'
    /\ book_ok s' /\ short_position s' == 0
    /\ long_position s' = long_position s
    /\ long_entry_price s' = long_entry_price s
    /\ same_config s s' /\ same_books s s'
    /\ (use_fee_rebate s = false ->
        balance s'
        == balance s + short_position s * (short_entry_price s - price)
           - short_position s * price * rate).
Proof.
  intros [Hlong Hshort] Hday. unfold close_short_at.
  destruct (Decimal.gtb (short_position s) 0) eqn:Hgs.
  - match goal with
    | |- context [accumulate_fee ?st ?fee ?ts] =>
        destruct (accumulate_fee_frame st fee ts)
          as (b & f & d & Hacc & _ & Hoff); [exact Hday | rewrite Hacc]
    end.
    eexists. split; [reflexivity|].
    unfold book_ok, same_config, same_books. attrs.
    split; [split; [exact Hlong | apply side_ok_flat]|].
    split; [reflexivity|]. split; [reflexivity|]. split; [reflexivity|].
    split; [repeat split; reflexivity|].
    split; [repeat split; reflexivity|].
    intros Hu. rewrite (Hoff Hu). attrs. ring.
  - exists s. split; [reflexivity|].
    destruct Hshort as (H0 & Hz & Hp).
    pose proof (not_gtb_zero_of_nonneg _ H0 Hgs) as Hs0.
    split; [split; [exact Hlong | repeat split; assumption]|].
    split; [exact Hs0|]. split; [reflexivity|]. split; [reflexivity|].
    split; [apply same_config_refl|].
    split; [unfold same_books; repeat split; reflexivity|].
    intros _. rewrite Hs0. ring.
Qed.

Lemma same_books_trans (s1 s2 s3 : Exchange) :
  same_books s1 s2 -> same_books s2 s3 -> same_books s1 s3.
Proof.
  unfold same_books.
  intros (A1 & A2 & A3 & A4 & A5 & A6) (B1 & B2 & B3 & B4 & B5 & B6).
  repeat (split; [congruence|]). congruence.
Qed.

Lemma equity_of_flat (s : Exchange) :
  long_position s == 0 -> short_position s == 0 ->
  get_equity s == balance s.
Proof.
  intros Hl Hs. rewrite equity_formula by (split; lra).
  rewrite Hl, Hs. ring.
Qed.

(** X4.  [close_all_positions_market] on a well-formed book returns and
    leaves both sides flat and the book well formed; it records no trade
    and no liquidation event and leaves the resting orders alone; with fee
    rebate off the balance afterwards is the equity before minus the taker
    fee on the gross mark-price notional, and equals the equity afterwards;
    a second call changes nothing. *)
Theorem close_all_positions_flattens :
  forall (s : Exchange) (timestamp : Z),
    book_ok s -> payout_day_ok s ->
    exists s',
      close_all_positions_market s timestamp = Ok s'
      /\ long_position s' == 0 /\ short_position s' == 0
      /\ book_ok s'
      /\ same_books s s' /\ same_config s s'
      /\ (use_fee_rebate s = false ->
          balance s'
          == get_equity s
             - (long_position s + short_position s)
               * current_price s * taker_fee s
          /\ get_equity s' == balance s')
      /\ (forall timestamp' : Z,
             close_all_positions_market s' timestamp' = Ok s').
Proof.
  intros s timestamp Hbook Hday.
  pose proof (equity_formula s (book_ok_positions_nonneg s Hbook)) as Heq.
  unfold close_all_positions_market.
  destruct (Decimal.eqb (long_position s) 0 && Decimal.eqb (short_position s) 0)
    eqn:Hflat.
  - exists s. split; [reflexivity|].
    apply andb_true_iff in Hflat. destruct Hflat as [Hzl Hzs].
    pose proof (proj1 (decimal_eqb_iff _ _) Hzl) as Hl0.
    pose proof (proj1 (decimal_eqb_iff _ _) Hzs) as Hs0.
    split; [exact Hl0|]. split; [exact Hs0|]. split; [exact Hbook|].
    split; [unfold same_books; repeat split; reflexivity|].
    split; [apply same_config_refl|].
    split.
    { intros _. split; [|apply equity_of_flat; assumption].
      rewrite Heq, Hl0, Hs0. ring. }
    intros timestamp'. rewrite Hzl, Hzs. reflexivity.
  - cbv zeta.
    destruct (close_long_at_book s (current_price s) (taker_fee s) timestamp
                                 Hbook Hday)
      as (s1 & Hlong & Hbook1 & Hl1 & Hsp1 & Hse1 & Hcfg1 & Hbooks1 & Hbal1).
    pose proof (payout_day_ok_same_config _ _ Hcfg1 Hday) as Hday1.
    destruct (close_short_at_book s1 (current_price s) (taker_fee s) timestamp
                                  Hbook1 Hday1)
      as (s2 & Hshort & Hbook2 & Hs2 & Hlp2 & Hle2 & Hcfg2 & Hbooks2 & Hbal2).
    rewrite Hlong. cbn [bind]. rewrite Hshort.
    exists s2. split; [reflexivity|].
    assert (Hl2 : long_position s2 == 0) by (rewrite Hlp2; exact Hl1).
    split; [exact Hl2|]. split; [exact Hs2|]. split; [exact Hbook2|].
    split; [apply (same_books_trans s s1); assumption|].
    split; [apply (same_config_trans s s1); assumption|].
    split.
    { intros Hu. split; [|apply equity_of_flat; assumption].
      assert (Hu1 : use_fee_rebate s1 = false).
      { destruct Hcfg1 as (_ & _ & _ & _ & _ & H & _). congruence. }
      rewrite (Hbal2 Hu1), (Hbal1 Hu), Hsp1, Hse1, Heq. ring. }
    intros timestamp'.
    apply decimal_eqb_iff in Hl2. apply decimal_eqb_iff in Hs2.
    rewrite Hl2, Hs2. reflexivity.
Qed.

(** X4 at a concrete input: one long unit entered at 3000, marked at
    2900, balance 700: the balance becomes 600 - 1.45. *)
Lemma close_all_positions_flattens_at_2900 :
  book_ok (long_one_at_3000 2900)
  /\ payout_day_ok (long_one_at_3000 2900)
  /\ exists s',
      close_all_positions_market (long_one_at_3000 2900) 1704067260 = Ok s'
      /\ long_position s' == 0
      /\ balance s' == 598.55
      /\ trade_history s' = trade_history (long_one_at_3000 2900).
Proof.
  assert (Hbook : book_ok (long_one_at_3000 2900))
    by (split; [apply side_ok_held; reflexivity | apply side_ok_flat]).
  assert (Hday : payout_day_ok (long_one_at_3000 2900))
    by (intros H; vm_compute in H; discriminate H).
  split; [exact Hbook|]. split; [exact Hday|].
  destruct (close_all_positions_flattens (long_one_at_3000 2900) 1704067260
                                         Hbook Hday)
    as (s' & Hex & Hl & _ & _ & Hbooks & _ & Hbal & _).
  exists s'. split; [exact Hex|]. split; [exact Hl|].
  split.
  - destruct (Hbal eq_refl) as [Hb _]. rewrite Hb. vm_compute. reflexivity.
  - destruct Hbooks as (_ & _ & _ & Hh & _). exact Hh.
Defined.

(** The liquidation check on a well-formed exchange. *)
Lemma liquidation_book (s : Exchange) (timestamp : Z) :
  exchange_ok s ->
  exists (b : bool) (s' : Exchange),
    check_and_handle_liquidation s timestamp = Ok (b, s')
    /\ exchange_ok s' /\ same_config s s'
    /\ (b = true ->
        long_position s' == 0 /\ short_position s' == 0
        /\ balance s' = 0
        /\ active_buy_orders s' = [] /\ active_sell_orders s' = [])
    /\ (b = false -> s' = s).
Proof.
  intros (Hbook & Hday & Hbuys & Hsells).
  assert (Hsame : exists (b : bool) (s' : Exchange),
             @Ok (bool * Exchange) (false, s) = Ok (b, s')
             /\ exchange_ok s' /\ same_config s s'
             /\ (b = true ->
                 long_position s' == 0 /\ short_position s' == 0
                 /\ balance s' = 0
                 /\ active_buy_orders s' = [] /\ active_sell_orders s' = [])
             /\ (b = false -> s' = s)).
  { exists false, s. split; [reflexivity|].
    split; [exact (conj Hbook (conj Hday (conj Hbuys Hsells)))|].
    split; [apply same_config_refl|].
    split; [discriminate | reflexivity]. }
  unfold check_and_handle_liquidation.
  destruct (Decimal.eqb (long_position s) 0 && Decimal.eqb (short_position s) 0);
    [exact Hsame|].
  destruct (Decimal.leb (get_equity s) (get_maintenance_margin s)
            && Decimal.gtb (get_equity s) 0); [|exact Hsame].
  clear Hsame. cbv zeta.
  set (event := mk_liquidation timestamp (get_equity s) (current_price s)).
  set (sa := set_active_sell_orders []
               (set_active_buy_orders []
                  (set_liquidation_events (liquidation_events s ++ [event]) s))).
  change (taker_fee sa) with (taker_fee s).
  assert (Hcfga : same_config s sa)
    by (unfold same_config, sa; attrs; repeat split; reflexivity).
  assert (Hbooka : book_ok sa) by exact Hbook.
  assert (Hdaya : payout_day_ok sa) by exact Hday.
  destruct (close_long_at_book sa (current_price s) (taker_fee s) timestamp
                               Hbooka Hdaya)
    as (sb & Hlong & Hbookb & Hlb & Hspb & Hseb & Hcfgb & Hbooksb & _).
  pose proof (payout_day_ok_same_config _ _ Hcfgb Hdaya) as Hdayb.
  destruct (close_short_at_book sb (current_price s) (taker_fee s) timestamp
                                Hbookb Hdayb)
    as (sc & Hshort & Hbookc & Hsc & Hlpc & Hlec & Hcfgc & Hbooksc & _).
  rewrite Hlong. cbn [bind]. rewrite Hshort. cbn [bind].
  exists true, (set_balance 0 sc). split; [reflexivity|].
  destruct Hbooksb as (Bb1 & Bb2 & _).
  destruct Hbooksc as (Bc1 & Bc2 & _).
  assert (Hbuy : active_buy_orders sc = []) by (rewrite Bc1, Bb1; reflexivity).
  assert (Hsell : active_sell_orders sc = [])
    by (rewrite Bc2, Bb2; reflexivity).
  assert (Hcfg : same_config s sc).
  { apply (same_config_trans s sb); [|exact Hcfgc].
    apply (same_config_trans s sa); assumption. }
  split.
  { unfold exchange_ok, book_ok, payout_day_ok, orders_ok. attrs.
    split; [exact Hbookc|].
    split; [exact (payout_day_ok_same_config _ _ Hcfgc Hdayb)|].
    rewrite Hbuy, Hsell. split; constructor. }
  split.
  { unfold same_config in *. attrs. exact Hcfg. }
  split; [|discriminate].
  intros _. attrs.
  split; [rewrite Hlpc; exact Hlb|]. split; [exact Hsc|].
  split; [reflexivity|]. split; assumption.
Qed.

Lemma margin_ratio_of_flat (s : Exchange) :
  long_position s == 0 -> short_position s == 0 -> get_margin_ratio s = 999.
Proof.
  intros Hl Hs. unfold get_margin_ratio.
  assert (H : Decimal.eqb (get_position_value s) 0 = true).
  { apply decimal_eqb_iff. unfold get_position_value. rewrite Hl, Hs. ring. }
  rewrite H. reflexivity.
Qed.

(** X5.  On a well-formed exchange (quantities not negative, entry price 0
    exactly when nothing is held, resting orders with positive quantity and
    price, a payout day every month has) no trading method raises and each
    leaves the exchange well formed: a fill of positive quantity and price
    whatever its side string, a matching pass, the liquidation check and
    the voluntary flatten. *)
Theorem trading_keeps_exchange_well_formed :
  forall s : Exchange,
    exchange_ok s ->
    (forall (side : string) (amount price : Q) (timestamp : Z),
        0 < amount -> 0 < price ->
        exists s',
          execute_fast_trade s side amount price timestamp = Ok s'
          /\ exchange_ok s')
    /\ (forall (high low : Q) (timestamp : Z),
           exists filled_count s',
             fast_order_matching s high low timestamp = Ok (filled_count, s')
             /\ exchange_ok s')
    /\ (forall timestamp : Z,
           exists b s',
             check_and_handle_liquidation s timestamp = Ok (b, s')
             /\ exchange_ok s')
    /\ (forall timestamp : Z,
           exists s',
             close_all_positions_market s timestamp = Ok s'
             /\ exchange_ok s').
Proof.
  intros s Hok. pose proof Hok as (Hbook & Hday & Hbuys & Hsells).
  split; [|split; [|split]].
  - intros side amount price timestamp Ha Hp.
    destruct (execute_fast_trade_book s side amount price timestamp
                                      Hbook Hday Ha Hp)
      as (s' & Hex & Hbook' & Hcfg & Hb & Hs & _).
    exists s'. split; [exact Hex|].
    split; [exact Hbook'|].
    split; [exact (payout_day_ok_same_config _ _ Hcfg Hday)|].
    rewrite Hb, Hs. split; assumption.
  - intros high low timestamp.
    destruct (fast_order_matching_book s high low timestamp Hok)
      as (n & s' & Hex & Hok' & _).
    exists n, s'. split; assumption.
  - intros timestamp.
    destruct (liquidation_book s timestamp Hok) as (b & s' & Hex & Hok' & _).
    exists b, s'. split; assumption.
  - intros timestamp. unfold close_all_positions_market.
    destruct (Decimal.eqb (long_position s) 0
              && Decimal.eqb (short_position s) 0).
    + exists s. split; [reflexivity | exact Hok].
    + cbv zeta.
      destruct (close_long_at_book s (current_price s) (taker_fee s) timestamp
                                   Hbook Hday)
        as (s1 & Hlong & Hbook1 & _ & _ & _ & Hcfg1 & Hbooks1 & _).
      pose proof (payout_day_ok_same_config _ _ Hcfg1 Hday) as Hday1.
      destruct (close_short_at_book s1 (current_price s) (taker_fee s)
                                    timestamp Hbook1 Hday1)
        as (s2 & Hshort & Hbook2 & _ & _ & _ & Hcfg2 & Hbooks2 & _).
      rewrite Hlong. cbn [bind]. rewrite Hshort.
      exists s2. split; [reflexivity|].
      destruct Hbooks1 as (A1 & A2 & _). destruct Hbooks2 as (B1 & B2 & _).
      split; [exact Hbook2|].
      split; [exact (payout_day_ok_same_config _ _ Hcfg2 Hday1)|].
      rewrite B1, A1, B2, A2. split; assumption.
Qed.

(** X6.  No trading method assigns [margin_balance] (nor the configured
    leverage, the mark price, the fee rates, the rebate configuration, the
    equity samples): after a fill, a matching pass, the liquidation check
    or [place_orders_batch] they are what they were.  [get_margin_ratio]
    therefore always works from the initial margin balance, whatever
    happened to the balance: on any exchange [s'] reached this way it is
    (margin_balance of [s] + unrealized PnL of [s']) / gross notional of
    [s'] when that notional is not 0, and its sentinel 999 when it is 0,
    as it is once a liquidation has flattened the book. *)
Theorem margin_balance_never_assigned :
  forall s : Exchange,
    exchange_ok s ->
    (forall (side : string) (amount price : Q) (timestamp : Z) s',
        0 < amount -> 0 < price ->
        execute_fast_trade s side amount price timestamp = Ok s' ->
        same_config s s')
    /\ (forall (high low : Q) (timestamp : Z) n s',
           fast_order_matching s high low timestamp = Ok (n, s') ->
           same_config s s')
    /\ (forall (timestamp : Z) b s',
           check_and_handle_liquidation s timestamp = Ok (b, s') ->
           same_config s s' /\ (b = true -> get_margin_ratio s' = 999))
    /\ (forall orders : list Quote,
           same_config s (place_orders_batch s orders))
    /\ (forall s' : Exchange,
           same_config s s' ->
           (~ get_position_value s' == 0 ->
            get_margin_ratio s'
            == (margin_balance s + get_unrealized_pnl s')
               / get_position_value s')
           /\ (get_position_value s' == 0 -> get_margin_ratio s' = 999)).
Proof.
  intros s Hok. pose proof Hok as (Hbook & Hday & Hbuys & Hsells).
  split; [|split; [|split; [|split]]].
  - intros side amount price timestamp s' Ha Hp Hex.
    destruct (execute_fast_trade_book s side amount price timestamp
                                      Hbook Hday Ha Hp)
      as (s0 & Hex0 & _ & Hcfg & _).
    rewrite Hex in Hex0. inversion Hex0; subst. exact Hcfg.
  - intros high low timestamp n s' Hex.
    destruct (fast_order_matching_book s high low timestamp Hok)
      as (n0 & s0 & Hex0 & _ & Hcfg & _).
    rewrite Hex in Hex0. inversion Hex0; subst. exact Hcfg.
  - intros timestamp b s' Hex.
    destruct (liquidation_book s timestamp Hok)
      as (b0 & s0 & Hex0 & _ & Hcfg & Htrue & _).
    rewrite Hex in Hex0. inversion Hex0; subst.
    split; [exact Hcfg|].
    intros Hb. destruct (Htrue Hb) as (Hl & Hs & _).
    apply margin_ratio_of_flat; assumption.
  - intros orders. unfold same_config, place_orders_batch. attrs.
    repeat split; reflexivity.
  - intros s' (Hmb & _). unfold get_margin_ratio. split.
    + intros Hne. apply decimal_eqb_false_iff in Hne. rewrite Hne, Hmb.
      reflexivity.
    + intros Hz. apply decimal_eqb_iff in Hz. rewrite Hz. reflexivity.
Qed.

(** The voluntary flatten on a well-formed book. *)
Lemma close_all_positions_flattens_books (s : Exchange) (timestamp : Z) :
  book_ok s -> payout_day_ok s ->
  exists s',
    close_all_positions_market s timestamp = Ok s'
    /\ long_position s' == 0 /\ short_position s' == 0
    /\ book_ok s'
    /\ active_buy_orders s' = active_buy_orders s
    /\ active_sell_orders s' = active_sell_orders s
    /\ same_config s s'.
Proof.
  intros Hbook Hday. unfold close_all_positions_market.
  destruct (Decimal.eqb (long_position s) 0 && Decimal.eqb (short_position s) 0)
    eqn:Hflat.
  - exists s. split; [reflexivity|].
    apply andb_true_iff in Hflat. destruct Hflat as [Hzl Hzs].
    split; [apply decimal_eqb_iff; exact Hzl|].
    split; [apply decimal_eqb_iff; exact Hzs|].
    split; [exact Hbook|]. split; [reflexivity|].
    split; [reflexivity | apply same_config_refl].
  - cbv zeta.
    destruct (close_long_at_book s (current_price s) (taker_fee s) timestamp
                                 Hbook Hday)
      as (s1 & Hlong & Hbook1 & Hl1 & _ & _ & Hcfg1 & Hbooks1 & _).
    pose proof (payout_day_ok_same_config _ _ Hcfg1 Hday) as Hday1.
    destruct (close_short_at_book s1 (current_price s) (taker_fee s) timestamp
                                  Hbook1 Hday1)
      as (s2 & Hshort & Hbook2 & Hs2 & Hlp2 & _ & Hcfg2 & Hbooks2 & _).
    rewrite Hlong. cbn [bind]. rewrite Hshort.
    exists s2. split; [reflexivity|].
    split; [rewrite Hlp2; exact Hl1|]. split; [exact Hs2|].
    split; [exact Hbook2|].
    destruct Hbooks1 as (A1 & A2 & _). destruct Hbooks2 as (B1 & B2 & _).
    split; [congruence|]. split; [congruence|].
    apply (same_config_trans s s1); assumption.
Qed.

(** X7.  Round trip, fee rebate off: opening q > 0 at p1 on a flat side and
    closing the same q at p2 returns the side to quantity 0 and entry price
    0, and the balance has moved by the realized PnL q * (p2 - p1) (long;
    q * (p1 - p2) for the short side) minus the two maker fees. *)
Theorem open_then_close_round_trip :
  forall (s : Exchange) (q p1 p2 : Q) (t1 t2 : Z),
    book_ok s -> payout_day_ok s -> use_fee_rebate s = false ->
    0 < q -> 0 < p1 -> 0 < p2 ->
    (long_position s == 0 ->
     exists s1 s2,
       execute_fast_trade s "buy_long" q p1 t1 = Ok s1
       /\ execute_fast_trade s1 "sell_long" q p2 t2 = Ok s2
       /\ long_position s2 == 0 /\ long_entry_price s2 == 0
       /\ balance s2
          == balance s - q * p1 * maker_fee s - q * p2 * maker_fee s
             + q * (p2 - p1))
    /\ (short_position s == 0 ->
        exists s1 s2,
          execute_fast_trade s "sell_short" q p1 t1 = Ok s1
          /\ execute_fast_trade s1 "buy_short" q p2 t2 = Ok s2
          /\ short_position s2 == 0 /\ short_entry_price s2 == 0
          /\ balance s2
             == balance s - q * p1 * maker_fee s - q * p2 * maker_fee s
                + q * (p1 - p2)).
Proof.
  intros s q p1 p2 t1 t2 Hbook Hday Hoff Hq Hp1 Hp2.
  assert (Hq0 : 0 <= q) by lra.
  pose proof (book_ok_positions_nonneg s Hbook) as Hpos.
  split; intros Hflat.
  - destruct (execute_fast_trade_frame s "buy_long" q p1 t1 Hpos Hday Hq0)
      as (s1 & Hex1 & Hpos1 & Hday1 & _ & _ & _ & _ & _ & Hbal1 & _ & _
          & Hbl1 & _).
    destruct (execute_fast_trade_book s "buy_long" q p1 t1 Hbook Hday Hq Hp1)
      as (s1' & Hex1' & Hbook1 & Hcfg1 & _).
    rewrite Hex1 in Hex1'. inversion Hex1'; subst s1'. clear Hex1'.
    destruct (execute_fast_trade_frame s1 "sell_long" q p2 t2 Hpos1 Hday1 Hq0)
      as (s2 & Hex2 & _ & _ & _ & _ & _ & _ & _ & Hbal2 & Hsl2 & _).
    destruct (execute_fast_trade_book s1 "sell_long" q p2 t2
                                      Hbook1 Hday1 Hq Hp2)
      as (s2' & Hex2' & Hbook2 & _).
    rewrite Hex2 in Hex2'. inversion Hex2'; subst s2'. clear Hex2'.
    exists s1, s2. split; [exact Hex1|]. split; [exact Hex2|].
    destruct Hcfg1 as (_ & _ & _ & Hmk & _ & Hu1 & _).
    destruct (Hbl1 eq_refl) as [Hqty1 Hent1].
    apply decimal_eqb_iff in Hflat. rewrite Hflat in Hqty1, Hent1.
    apply decimal_eqb_iff in Hflat.
    assert (Hheld : long_position s1 == q) by (rewrite Hqty1, Hflat; ring).
    assert (Hmin : Decimal.min q (long_position s1) == q).
    { destruct (decimal_min_spec q (long_position s1)) as [[H1 ->]|[H1 ->]];
        lra. }
    assert (Hzero : long_position s2 == 0)
      by (rewrite (Hsl2 eq_refl), Hmin, Hheld; ring).
    split; [exact Hzero|].
    split; [destruct Hbook2 as [(_ & Hz & _) _]; exact (Hz Hzero)|].
    rewrite Hbal2 by congruence. rewrite (Hbal1 Hoff), Hmk.
    unfold realized_pnl. cbn [String.eqb Ascii.eqb Bool.eqb].
    rewrite Hmin, Hent1. ring.
  - destruct (execute_fast_trade_frame s "sell_short" q p1 t1 Hpos Hday Hq0)
      as (s1 & Hex1 & Hpos1 & Hday1 & _ & _ & _ & _ & _ & Hbal1 & _ & _
          & _ & Hss1).
    destruct (execute_fast_trade_book s "sell_short" q p1 t1
                                      Hbook Hday Hq Hp1)
      as (s1' & Hex1' & Hbook1 & Hcfg1 & _).
    rewrite Hex1 in Hex1'. inversion Hex1'; subst s1'. clear Hex1'.
    destruct (execute_fast_trade_frame s1 "buy_short" q p2 t2 Hpos1 Hday1 Hq0)
      as (s2 & Hex2 & _ & _ & _ & _ & _ & _ & _ & Hbal2 & _ & Hbs2 & _).
    destruct (execute_fast_trade_book s1 "buy_short" q p2 t2
                                      Hbook1 Hday1 Hq Hp2)
      as (s2' & Hex2' & Hbook2 & _).
    rewrite Hex2 in Hex2'. inversion Hex2'; subst s2'. clear Hex2'.
    exists s1, s2. split; [exact Hex1|]. split; [exact Hex2|].
    destruct Hcfg1 as (_ & _ & _ & Hmk & _ & Hu1 & _).
    destruct (Hss1 eq_refl) as [Hqty1 Hent1].
    apply decimal_eqb_iff in Hflat. rewrite Hflat in Hqty1, Hent1.
    apply decimal_eqb_iff in Hflat.
    assert (Hheld : short_position s1 == q) by (rewrite Hqty1, Hflat; ring).
    assert (Hmin : Decimal.min q (short_position s1) == q).
    { destruct (decimal_min_spec q (short_position s1)) as [[H1 ->]|[H1 ->]];
        lra. }
    assert (Hzero : short_position s2 == 0)
      by (rewrite (Hbs2 eq_refl), Hmin, Hheld; ring).
    split; [exact Hzero|].
    split; [destruct Hbook2 as [_ (_ & Hz & _)]; exact (Hz Hzero)|].
    rewrite Hbal2 by congruence. rewrite (Hbal1 Hoff), Hmk.
    unfold realized_pnl. cbn [String.eqb Ascii.eqb Bool.eqb].
    rewrite Hmin, Hent1. ring.
Qed.

(** ** Placing orders *)

Lemma insert_stable_perm {A : Type} (ahead : A -> A -> bool) (x : A)
      (l : list A) :
  Permutation (insert_stable ahead x l) (x :: l).
Proof.
  induction l as [|y l IH]; cbn [insert_stable]; [reflexivity|].
  destruct (ahead y x); [|reflexivity].
  rewrite IH. apply perm_swap.
Qed.

Lemma sort_stable_perm {A : Type} (ahead : A -> A -> bool) (l : list A) :
  Permutation (sort_stable ahead l) l.
Proof.
  induction l as [|x l IH]; cbn [sort_stable]; [reflexivity|].
  rewrite insert_stable_perm. constructor. exact IH.
Qed.

Section StableSort.

Variable A : Type.
Variable ahead : A -> A -> bool.
Hypothesis ahead_asym : forall a b, ahead a b = true -> ahead b a = false.
Hypothesis not_ahead_trans :
  forall a b c, ahead b a = false -> ahead c b = false -> ahead c a = false.

(** [a] may stand before [b]: [b] is not strictly ahead of [a]. *)
Let may_precede (a b : A) : Prop := ahead b a = false.

Lemma insert_stable_sorted (x : A) (l : list A) :
  StronglySorted may_precede l ->
  StronglySorted may_precede (insert_stable ahead x l).
Proof.
  induction 1 as [|y l Hl IH Hall]; cbn [insert_stable].
  - repeat constructor.
  - destruct (ahead y x) eqn:Hyx.
    + constructor; [exact IH|].
      apply (Permutation_Forall (Permutation_sym (insert_stable_perm ahead x l))).
      constructor; [apply ahead_asym; exact Hyx | exact Hall].
    + constructor; [constructor; assumption|].
      constructor; [exact Hyx|].
      apply Forall_impl with (P := may_precede y); [|exact Hall].
      intros z Hz. unfold may_precede in *.
      apply (not_ahead_trans x y z); assumption.
Qed.

Lemma sort_stable_sorted (l : list A) :
  StronglySorted may_precede (sort_stable ahead l).
Proof.
  induction l as [|x l IH]; cbn [sort_stable]; [constructor|].
  apply insert_stable_sorted. exact IH.
Qed.

(** Stability: a test that no element strictly ahead of a passing element
    passes selects the same sub-list before and after the sort. *)
Lemma sort_stable_keeps_order (P : A -> bool) (l : list A) :
  (forall x y, P x = true -> ahead y x = true -> P y = false) ->
  filter P (sort_stable ahead l) = filter P l.
Proof.
  intros HP.
  assert (Hins : forall x l0,
             filter P (insert_stable ahead x l0) = filter P (x :: l0)).
  { intros x l0. induction l0 as [|y l0 IH]; [reflexivity|].
    cbn [insert_stable]. destruct (ahead y x) eqn:Hyx; [|reflexivity].
    cbn [filter] in *. rewrite IH.
    destruct (P x) eqn:Hx; [|reflexivity].
    rewrite (HP x y Hx Hyx). reflexivity. }
  induction l as [|x l IH]; [reflexivity|].
  cbn [sort_stable]. rewrite Hins. cbn [filter]. rewrite IH. reflexivity.
Qed.

End StableSort.

Lemma StronglySorted_weaken {A : Type} (R R' : A -> A -> Prop) (l : list A) :
  (forall a b, R a b -> R' a b) ->
  StronglySorted R l -> StronglySorted R' l.
Proof.
  intros Himp. induction 1 as [|x l Hl IH Hall]; constructor.
  - exact IH.
  - apply Forall_impl with (P := R x); [apply Himp | exact Hall].
Qed.

Lemma distribute_orders_spec (orders : list Quote) :
  forall buys sells : list Order,
    distribute_orders orders buys sells
    = (buys ++ filter (fun o => is_buy_side (order_side o))
                      (map order_of_quote orders),
       sells ++ filter (fun o => negb (is_buy_side (order_side o)))
                       (map order_of_quote orders)).
Proof.
  induction orders as [|q rest IH]; intros buys sells.
  - cbn. rewrite !app_nil_r. reflexivity.
  - cbn [distribute_orders map].
    change (mk_order (quote_price q) (quote_amount q) (quote_side q))
      with (order_of_quote q).
    change (String.eqb (quote_side q) "buy_long"
            || String.eqb (quote_side q) "buy_short")
      with (is_buy_side (quote_side q)).
    cbn [filter].
    change (order_side (order_of_quote q)) with (quote_side q).
    destruct (is_buy_side (quote_side q)); rewrite IH; cbn [negb];
      rewrite <- ?app_assoc; reflexivity.
Qed.

Lemma gtb_asym (a b : Q) : Decimal.gtb a b = true -> Decimal.gtb b a = false.
Proof.
  intros H. apply decimal_gtb_iff in H. apply decimal_gtb_false_iff. lra.
Qed.

Lemma ltb_asym (a b : Q) : Decimal.ltb a b = true -> Decimal.ltb b a = false.
Proof.
  intros H. apply decimal_ltb_iff in H.
  rewrite decimal_ltb_negb_geb. apply negb_false_iff.
  apply decimal_geb_iff. lra.
Qed.

Lemma ltb_false_iff (a b : Q) : Decimal.ltb a b = false <-> b <= a.
Proof.
  rewrite decimal_ltb_negb_geb, negb_false_iff. apply decimal_geb_iff.
Qed.

Lemma place_orders_batch_lists (s : Exchange) (orders : list Quote) :
  active_buy_orders (place_orders_batch s orders)
  = sort_stable (fun y x => Decimal.gtb (order_price y) (order_price x))
      (filter (fun o => is_buy_side (order_side o))
              (map order_of_quote orders))
  /\ active_sell_orders (place_orders_batch s orders)
     = sort_stable (fun y x => Decimal.ltb (order_price y) (order_price x))
         (filter (fun o => negb (is_buy_side (order_side o)))
                 (map order_of_quote orders)).
Proof.
  unfold place_orders_batch. attrs.
  rewrite distribute_orders_spec. cbn [fst snd app]. split; reflexivity.
Qed.

(** The two resting lists after [place_orders_batch] are sorted. *)
Lemma place_orders_batch_sorted
      (s : Exchange) (orders : list Quote) :
  StronglySorted (fun a b => order_price b <= order_price a)
                 (active_buy_orders (place_orders_batch s orders))
  /\ StronglySorted (fun a b => order_price a <= order_price b)
                    (active_sell_orders (place_orders_batch s orders)).
Proof.
  destruct (place_orders_batch_lists s orders) as [Hb Hs].
  split.
  - rewrite Hb.
    eapply StronglySorted_weaken; [|apply sort_stable_sorted].
    + intros a b H. cbv beta in H. apply decimal_gtb_false_iff in H. exact H.
    + intros a b. apply gtb_asym.
    + intros a b c H1 H2.
      apply decimal_gtb_false_iff in H1. apply decimal_gtb_false_iff in H2.
      apply decimal_gtb_false_iff. lra.
  - rewrite Hs.
    eapply StronglySorted_weaken; [|apply sort_stable_sorted].
    + intros a b H. cbv beta in H. apply ltb_false_iff in H. exact H.
    + intros a b. apply ltb_asym.
    + intros a b c H1 H2.
      apply ltb_false_iff in H1. apply ltb_false_iff in H2.
      apply ltb_false_iff. lra.
Qed.

(** X8.  [place_orders_batch] discards whatever was resting and assigns
    nothing but the two lists.  The buy list holds exactly the submitted
    orders whose side is 'buy_long' or 'buy_short', in descending price
    order; the sell list holds all the others (any other side string
    included), in ascending price order; orders of equal price keep their
    submission order. *)
Theorem place_orders_batch_replaces_and_sorts :
  forall (s : Exchange) (orders : list Quote),
    let s' := place_orders_batch s orders in
    let submitted := map order_of_quote orders in
    let buys := filter (fun o => is_buy_side (order_side o)) submitted in
    let sells :=
      filter (fun o => negb (is_buy_side (order_side o))) submitted in
    s' = set_active_sell_orders (active_sell_orders s')
           (set_active_buy_orders (active_buy_orders s') s)
    /\ Permutation (active_buy_orders s') buys
    /\ Permutation (active_sell_orders s') sells
    /\ StronglySorted (fun a b => order_price b <= order_price a)
                      (active_buy_orders s')
    /\ StronglySorted (fun a b => order_price a <= order_price b)
                      (active_sell_orders s')
    /\ (forall p : Q,
           filter (fun o => Decimal.eqb (order_price o) p)
                  (active_buy_orders s')
           = filter (fun o => Decimal.eqb (order_price o) p) buys
           /\ filter (fun o => Decimal.eqb (order_price o) p)
                     (active_sell_orders s')
              = filter (fun o => Decimal.eqb (order_price o) p) sells).
Proof.
  intros s orders s' submitted buys sells.
  destruct (place_orders_batch_lists s orders) as [Hb Hs].
  fold s' submitted in Hb, Hs. fold buys in Hb. fold sells in Hs.
  split; [subst s'; unfold place_orders_batch; destruct s; reflexivity|].
  split; [rewrite Hb; apply sort_stable_perm|].
  split; [rewrite Hs; apply sort_stable_perm|].
  destruct (place_orders_batch_sorted s orders)
    as [Hsb Hss].
  split; [exact Hsb|]. split; [exact Hss|].
  intros p. split.
  - rewrite Hb. apply sort_stable_keeps_order.
    intros x y Hx Hyx. apply decimal_eqb_iff in Hx.
    apply decimal_gtb_iff in Hyx. apply decimal_eqb_false_iff. lra.
  - rewrite Hs. apply sort_stable_keeps_order.
    intros x y Hx Hyx. apply decimal_eqb_iff in Hx.
    apply decimal_ltb_iff in Hyx. apply decimal_eqb_false_iff. lra.
Qed.

(** In a list sorted so that a failing element is only followed by failing
    elements, a filter keeps a prefix and its complement the suffix. *)
Lemma filter_sorted_prefix {A : Type} (R : A -> A -> Prop) (f : A -> bool)
      (l : list A) :
  (forall a b, R a b -> f a = false -> f b = false) ->
  StronglySorted R l ->
  exists k : nat,
    filter f l = firstn k l /\ filter (fun x => negb (f x)) l = skipn k l.
Proof.
  intros Hf. induction 1 as [|a l Hl IH Hall].
  - exists 0%nat. split; reflexivity.
  - cbn [filter]. destruct (f a) eqn:Ha; cbn [negb].
    + destruct IH as (k & H1 & H2). exists (S k).
      cbn [firstn skipn]. rewrite H1. split; [reflexivity | exact H2].
    + exists 0%nat. cbn [firstn skipn].
      assert (Hnone : Forall (fun b => f b = false) l).
      { apply Forall_impl with (P := R a); [|exact Hall].
        intros b Hab. apply (Hf a b Hab Ha). }
      clear - Hnone. split.
      * induction Hnone as [|b l Hb _ IH]; [reflexivity|].
        cbn [filter]. rewrite Hb. exact IH.
      * f_equal. induction Hnone as [|b l Hb _ IH]; [reflexivity|].
        cbn [filter]. rewrite Hb. cbn [negb]. f_equal. exact IH.
Qed.

Lemma orders_ok_perm (l l' : list Order) :
  Permutation l l' -> orders_ok l' -> orders_ok l.
Proof.
  intros Hp H. unfold orders_ok.
  apply (Permutation_Forall (Permutation_sym Hp)). exact H.
Qed.

Lemma quotes_ok_orders (orders : list Quote) :
  quotes_ok orders -> orders_ok (map order_of_quote orders).
Proof.
  unfold quotes_ok, orders_ok. intros H. apply Forall_map.
  apply Forall_impl with (2 := H). intros q Hq. exact Hq.
Qed.

(** Placing well-formed orders on a well-formed exchange. *)
Lemma place_orders_batch_ok (s : Exchange) (orders : list Quote) :
  book_ok s -> payout_day_ok s -> quotes_ok orders ->
  exchange_ok (place_orders_batch s orders).
Proof.
  intros Hbook Hday Hq.
  destruct (place_orders_batch_lists s orders) as [Hb Hs].
  pose proof (quotes_ok_orders orders Hq) as Hsub.
  split; [|split; [|split]].
  - unfold book_ok, place_orders_batch. attrs. exact Hbook.
  - unfold payout_day_ok, place_orders_batch. attrs. exact Hday.
  - rewrite Hb. apply (orders_ok_perm _ _ (sort_stable_perm _ _)).
    apply orders_ok_filter. exact Hsub.
  - rewrite Hs. apply (orders_ok_perm _ _ (sort_stable_perm _ _)).
    apply orders_ok_filter. exact Hsub.
Qed.

Lemma ltb_negb_geb_price (high : Q) (l : list Order) :
  filter (fun o => Decimal.ltb high (order_price o)) l
  = filter (fun o => negb (Decimal.geb high (order_price o))) l.
Proof. apply filter_ext. intros o. apply decimal_ltb_negb_geb. Qed.

Lemma gtb_negb_leb_price (low : Q) (l : list Order) :
  filter (fun o => Decimal.gtb low (order_price o)) l
  = filter (fun o => negb (Decimal.leb low (order_price o))) l.
Proof. apply filter_ext. intros o. apply decimal_gtb_negb_leb. Qed.

Lemma len_firstn_filter {A : Type} (f : A -> bool) (l : list A) (k : nat) :
  filter f l = firstn k l -> len (filter f l) = Z.of_nat (Nat.min k (List.length l)).
Proof. intros H. unfold len. rewrite H, length_firstn. reflexivity. Qed.

(** X9.  Because [place_orders_batch] sorts best price first, the matching
    pass that follows consumes a prefix of each resting list: for
    well-formed orders on a well-formed book it returns, what rests
    afterwards is the buy list without its first kb orders and the sell
    list without its first ks orders, the consumed buys all have
    low <= price and the consumed sells price <= high, the orders left have
    low > price resp. price > high, and the count returned is kb + ks. *)
Theorem matching_consumes_best_priced_prefix :
  forall (s : Exchange) (orders : list Quote) (high low : Q) (timestamp : Z),
    book_ok s -> payout_day_ok s -> quotes_ok orders ->
    let placed := place_orders_batch s orders in
    exists (filled_count : Z) (s' : Exchange) (kb ks : nat),
      fast_order_matching placed high low timestamp = Ok (filled_count, s')
      /\ (kb <= List.length (active_buy_orders placed))%nat
      /\ (ks <= List.length (active_sell_orders placed))%nat
      /\ filled_count = (Z.of_nat kb + Z.of_nat ks)%Z
      /\ active_buy_orders s' = skipn kb (active_buy_orders placed)
      /\ active_sell_orders s' = skipn ks (active_sell_orders placed)
      /\ Forall (fun o => low <= order_price o)
                (firstn kb (active_buy_orders placed))
      /\ Forall (fun o => order_price o <= high)
                (firstn ks (active_sell_orders placed))
      /\ Forall (fun o => order_price o < low) (active_buy_orders s')
      /\ Forall (fun o => high < order_price o) (active_sell_orders s').
Proof.
  intros s orders high low timestamp Hbook Hday Hq placed.
  pose proof (place_orders_batch_ok s orders Hbook Hday Hq) as Hok.
  fold placed in Hok.
  destruct (fast_order_matching_book placed high low timestamp Hok)
    as (n & s' & Hex & _ & _ & _ & Hb & Hs & Hn).
  destruct (place_orders_batch_sorted s orders)
    as [Hsb Hss].
  fold placed in Hsb, Hss.
  destruct (filter_sorted_prefix
              (fun a b => order_price b <= order_price a)
              (fun o => Decimal.leb low (order_price o))
              (active_buy_orders placed)) as (kb0 & Hfb & Hrb);
    [|exact Hsb|].
  { intros a b Hab Ha.
    destruct (Decimal.leb low (order_price b)) eqn:Hbb; [|reflexivity].
    apply decimal_leb_iff in Hbb.
    assert (Hla : Decimal.leb low (order_price a) = true)
      by (apply decimal_leb_iff; lra).
    congruence. }
  destruct (filter_sorted_prefix
              (fun a b => order_price a <= order_price b)
              (fun o => Decimal.geb high (order_price o))
              (active_sell_orders placed)) as (ks0 & Hfs & Hrs);
    [|exact Hss|].
  { intros a b Hab Ha.
    destruct (Decimal.geb high (order_price b)) eqn:Hbb; [|reflexivity].
    apply decimal_geb_iff in Hbb.
    assert (Hla : Decimal.geb high (order_price a) = true)
      by (apply decimal_geb_iff; lra).
    congruence. }
  set (kb := Nat.min kb0 (List.length (active_buy_orders placed))).
  set (ks := Nat.min ks0 (List.length (active_sell_orders placed))).
  assert (Hfirst : forall (A : Type) (k : nat) (l : list A),
             firstn (Nat.min k (List.length l)) l = firstn k l
             /\ skipn (Nat.min k (List.length l)) l = skipn k l).
  { intros A k l. destruct (Nat.le_ge_cases k (List.length l)) as [H|H].
    - rewrite Nat.min_l by exact H. split; reflexivity.
    - rewrite Nat.min_r by exact H.
      rewrite firstn_all, skipn_all, (firstn_all2 l H), (skipn_all2 l H).
      split; reflexivity. }
  destruct (Hfirst _ kb0 (active_buy_orders placed)) as [Hfb1 Hfb2].
  destruct (Hfirst _ ks0 (active_sell_orders placed)) as [Hfs1 Hfs2].
  fold kb in Hfb1, Hfb2. fold ks in Hfs1, Hfs2.
  exists n, s', kb, ks.
  split; [exact Hex|].
  split; [apply Nat.le_min_r|]. split; [apply Nat.le_min_r|].
  split.
  { rewrite Hn, (len_firstn_filter _ _ _ Hfb), (len_firstn_filter _ _ _ Hfs).
    reflexivity. }
  split; [rewrite Hb, gtb_negb_leb_price, Hrb, Hfb2; reflexivity|].
  split; [rewrite Hs, ltb_negb_geb_price, Hrs, Hfs2; reflexivity|].
  split.
  { rewrite Hfb1, <- Hfb. apply Forall_forall. intros o Ho.
    apply filter_In in Ho. apply decimal_leb_iff. tauto. }
  split.
  { rewrite Hfs1, <- Hfs. apply Forall_forall. intros o Ho.
    apply filter_In in Ho. apply decimal_geb_iff. tauto. }
  split.
  { rewrite Hb. apply Forall_forall. intros o Ho.
    apply filter_In in Ho. apply decimal_gtb_iff. tauto. }
  rewrite Hs. apply Forall_forall. intros o Ho.
  apply filter_In in Ho. apply decimal_ltb_iff. tauto.
Qed.

(** ** Strategy *)

Lemma decimal_max_spec (a b : Q) :
  a <= decimal_max a b /\ b <= decimal_max a b
  /\ (decimal_max a b = a \/ decimal_max a b = b).
Proof.
  unfold decimal_max. destruct (Decimal.gtb b a) eqn:H.
  - apply decimal_gtb_iff in H. repeat split; try lra. right; reflexivity.
  - apply decimal_gtb_false_iff in H. repeat split; try lra. left; reflexivity.
Qed.

Lemma of_int_eqb_zero (z : Z) :
  Decimal.eqb (Decimal.of_int z) 0 = (z =? 0)%Z.
Proof.
  unfold Decimal.of_int.
  destruct (Z.eqb_spec z 0) as [->|Hne].
  - reflexivity.
  - apply decimal_eqb_false_iff. unfold Qeq. cbn. lia.
Qed.

Lemma effective_leverage_positive (cfg : Config) (s : Exchange) :
  (1 <= leverage cfg)%Z ->
  (1 <= Z.min (get_current_max_leverage s) (leverage cfg))%Z.
Proof.
  intros H. pose proof (current_max_leverage_range s). lia.
Qed.

Lemma of_int_div_ok (a : Q) (z : Z) :
  (1 <= z)%Z -> Decimal.div a (Decimal.of_int z) = Ok (a / Decimal.of_int z).
Proof.
  intros H. unfold Decimal.div. rewrite of_int_eqb_zero.
  destruct (Z.eqb_spec z 0); [lia | reflexivity].
Qed.

(** The order size on a usable configuration and a non-zero price. *)
Lemma dynamic_order_size_ok (cfg : Config) (s : Exchange) (price : Q) :
  (1 <= leverage cfg)%Z -> ~ price == 0 ->
  exists v,
    calculate_dynamic_order_size cfg s price = Ok v
    /\ min_order_amount cfg <= v
    /\ (use_dynamic_order_size cfg = true ->
        order_size_floor cfg s price <= v
        /\ (v <= max_order_amount cfg \/ v = order_size_floor cfg s price)).
Proof.
  intros Hlev Hprice. unfold calculate_dynamic_order_size.
  destruct (use_dynamic_order_size cfg); cbn [negb].
  - rewrite (of_int_div_ok _ _ (effective_leverage_positive cfg s Hlev)).
    cbn [bind]. rewrite !(decimal_div_ok _ _ Hprice). cbn [bind].
    fold (order_size_floor cfg s price).
    set (floor := order_size_floor cfg s price).
    set (amount := _ / price).
    eexists. split; [reflexivity|].
    pose proof (decimal_max_spec floor
                  (Decimal.min (max_order_amount cfg) amount))
      as (H1 & H2 & H3).
    pose proof (decimal_max_spec (min_order_amount cfg)
                                 (get_equity s / 1000 / price)) as (H4 & _).
    fold (order_size_floor cfg s price) in H4. fold floor in H4.
    split; [lra|]. intros _. split; [exact H1|].
    destruct H3 as [H3|H3]; [right; exact H3|].
    left. rewrite H3.
    destruct (decimal_min_spec (max_order_amount cfg) amount)
      as [[Hc ->]|[Hc ->]]; lra.
  - eexists. split; [reflexivity|]. split; [lra|]. discriminate.
Qed.

(** X10.  [calculate_dynamic_order_size] on a configured leverage of at
    least 1, with dynamic sizing on: a zero price raises; a non-zero
    price returns a quantity that is at least the configured minimum and at
    least equity / 1000 / price, and that respects the configured maximum
    unless this floor exceeds it, in which case the floor is returned.
    With dynamic sizing off the configured minimum is returned. *)
Theorem dynamic_order_size_clamped :
  forall (cfg : Config) (s : Exchange) (price : Q),
    (1 <= leverage cfg)%Z ->
    (use_dynamic_order_size cfg = false ->
     calculate_dynamic_order_size cfg s price = Ok (min_order_amount cfg))
    /\ (use_dynamic_order_size cfg = true -> price == 0 ->
        exists e, calculate_dynamic_order_size cfg s price = Raise e)
    /\ (use_dynamic_order_size cfg = true -> ~ price == 0 ->
        exists v,
          calculate_dynamic_order_size cfg s price = Ok v
          /\ min_order_amount cfg <= v
          /\ get_equity s / 1000 / price <= v
          /\ (v <= max_order_amount cfg
              \/ v = order_size_floor cfg s price)).
Proof.
  intros cfg s price Hlev. split; [|split].
  - intros Hoff. unfold calculate_dynamic_order_size. rewrite Hoff.
    reflexivity.
  - intros Hon Hzero. unfold calculate_dynamic_order_size. rewrite Hon.
    cbn [negb].
    rewrite (of_int_div_ok _ _ (effective_leverage_positive cfg s Hlev)).
    cbn [bind]. unfold Decimal.div at 1.
    apply decimal_eqb_iff in Hzero. rewrite Hzero.
    exists DivisionByZero. reflexivity.
  - intros Hon Hprice.
    destruct (dynamic_order_size_ok cfg s price Hlev Hprice)
      as (v & Hv & Hmin & Hdyn).
    destruct (Hdyn Hon) as [Hfloor Hcap].
    exists v. split; [exact Hv|]. split; [exact Hmin|].
    split; [|exact Hcap].
    pose proof (decimal_max_spec (min_order_amount cfg)
                                 (get_equity s / 1000 / price)) as (_ & H & _).
    unfold order_size_floor in Hfloor. lra.
Qed.

(** ** Equity across a fill *)

Lemma zero_product (a b : Q) : a == 0 -> a * b == 0.
Proof. intros H. rewrite H. ring. Qed.

(** The branches of [execute_fast_trade]: the value of the book at the
    mark price after the branch. *)
Lemma apply_side_value (s : Exchange) (side : string) (amount price : Q) :
  positions_nonneg s -> 0 <= amount ->
  exists pnl b q1 q2 e1 e2,
    apply_side s side amount price
    = Ok (pnl,
          set_short_entry_price e2
            (set_long_entry_price e1
               (set_short_position q2
                  (set_long_position q1 (set_balance b s)))))
    /\ 0 <= q1 /\ 0 <= q2
    /\ b + q1 * (current_price s - e1) + q2 * (e2 - current_price s)
       == balance s
          + long_position s * (current_price s - long_entry_price s)
          + short_position s * (short_entry_price s - current_price s)
          + fill_gain s side amount price
          + double_count_gain s side amount price.
Proof.
  intros [Hl Hs] Ha.
  destruct (side_eqb_cases side) as [->|[->|[->|[->|(H1 & H2 & H3 & H4)]]]].
  - (* buy_long *)
    unfold apply_side, fill_gain, double_count_gain.
    cbn [String.eqb Ascii.eqb Bool.eqb andb].
    destruct (Decimal.eqb (long_position s) 0) eqn:Hz.
    + attrs. apply decimal_eqb_iff in Hz.
      exists 0, (balance s), (long_position s + amount), (short_position s),
        price, (short_entry_price s).
      split; [destruct s; reflexivity|].
      split; [lra|]. split; [exact Hs|].
      pose proof (zero_product _ (current_price s - long_entry_price s) Hz).
      pose proof (zero_product _ (current_price s - price) Hz).
      lra.
    + attrs.
      pose proof (opening_quantity_positive _ _ Hl Ha Hz) as Hne.
      rewrite decimal_div_ok by exact Hne.
      attrs.
      exists 0, (balance s), (long_position s + amount + amount),
        (short_position s),
        ((long_position s * long_entry_price s + amount * price)
         / (long_position s + amount)),
        (short_entry_price s).
      split; [destruct s; reflexivity|].
      split; [lra|]. split; [exact Hs|].
      field. exact Hne.
  - (* sell_short *)
    unfold apply_side, fill_gain, double_count_gain.
    cbn [String.eqb Ascii.eqb Bool.eqb andb].
    destruct (Decimal.eqb (short_position s) 0) eqn:Hz.
    + attrs. apply decimal_eqb_iff in Hz.
      exists 0, (balance s), (long_position s), (short_position s + amount),
        (long_entry_price s), price.
      split; [destruct s; reflexivity|].
      split; [exact Hl|]. split; [lra|].
      pose proof (zero_product _ (short_entry_price s - current_price s) Hz).
      pose proof (zero_product _ (price - current_price s) Hz).
      lra.
    + attrs.
      pose proof (opening_quantity_positive _ _ Hs Ha Hz) as Hne.
      rewrite decimal_div_ok by exact Hne.
      attrs.
      exists 0, (balance s), (long_position s),
        (short_position s + amount + amount), (long_entry_price s),
        ((short_position s * short_entry_price s + amount * price)
         / (short_position s + amount)).
      split; [destruct s; reflexivity|].
      split; [exact Hl|]. split; [lra|].
      field. exact Hne.
  - (* sell_long *)
    unfold apply_side, fill_gain, double_count_gain.
    cbn [String.eqb Ascii.eqb Bool.eqb andb].
    pose proof (decimal_min_bounds amount (long_position s) Ha Hl)
      as [Hm0 Hm1].
    destruct (Decimal.gtb (long_position s) 0) eqn:Hgt.
    + attrs.
      set (trade_amount := Decimal.min amount (long_position s)) in *.
      destruct (Decimal.eqb (long_position s - trade_amount) 0) eqn:Hz.
      * apply decimal_eqb_iff in Hz.
        exists (trade_amount * (price - long_entry_price s)),
          (balance s + trade_amount * (price - long_entry_price s)),
          (long_position s - trade_amount), (short_position s),
          0, (short_entry_price s).
        split; [destruct s; reflexivity|].
        split; [lra|]. split; [exact Hs|].
        pose proof (zero_product _ (current_price s) Hz).
        pose proof (zero_product _ (long_entry_price s) Hz).
        lra.
      * exists (trade_amount * (price - long_entry_price s)),
          (balance s + trade_amount * (price - long_entry_price s)),
          (long_position s - trade_amount), (short_position s),
          (long_entry_price s), (short_entry_price s).
        split; [destruct s; reflexivity|].
        split; [lra|]. split; [exact Hs|]. ring.
    + pose proof (decimal_min_held_zero amount (long_position s) Ha Hl Hgt)
        as Hmin.
      exists 0, (balance s), (long_position s), (short_position s),
        (long_entry_price s), (short_entry_price s).
      split; [destruct s; reflexivity|].
      split; [exact Hl|]. split; [exact Hs|].
      pose proof (zero_product _ (price - current_price s) Hmin). lra.
  - (* buy_short *)
    unfold apply_side, fill_gain, double_count_gain.
    cbn [String.eqb Ascii.eqb Bool.eqb andb].
    pose proof (decimal_min_bounds amount (short_position s) Ha Hs)
      as [Hm0 Hm1].
    destruct (Decimal.gtb (short_position s) 0) eqn:Hgt.
    + attrs.
      set (trade_amount := Decimal.min amount (short_position s)) in *.
      destruct (Decimal.eqb (short_position s - trade_amount) 0) eqn:Hz.
      * apply decimal_eqb_iff in Hz.
        exists (trade_amount * (short_entry_price s - price)),
          (balance s + trade_amount * (short_entry_price s - price)),
          (long_position s), (short_position s - trade_amount),
          (long_entry_price s), 0.
        split; [destruct s; reflexivity|].
        split; [exact Hl|]. split; [lra|].
        pose proof (zero_product _ (current_price s) Hz).
        pose proof (zero_product _ (short_entry_price s) Hz).
        lra.
      * exists (trade_amount * (short_entry_price s - price)),
          (balance s + trade_amount * (short_entry_price s - price)),
          (long_position s), (short_position s - trade_amount),
          (long_entry_price s), (short_entry_price s).
        split; [destruct s; reflexivity|].
        split; [exact Hl|]. split; [lra|]. ring.
    + pose proof (decimal_min_held_zero amount (short_position s) Ha Hs Hgt)
        as Hmin.
      exists 0, (balance s), (long_position s), (short_position s),
        (long_entry_price s), (short_entry_price s).
      split; [destruct s; reflexivity|].
      split; [exact Hl|]. split; [exact Hs|].
      pose proof (zero_product _ (current_price s - price) Hmin). lra.
  - (* any other string *)
    unfold apply_side, fill_gain, double_count_gain.
    rewrite H1, H2, H3, H4. cbn [andb].
    exists 0, (balance s), (long_position s), (short_position s),
      (long_entry_price s), (short_entry_price s).
    split; [destruct s; reflexivity|].
    split; [exact Hl|]. split; [exact Hs|]. ring.
Qed.

(** X19.  The equity across one fill, for a non-negative quantity on an
    exchange with non-negative positions: [execute_fast_trade] returns and
      equity_after = equity_before - fee + rebateCredit + gain + doubleCount
    where the fee is qty * price * makerFeeRate, gain is the filled quantity
    times the distance between the fill price and the mark price in the
    fill's favour (so a fill at the mark price costs exactly the fee), and
    doubleCount is 0 for a closing fill, for an opening fill from flat and
    for any other side string; for an opening fill that adds to a held
    side it is qty * (mark - newEntry) for a long and
    qty * (newEntry - mark) for a short. *)
Theorem fill_changes_equity_by_fee_and_gain :
  forall (s : Exchange) (side : string) (amount price : Q) (timestamp : Z),
    positions_nonneg s -> payout_day_ok s -> 0 <= amount ->
    let fee := amount * price * maker_fee s in
    let credit :=
      rebate_credit (set_current_cycle_fees (current_cycle_fees s + fee) s)
                    timestamp in
    exists s',
      execute_fast_trade s side amount price timestamp = Ok s'
      /\ get_equity s'
         == get_equity s - fee + credit
            + fill_gain s side amount price
            + double_count_gain s side amount price.
Proof.
  intros s side amount price timestamp Hpos Hday Ha fee credit.
  unfold execute_fast_trade. fold fee.
  set (s1 := set_total_fees_paid _ (set_balance _ s)).
  destruct (accumulate_fee_frame s1 fee timestamp)
    as (b & f & d & Heq & Hb & _).
  { unfold payout_day_ok, s1. attrs. exact Hday. }
  rewrite Heq. cbn [bind].
  set (s2 := set_last_payout_date d _).
  destruct (apply_side_value s2 side amount price)
    as (pnl & b' & q1 & q2 & e1 & e2 & Hside & Hq1 & Hq2 & Hval).
  { unfold positions_nonneg, s2, s1. attrs. exact Hpos. }
  { exact Ha. }
  rewrite Hside. cbn [bind fst snd].
  assert (Hg : fill_gain s2 side amount price = fill_gain s side amount price)
    by reflexivity.
  assert (Hd : double_count_gain s2 side amount price
               = double_count_gain s side amount price) by reflexivity.
  assert (Hrc : rebate_credit
                  (set_current_cycle_fees (current_cycle_fees s1 + fee) s1)
                  timestamp
                = credit) by reflexivity.
  rewrite Hg, Hd in Hval. rewrite Hrc in Hb.
  eexists. split; [reflexivity|].
  rewrite equity_formula.
  2:{ unfold positions_nonneg, update_current_leverage. attrs.
      split; assumption. }
  rewrite (equity_formula s Hpos).
  unfold update_current_leverage. unfold s2, s1 in *. attrs.
  rewrite Hval, Hb. ring.
Qed.

(** ** Strategy: stop loss and position balance *)

Lemma ratio_geb_iff (diff entry stop : Q) :
  0 < entry ->
  (Decimal.geb (diff / entry) stop = true <-> stop * entry <= diff).
Proof.
  intros He. rewrite decimal_geb_iff.
  assert (Hre : diff / entry * entry == diff) by (field; lra).
  split; intros H.
  - rewrite <- Hre. apply Qmult_le_compat_r; lra.
  - apply Qle_shift_div_l; assumption.
Qed.

(** One leg of [check_position_stop_loss] on a well-formed side. *)
Lemma stop_loss_leg (held entry diff stop : Q) (q : Quote)
      (orders : list Quote) :
  side_ok held entry ->
  exists b : bool,
    (if Decimal.gtb held 0 then
       loss_pct <- Decimal.div diff entry ;;
       if Decimal.geb loss_pct stop then Ok (orders ++ [q]) else Ok orders
     else Ok orders)
    = Ok (if b then orders ++ [q] else orders)
    /\ (b = true <-> 0 < held /\ stop * entry <= diff).
Proof.
  intros (Hnn & _ & Hpos).
  destruct (Decimal.gtb held 0) eqn:Hg.
  - apply decimal_gtb_iff in Hg. pose proof (Hpos Hg) as He.
    rewrite decimal_div_ok by lra. cbn [bind].
    pose proof (ratio_geb_iff diff entry stop He) as Hiff.
    destruct (Decimal.geb (diff / entry) stop).
    + exists true. split; [reflexivity|]. split; [|reflexivity].
      intros _. split; [exact Hg | apply Hiff; reflexivity].
    + exists false. split; [reflexivity|]. split; [discriminate|].
      intros [_ H]. apply (proj2 Hiff). exact H.
  - apply decimal_gtb_false_iff in Hg.
    exists false. split; [reflexivity|]. split; [discriminate|].
    intros [H _]. lra.
Qed.

(** What [check_position_stop_loss] returns on a well-formed book. *)
Lemma stop_loss_orders_shape (cfg : Config) (s : Exchange) (price : Q) :
  book_ok s ->
  exists bl bs : bool,
    check_position_stop_loss cfg s price
    = Ok ((if bl then [mk_quote "sell_long" (long_position s) price]
           else [])
          ++ (if bs then [mk_quote "buy_short" (short_position s) price]
              else []))
    /\ (bl = true <->
        enable_position_stop_loss cfg = true /\ long_stop_hit cfg s price)
    /\ (bs = true <->
        enable_position_stop_loss cfg = true /\ short_stop_hit cfg s price).
Proof.
  intros [Hl Hs]. unfold check_position_stop_loss.
  destruct (enable_position_stop_loss cfg); cbn [negb].
  - destruct (stop_loss_leg (long_position s) (long_entry_price s)
                (long_entry_price s - price) (position_stop_loss cfg)
                (mk_quote "sell_long" (long_position s) price) [] Hl)
      as (bl & Hleg1 & Hbl).
    rewrite Hleg1. cbn [bind].
    destruct (stop_loss_leg (short_position s) (short_entry_price s)
                (price - short_entry_price s) (position_stop_loss cfg)
                (mk_quote "buy_short" (short_position s) price)
                (if bl then [] ++ [mk_quote "sell_long" (long_position s) price]
                 else []) Hs)
      as (bs & Hleg2 & Hbs).
    rewrite Hleg2. cbn [bind].
    exists bl, bs. split.
    { destruct bl, bs; reflexivity. }
    unfold long_stop_hit, short_stop_hit. split.
    + rewrite Hbl. split; [intros H; split; [reflexivity | exact H]|].
      intros [_ H]. exact H.
    + rewrite Hbs. split; [intros H; split; [reflexivity | exact H]|].
      intros [_ H]. exact H.
  - exists false, false. split; [reflexivity|].
    split; (split; [discriminate | intros [H _]; discriminate H]).
Qed.

(** X11.  [check_position_stop_loss] on a well-formed book never raises.
    It returns exactly: the order ('sell_long', whole long quantity, mark
    price) when the stop loss is enabled, the long side is held and the
    adverse move from its entry price is at least position_stop_loss times
    the entry price, followed by the order ('buy_short', whole short
    quantity, mark price) under the same condition on the short side; no
    other order, and none twice.  Filling any returned order leaves that
    side flat and the book well formed. *)
Theorem position_stop_loss_closes_whole_side :
  forall (cfg : Config) (s : Exchange) (price : Q),
    book_ok s ->
    exists (orders : list Quote) (long_hit short_hit : bool),
      check_position_stop_loss cfg s price = Ok orders
      /\ orders
         = (if long_hit
            then [mk_quote "sell_long" (long_position s) price] else [])
           ++ (if short_hit
               then [mk_quote "buy_short" (short_position s) price]
               else [])
      /\ (long_hit = true <->
          enable_position_stop_loss cfg = true /\ long_stop_hit cfg s price)
      /\ (short_hit = true <->
          enable_position_stop_loss cfg = true
          /\ short_stop_hit cfg s price)
      /\ (payout_day_ok s -> 0 < price ->
          forall q timestamp,
            In q orders ->
            exists s',
              execute_fast_trade s (quote_side q) (quote_amount q)
                                 (quote_price q) timestamp = Ok s'
              /\ book_ok s'
              /\ (quote_side q = "sell_long"%string -> long_position s' == 0)
              /\ (quote_side q = "buy_short"%string
                  -> short_position s' == 0)).
Proof.
  intros cfg s price Hbook.
  destruct (stop_loss_orders_shape cfg s price Hbook)
    as (bl & bs & Heq & Hbl & Hbs).
  eexists. exists bl, bs. split; [exact Heq|].
  split; [reflexivity|]. split; [exact Hbl|]. split; [exact Hbs|].
  intros Hday Hprice q timestamp Hq.
  assert (Hcases : (bl = true
                    /\ q = mk_quote "sell_long" (long_position s) price)
                   \/ (bs = true
                       /\ q = mk_quote "buy_short" (short_position s)
                                       price)).
  { apply in_app_or in Hq. destruct Hq as [Hq|Hq].
    - destruct bl; [|destruct Hq]. destruct Hq as [Hq|[]].
      left. split; [reflexivity | symmetry; exact Hq].
    - destruct bs; [|destruct Hq]. destruct Hq as [Hq|[]].
      right. split; [reflexivity | symmetry; exact Hq]. }
  pose proof (book_ok_positions_nonneg s Hbook) as Hnn.
  destruct Hcases as [[Hb ->]|[Hb ->]];
    cbn [quote_side quote_amount quote_price].
  - apply Hbl in Hb. destruct Hb as [_ [Hheld _]].
    destruct (execute_fast_trade_book s "sell_long" (long_position s) price
                timestamp Hbook Hday Hheld Hprice)
      as (s' & Hex & Hbook' & _).
    destruct (execute_fast_trade_frame s "sell_long" (long_position s)
                price timestamp Hnn Hday (Qlt_le_weak _ _ Hheld))
      as (s0 & Hex0 & _ & _ & _ & _ & _ & _ & _ & _ & Hsl & _).
    rewrite Hex in Hex0. inversion Hex0; subst s0.
    exists s'. split; [exact Hex|]. split; [exact Hbook'|].
    split; [|discriminate].
    intros _. rewrite (Hsl eq_refl).
    destruct (decimal_min_spec (long_position s) (long_position s))
      as [[_ ->]|[_ ->]]; ring.
  - apply Hbs in Hb. destruct Hb as [_ [Hheld _]].
    destruct (execute_fast_trade_book s "buy_short" (short_position s) price
                timestamp Hbook Hday Hheld Hprice)
      as (s' & Hex & Hbook' & _).
    destruct (execute_fast_trade_frame s "buy_short" (short_position s)
                price timestamp Hnn Hday (Qlt_le_weak _ _ Hheld))
      as (s0 & Hex0 & _ & _ & _ & _ & _ & _ & _ & _ & _ & Hbsh & _).
    rewrite Hex in Hex0. inversion Hex0; subst s0.
    exists s'. split; [exact Hex|]. split; [exact Hbook'|].
    split; [discriminate|].
    intros _. rewrite (Hbsh eq_refl).
    destruct (decimal_min_spec (short_position s) (short_position s))
      as [[_ ->]|[_ ->]]; ring.
Qed.

Section StrategyProperties.

Variable F : Type.
Variable fdiv : F -> F -> F.
Variable fmul100 : F -> F.
Variable fpositive : F -> bool.
Variable fge : F -> F -> bool.
Variable fzero : F.
Variable float_of_decimal : Q -> F.

Local Abbreviation check_position_balance' :=
  (check_position_balance fdiv fmul100 fpositive fge fzero float_of_decimal).
Local Abbreviation calculate_adaptive_spread' :=
  (calculate_adaptive_spread fdiv fmul100 fpositive fge fzero
                             float_of_decimal).
Local Abbreviation generate_orders' :=
  (generate_orders fdiv fmul100 fpositive fge fzero float_of_decimal).
Local Abbreviation process_sub_point' :=
  (process_sub_point fdiv fmul100 fpositive fge fzero float_of_decimal).
Local Abbreviation run_sub_points' :=
  (run_sub_points fdiv fmul100 fpositive fge fzero float_of_decimal).

(** The five outcomes of [check_position_balance]. *)
Lemma position_balance_cases (cfg : Config) (s : Exchange)
      (monitor : option (VolatilityMonitor F)) (price : Q) :
  let net := get_net_position s in
  let target :=
    (long_position s + short_position s)
    * (max_imbalance_ratio cfg * position_balance_ratio cfg) in
  let orders := check_position_balance' cfg s monitor price in
  orders = []
  \/ (target < net /\ 0 < long_position s
      /\ orders = [mk_quote "sell_long"
                            (Decimal.min (net - target) (long_position s))
                            price])
  \/ (target < net /\ long_position s <= 0
      /\ orders = [mk_quote "sell_short" (net - target) price])
  \/ (net < - target /\ 0 < short_position s
      /\ orders = [mk_quote "buy_short"
                            (Decimal.min (Qabs net - target)
                                         (short_position s))
                            price])
  \/ (net < - target /\ short_position s <= 0
      /\ orders = [mk_quote "buy_long" (Qabs net - target) price]).
Proof.
  intros net target orders. subst orders.
  unfold check_position_balance.
  destruct (enable_volatility_adaptive cfg); [|left; reflexivity].
  destruct monitor as [vm|]; [|left; reflexivity].
  destruct (negb _); [left; reflexivity|].
  destruct (Decimal.eqb _ 0); [left; reflexivity|].
  cbv zeta. fold net. fold target.
  destruct (Decimal.gtb (Qabs net / _) _); [|left; reflexivity].
  destruct (Decimal.gtb net target) eqn:Hgt.
  - apply decimal_gtb_iff in Hgt.
    destruct (Decimal.gtb (long_position s) 0) eqn:Hl.
    + apply decimal_gtb_iff in Hl. right; left.
      split; [exact Hgt|]. split; [exact Hl | reflexivity].
    + apply decimal_gtb_false_iff in Hl. right; right; left.
      split; [exact Hgt|]. split; [exact Hl | reflexivity].
  - destruct (Decimal.ltb net (- target)) eqn:Hlt; [|left; reflexivity].
    apply decimal_ltb_iff in Hlt.
    destruct (Decimal.gtb (short_position s) 0) eqn:Hs.
    + apply decimal_gtb_iff in Hs. right; right; right; left.
      split; [exact Hlt|]. split; [exact Hs | reflexivity].
    + apply decimal_gtb_false_iff in Hs. right; right; right; right.
      split; [exact Hlt|]. split; [exact Hs | reflexivity].
Qed.

Lemma abs_above_opp (net target : Q) : net < - target -> target < Qabs net.
Proof.
  intros H. pose proof (Qle_Qabs (- net)) as Ha. rewrite Qabs_opp in Ha. lra.
Qed.

(** X12.  With non-negative positions and a non-negative target imbalance
    (max_imbalance_ratio * position_balance_ratio), [check_position_balance]
    only ever reduces exposure: it returns nothing, or one order at the
    mark price that closes part of the larger side, for a positive quantity
    that is at most the held quantity and at most the net exposure, so the
    fill cannot flip the net position.  The branches that would open the
    opposite side are never taken.  Without a monitor, or with the
    volatility adaptation disabled, it returns nothing. *)
Theorem position_balance_only_reduces :
  forall (cfg : Config) (s : Exchange)
         (monitor : option (VolatilityMonitor F)) (price : Q),
    positions_nonneg s ->
    0 <= max_imbalance_ratio cfg * position_balance_ratio cfg ->
    let orders := check_position_balance' cfg s monitor price in
    (orders = []
     \/ exists amount,
         0 < amount
         /\ ((orders = [mk_quote "sell_long" amount price]
              /\ amount <= long_position s
              /\ amount <= long_position s - short_position s)
             \/ (orders = [mk_quote "buy_short" amount price]
                 /\ amount <= short_position s
                 /\ amount <= short_position s - long_position s)))
    /\ (enable_volatility_adaptive cfg = false \/ monitor = None ->
        orders = []).
Proof.
  intros cfg s monitor price [Hl Hs] Hsign orders. split.
  - pose proof (position_balance_cases cfg s monitor price) as Hcases.
    cbv zeta in Hcases. fold orders in Hcases.
    unfold get_net_position in Hcases.
    set (target := (long_position s + short_position s)
                   * (max_imbalance_ratio cfg * position_balance_ratio cfg))
      in Hcases.
    assert (Ht : 0 <= target).
    { unfold target. apply Qmult_le_0_compat; [lra | exact Hsign]. }
    destruct Hcases as [H|[H|[H|[H|H]]]].
    + left. exact H.
    + destruct H as (Hnet & Hheld & Ho). right.
      exists (Decimal.min (long_position s - short_position s - target)
                          (long_position s)).
      destruct (decimal_min_spec
                  (long_position s - short_position s - target)
                  (long_position s)) as [[Hc Hm]|[Hc Hm]];
        rewrite Hm in *.
      * split; [lra|]. left. split; [exact Ho|]. lra.
      * split; [lra|]. left. split; [exact Ho|]. lra.
    + destruct H as (Hnet & Hheld & _). exfalso. lra.
    + destruct H as (Hnet & Hheld & Ho). right.
      assert (Habs : Qabs (long_position s - short_position s)
                     == short_position s - long_position s).
      { rewrite Qabs_neg by lra. ring. }
      exists (Decimal.min
                (Qabs (long_position s - short_position s) - target)
                (short_position s)).
      destruct (decimal_min_spec
                  (Qabs (long_position s - short_position s) - target)
                  (short_position s)) as [[Hc Hm]|[Hc Hm]];
        rewrite Hm in *.
      * split; [lra|]. right. split; [exact Ho|]. lra.
      * split; [lra|]. right. split; [exact Ho|]. lra.
    + destruct H as (Hnet & Hheld & _). exfalso. lra.
  - intros H. subst orders. unfold check_position_balance.
    destruct H as [-> | ->]; [reflexivity|].
    destruct (enable_volatility_adaptive cfg); reflexivity.
Qed.

(** Whatever the configuration, a balance order fits the book. *)
Lemma position_balance_fits (cfg : Config) (s : Exchange)
      (monitor : option (VolatilityMonitor F)) (price : Q) :
  0 < price ->
  Forall (quote_fits s price) (check_position_balance' cfg s monitor price)
  /\ (List.length (check_position_balance' cfg s monitor price) <= 1)%nat.
Proof.
  intros Hp.
  pose proof (position_balance_cases cfg s monitor price) as Hcases.
  cbv zeta in Hcases.
  set (net := get_net_position s) in Hcases.
  set (target := (long_position s + short_position s)
                 * (max_imbalance_ratio cfg * position_balance_ratio cfg))
    in Hcases.
  destruct Hcases as [H|[H|[H|[H|H]]]].
  - rewrite H. split; [constructor | cbn; lia].
  - destruct H as (Hnet & Hheld & ->). split; [|cbn; lia].
    constructor; [|constructor].
    unfold quote_fits. cbn [quote_side quote_amount quote_price is_buy_side
                            String.eqb Ascii.eqb Bool.eqb orb].
    destruct (decimal_min_spec (net - target) (long_position s))
      as [[Hc ->]|[Hc ->]].
    + split; [lra|]. split; [lra|]. split; [lra|].
      split; [intros _; lra | discriminate].
    + split; [lra|]. split; [lra|]. split; [lra|].
      split; [intros _; lra | discriminate].
  - destruct H as (Hnet & Hheld & ->). split; [|cbn; lia].
    constructor; [|constructor].
    unfold quote_fits. cbn [quote_side quote_amount quote_price is_buy_side
                            String.eqb Ascii.eqb Bool.eqb orb].
    split; [lra|]. split; [lra|]. split; [lra|].
    split; discriminate.
  - destruct H as (Hnet & Hheld & ->). split; [|cbn; lia].
    pose proof (abs_above_opp _ _ Hnet) as Habs.
    constructor; [|constructor].
    unfold quote_fits. cbn [quote_side quote_amount quote_price is_buy_side
                            String.eqb Ascii.eqb Bool.eqb orb].
    destruct (decimal_min_spec (Qabs net - target) (short_position s))
      as [[Hc ->]|[Hc ->]].
    + split; [lra|]. split; [lra|]. split; [lra|].
      split; [discriminate | intros _; lra].
    + split; [lra|]. split; [lra|]. split; [lra|].
      split; [discriminate | intros _; lra].
  - destruct H as (Hnet & Hheld & ->). split; [|cbn; lia].
    pose proof (abs_above_opp _ _ Hnet) as Habs.
    constructor; [|constructor].
    unfold quote_fits. cbn [quote_side quote_amount quote_price is_buy_side
                            String.eqb Ascii.eqb Bool.eqb orb].
    split; [lra|]. split; [lra|]. split; [lra|].
    split; discriminate.
Qed.


(** ** Strategy: quoting *)

Lemma adaptive_spread_ok (cfg : Config)
      (monitor : option (VolatilityMonitor F)) :
  config_ok cfg ->
  exists spread,
    calculate_adaptive_spread' cfg monitor = (spread, spread)
    /\ spread_ok spread.
Proof.
  intros (_ & _ & Hbase & Hmax & Hadj).
  unfold calculate_adaptive_spread.
  destruct (enable_volatility_adaptive cfg);
    [|eexists; split; [reflexivity | exact Hbase]].
  destruct monitor as [vm|];
    [|eexists; split; [reflexivity | exact Hbase]].
  cbv zeta.
  destruct (String.eqb _ "EXTREME");
    [eexists; split; [reflexivity | exact Hmax]|].
  destruct (String.eqb _ "HIGH");
    [eexists; split; [reflexivity | exact Hadj]|].
  eexists. split; [reflexivity|].
  unfold spread_ok in *. lra.
Qed.

Lemma stop_quote_fits_long (s : Exchange) (price : Q) :
  0 < long_position s -> 0 < price ->
  quote_fits s price (mk_quote "sell_long" (long_position s) price).
Proof.
  intros Hl Hp. unfold quote_fits.
  cbn [quote_side quote_amount quote_price is_buy_side
       String.eqb Ascii.eqb Bool.eqb orb].
  split; [exact Hl|]. split; [exact Hp|]. split; [lra|].
  split; [intros _; lra | discriminate].
Qed.

Lemma stop_quote_fits_short (s : Exchange) (price : Q) :
  0 < short_position s -> 0 < price ->
  quote_fits s price (mk_quote "buy_short" (short_position s) price).
Proof.
  intros Hl Hp. unfold quote_fits.
  cbn [quote_side quote_amount quote_price is_buy_side
       String.eqb Ascii.eqb Bool.eqb orb].
  split; [exact Hl|]. split; [exact Hp|]. split; [lra|].
  split; [discriminate | intros _; lra].
Qed.

(** The four quotes of the regular path. *)
Lemma regular_quotes_fit (s : Exchange) (price spread v : Q) :
  0 < price -> spread_ok spread -> 0 < v ->
  quote_fits s price (mk_quote "buy_long" v (price * (1 - spread)))
  /\ quote_fits s price (mk_quote "sell_short" v (price * (1 + spread)))
  /\ (Decimal.gtb (long_position s) 0 = true ->
      quote_fits s price
        (mk_quote "sell_long" (Decimal.min v (long_position s))
                  (price * (1 + spread) * (1 + spread))))
  /\ (Decimal.gtb (short_position s) 0 = true ->
      quote_fits s price
        (mk_quote "buy_short" (Decimal.min v (short_position s))
                  (price * (1 - spread) * (1 - spread)))).
Proof.
  intros Hp [Hs0 Hs1] Hv.
  assert (Hps : 0 <= price * spread) by (apply Qmult_le_0_compat; lra).
  assert (Hpss : 0 <= price * spread * spread)
    by (apply Qmult_le_0_compat; lra).
  assert (Hp2 : 0 <= price * spread * (2 - spread))
    by (apply Qmult_le_0_compat; lra).
  assert (Hbid : 0 < price * (1 - spread))
    by (apply Qmult_lt_0_compat; lra).
  assert (Hask : 0 < price * (1 + spread))
    by (apply Qmult_lt_0_compat; lra).
  assert (Hbid2 : 0 < price * (1 - spread) * (1 - spread))
    by (apply Qmult_lt_0_compat; lra).
  assert (Hask2 : 0 < price * (1 + spread) * (1 + spread))
    by (apply Qmult_lt_0_compat; lra).
  unfold quote_fits.
  cbn [quote_side quote_amount quote_price is_buy_side
       String.eqb Ascii.eqb Bool.eqb orb].
  split; [|split; [|split]].
  - split; [exact Hv|]. split; [exact Hbid|]. split; [lra|].
    split; discriminate.
  - split; [exact Hv|]. split; [exact Hask|]. split; [lra|].
    split; discriminate.
  - intros Hg. apply decimal_gtb_iff in Hg.
    destruct (decimal_min_spec v (long_position s)) as [[Hc ->]|[Hc ->]].
    + split; [lra|]. split; [exact Hask2|]. split; [lra|].
      split; [intros _; lra | discriminate].
    + split; [lra|]. split; [exact Hask2|]. split; [lra|].
      split; [intros _; lra | discriminate].
  - intros Hg. apply decimal_gtb_iff in Hg.
    destruct (decimal_min_spec v (short_position s)) as [[Hc ->]|[Hc ->]].
    + split; [lra|]. split; [exact Hbid2|]. split; [lra|].
      split; [discriminate | intros _; lra].
    + split; [lra|]. split; [exact Hbid2|]. split; [lra|].
      split; [discriminate | intros _; lra].
Qed.

Ltac sides_distinct :=
  cbn [map quote_side];
  repeat (apply NoDup_cons; [cbn [In]; intuition discriminate|]);
  apply NoDup_nil.

(** [generate_orders] on a usable configuration, a well-formed book and a
    positive mark price. *)
Lemma generate_orders_fits (cfg : Config) (s : Exchange)
      (monitor : option (VolatilityMonitor F)) (last_order_time : Z)
      (price : Q) (timestamp : Z) :
  config_ok cfg -> book_ok s -> 0 < price ->
  exists orders t',
    generate_orders' cfg s monitor last_order_time price timestamp
    = Ok (orders, t')
    /\ Forall (quote_fits s price) orders
    /\ NoDup (map quote_side orders)
    /\ (t' = last_order_time
        \/ (t' = timestamp
            /\ should_place_orders cfg last_order_time timestamp = true))
    /\ (forall stops,
           check_position_stop_loss cfg s price = Ok stops ->
           stops <> [] -> orders = stops /\ t' = last_order_time).
Proof.
  intros Hcfg Hbook Hp.
  pose proof Hcfg as (Hlev & Hmin & _).
  unfold generate_orders.
  destruct (stop_loss_orders_shape cfg s price Hbook)
    as (bl & bs & Hsl & Hbl & Hbs).
  rewrite Hsl. cbn [bind].
  assert (Hfl : bl = true ->
                quote_fits s price
                  (mk_quote "sell_long" (long_position s) price)).
  { intros H. apply Hbl in H. destruct H as [_ [H _]].
    apply stop_quote_fits_long; assumption. }
  assert (Hfs : bs = true ->
                quote_fits s price
                  (mk_quote "buy_short" (short_position s) price)).
  { intros H. apply Hbs in H. destruct H as [_ [H _]].
    apply stop_quote_fits_short; assumption. }
  assert (Hstops : forall orders t',
             (forall stops,
                 @Ok (list Quote) [] = Ok stops -> stops <> [] ->
                 orders = stops /\ t' = last_order_time)).
  { intros orders t' stops H Hne. inversion H. subst. contradiction. }
  clear Hbl Hbs.
  destruct bl, bs; cbn [app] in *.
  - eexists _, _. split; [reflexivity|].
    split.
    { repeat (apply Forall_cons;
              [first [exact (Hfl eq_refl) | exact (Hfs eq_refl)]|]).
      apply Forall_nil. }
    split; [sides_distinct|].
    split; [left; reflexivity|].
    intros stops H _. inversion H. split; reflexivity.
  - eexists _, _. split; [reflexivity|].
    split.
    { repeat (apply Forall_cons;
              [first [exact (Hfl eq_refl) | exact (Hfs eq_refl)]|]).
      apply Forall_nil. }
    split; [sides_distinct|].
    split; [left; reflexivity|].
    intros stops H _. inversion H. split; reflexivity.
  - eexists _, _. split; [reflexivity|].
    split.
    { repeat (apply Forall_cons;
              [first [exact (Hfl eq_refl) | exact (Hfs eq_refl)]|]).
      apply Forall_nil. }
    split; [sides_distinct|].
    split; [left; reflexivity|].
    intros stops H _. inversion H. split; reflexivity.
  - clear Hfl Hfs.
    destruct (position_balance_fits cfg s monitor price Hp) as [Hfit Hlen].
    destruct (check_position_balance' cfg s monitor price) as [|q rest].
    2:{ eexists _, _. split; [reflexivity|]. split; [exact Hfit|].
        destruct rest; [|cbn in Hlen; lia].
        split; [sides_distinct|]. split; [left; reflexivity|].
        apply Hstops. }
    destruct (should_place_orders cfg last_order_time timestamp) eqn:Hplace;
      cbn [negb].
    2:{ eexists _, _. split; [reflexivity|]. split; [constructor|].
        split; [constructor|]. split; [left; reflexivity|]. apply Hstops. }
    destruct (adaptive_spread_ok cfg monitor Hcfg) as (spread & Hsp & Hsok).
    rewrite Hsp. cbn [fst snd]. cbv zeta.
    rewrite (decimal_div_ok _ price) by lra. cbn [bind].
    destruct (Decimal.gtb ((long_position s + short_position s) * price) _).
    { eexists _, _. split; [reflexivity|]. split; [constructor|].
      split; [constructor|]. split; [left; reflexivity|]. apply Hstops. }
    destruct (dynamic_order_size_ok cfg s price Hlev) as (v & Hv & Hvmin & _);
      [lra|].
    rewrite Hv. cbn [bind].
    rewrite !(of_int_div_ok _ _ (effective_leverage_positive cfg s Hlev)).
    cbn [bind].
    assert (Hvpos : 0 < v) by lra.
    destruct (regular_quotes_fit s price spread v Hp Hsok Hvpos)
      as (Hq1 & Hq2 & Hq3 & Hq4).
    assert (Hfin : forall orders,
               Forall (quote_fits s price) orders ->
               NoDup (map quote_side orders) ->
               exists orders' t',
                 @Ok (list Quote * Z) (orders, timestamp) = Ok (orders', t')
                 /\ Forall (quote_fits s price) orders'
                 /\ NoDup (map quote_side orders')
                 /\ (t' = last_order_time
                     \/ (t' = timestamp /\ true = true))
                 /\ (forall stops,
                        @Ok (list Quote) [] = Ok stops -> stops <> [] ->
                        orders' = stops /\ t' = last_order_time)).
    { intros orders Hall Hnd. exists orders, timestamp.
      split; [reflexivity|]. split; [exact Hall|]. split; [exact Hnd|].
      split; [right; split; reflexivity|]. apply Hstops. }
    destruct (Decimal.ltb (long_position s) _);
      [destruct (Decimal.gtb (get_available_margin s) _)|];
      cbn [bind app];
      (destruct (Decimal.ltb (short_position s) _);
       [destruct (Decimal.gtb (get_available_margin s) _)|]);
      cbn [bind app];
      destruct (Decimal.gtb (long_position s) 0) eqn:Hgl; cbn [bind app];
      destruct (Decimal.gtb (short_position s) 0) eqn:Hgs; cbn [bind app];
      (apply Hfin;
       [repeat (apply Forall_cons;
                [first [exact Hq1 | exact Hq2
                        | exact (Hq3 eq_refl) | exact (Hq4 eq_refl)]|]);
        apply Forall_nil
       |sides_distinct]).
Qed.


(** [generate_orders] before the refresh interval has elapsed. *)
Lemma generate_orders_throttled (cfg : Config) (s : Exchange)
      (monitor : option (VolatilityMonitor F)) (last_order_time : Z)
      (price : Q) (timestamp : Z) (stops : list Quote) :
  should_place_orders cfg last_order_time timestamp = false ->
  check_position_stop_loss cfg s price = Ok stops ->
  generate_orders' cfg s monitor last_order_time price timestamp
  = Ok (match stops with
        | _ :: _ => stops
        | [] => check_position_balance' cfg s monitor price
        end, last_order_time).
Proof.
  intros Hplace Hstops. unfold generate_orders.
  rewrite Hstops. cbn [bind].
  destruct stops as [|q rest]; [|reflexivity].
  destruct (check_position_balance' cfg s monitor price); [|reflexivity].
  rewrite Hplace. reflexivity.
Qed.

(** X13.  On a usable configuration (leverage at least 1, positive minimum
    quantity, spreads in [0, 1)), a well-formed book and a positive mark
    price, [generate_orders] never raises, and every order it returns has
    a positive quantity and a positive price, is priced at or below the
    mark when it buys and at or above it when it sells, and closes no more
    than is held.  It returns at most one order per side.
    [last_order_time] is either kept or set to the call's timestamp, and
    it is set only when the refresh interval has elapsed:
    order_refresh_time <= timestamp - last_order_time.  Before that,
    nothing but stop-loss and balance orders is returned: the result is
    what [check_position_stop_loss] returns when that is not empty, else
    what [check_position_balance] returns.  When the stop loss returns
    orders they are the result and [last_order_time] is kept. *)
Theorem generate_orders_fit_the_book :
  forall (cfg : Config) (s : Exchange)
         (monitor : option (VolatilityMonitor F)) (last_order_time : Z)
         (price : Q) (timestamp : Z),
    config_ok cfg -> book_ok s -> 0 < price ->
    exists orders t',
      generate_orders' cfg s monitor last_order_time price timestamp
      = Ok (orders, t')
      /\ Forall (quote_fits s price) orders
      /\ NoDup (map quote_side orders)
      /\ (t' = last_order_time
          \/ (t' = timestamp
              /\ order_refresh_time cfg
                 <= inject_Z (timestamp - last_order_time)))
      /\ (inject_Z (timestamp - last_order_time) < order_refresh_time cfg ->
          t' = last_order_time
          /\ forall stops,
              check_position_stop_loss cfg s price = Ok stops ->
              orders
              = match stops with
                | _ :: _ => stops
                | [] => check_position_balance' cfg s monitor price
                end)
      /\ (forall stops,
             check_position_stop_loss cfg s price = Ok stops ->
             stops <> [] -> orders = stops /\ t' = last_order_time).
Proof.
  intros cfg s monitor last_order_time price timestamp Hcfg Hbook Hp.
  destruct (generate_orders_fits cfg s monitor last_order_time price
                                 timestamp Hcfg Hbook Hp)
    as (orders & t' & Hrun & Hfit & Hsides & Htime & Hstops).
  exists orders, t'. split; [exact Hrun|]. split; [exact Hfit|].
  split; [exact Hsides|].
  split.
  { destruct Htime as [H|[H Hplace]]; [left; exact H|].
    right. split; [exact H|].
    unfold should_place_orders in Hplace.
    apply decimal_geb_iff. exact Hplace. }
  split; [|exact Hstops].
  intros Hearly.
  assert (Hplace : should_place_orders cfg last_order_time timestamp = false).
  { unfold should_place_orders.
    destruct (Decimal.geb (inject_Z (timestamp - last_order_time))
                          (order_refresh_time cfg)) eqn:Hg; [|reflexivity].
    apply decimal_geb_iff in Hg. lra. }
  assert (Hone : forall stops,
             check_position_stop_loss cfg s price = Ok stops ->
             orders = match stops with
                      | _ :: _ => stops
                      | [] => check_position_balance' cfg s monitor price
                      end
             /\ t' = last_order_time).
  { intros stops Hs.
    pose proof (generate_orders_throttled cfg s monitor last_order_time
                  price timestamp stops Hplace Hs) as Hthr.
    rewrite Hrun in Hthr. inversion Hthr. split; reflexivity. }
  split.
  - destruct Htime as [H|[H Hplace']]; [exact H|].
    unfold should_place_orders in Hplace, Hplace'. congruence.
  - intros stops Hs. exact (proj1 (Hone stops Hs)).
Qed.

Lemma quote_fits_ok (s : Exchange) (price : Q) (orders : list Quote) :
  Forall (quote_fits s price) orders -> quotes_ok orders.
Proof.
  intros H. unfold quotes_ok. apply (Forall_impl _ (P := quote_fits s price));
    [|exact H].
  intros q (Ha & Hpr & _). split; assumption.
Qed.

Lemma place_orders_batch_config (s : Exchange) (orders : list Quote) :
  same_config s (place_orders_batch s orders)
  /\ liquidation_events (place_orders_batch s orders) = liquidation_events s.
Proof.
  unfold same_config, place_orders_batch. attrs.
  repeat split; reflexivity.
Qed.

(** One sub-point of the candle loop. *)
Lemma process_sub_point_ok (cfg : Config) (s : Exchange)
      (monitor : option (VolatilityMonitor F))
      (last_order_time kline_timestamp j : Z) (price high low : Q) :
  config_ok cfg -> exchange_ok s -> 0 < price ->
  exists (liquidated : bool) (s' : Exchange) (t' : Z),
    process_sub_point' cfg s monitor last_order_time kline_timestamp j
                       price high low
    = Ok (liquidated, s', t')
    /\ exchange_ok s'
    /\ current_price s' = price
    /\ margin_balance s' = margin_balance s
    /\ (liquidated = true ->
        long_position s' == 0 /\ short_position s' == 0
        /\ balance s' = 0
        /\ active_buy_orders s' = [] /\ active_sell_orders s' = [])
    /\ (liquidated = false ->
        liquidation_events s' = liquidation_events s)
    /\ equity_history s' = equity_history s.
Proof.
  intros Hcfg Hok Hp.
  unfold process_sub_point. cbv zeta.
  fold (sub_timestamp_of kline_timestamp j).
  set (ts := sub_timestamp_of kline_timestamp j).
  set (s1 := set_current_price price s).
  assert (Hok1 : exchange_ok s1).
  { unfold exchange_ok, book_ok, payout_day_ok, s1 in *. attrs. exact Hok. }
  assert (Hprice1 : current_price s1 = price) by (unfold s1; attrs; reflexivity).
  assert (Hmb1 : margin_balance s1 = margin_balance s)
    by (unfold s1; attrs; reflexivity).
  assert (Hle1 : liquidation_events s1 = liquidation_events s)
    by (unfold s1; attrs; reflexivity).
  assert (Heh1 : equity_history s1 = equity_history s)
    by (unfold s1; attrs; reflexivity).
  destruct (liquidation_book s1 ts Hok1)
    as (b & s2 & Hliq & Hok2 & Hcfg2 & Htrue & Hfalse).
  rewrite Hliq. cbn [bind fst snd].
  destruct b.
  - exists true, s2, last_order_time. split; [reflexivity|].
    split; [exact Hok2|].
    destruct Hcfg2 as (Hmb & _ & Hcp & _ & _ & _ & _ & _ & Heh).
    split; [congruence|]. split; [congruence|].
    split; [intros _; exact (Htrue eq_refl)|].
    split; [discriminate | congruence].
  - rewrite (Hfalse eq_refl) in *. clear Hfalse Htrue Hliq Hcfg2 Hok2 s2.
    pose proof Hok1 as (Hbook1 & Hday1 & _).
    destruct (generate_orders_fits cfg s1 monitor last_order_time price ts
                                   Hcfg Hbook1 Hp)
      as (orders & t' & Hgen & Hfit & _).
    rewrite Hgen. cbn [bind fst snd].
    set (s3 := match orders with
               | [] => s1
               | _ :: _ => place_orders_batch s1 orders
               end).
    assert (H3 : exchange_ok s3 /\ same_config s1 s3
                 /\ liquidation_events s3 = liquidation_events s1).
    { unfold s3. destruct orders as [|q rest].
      - split; [exact Hok1|]. split; [apply same_config_refl | reflexivity].
      - split.
        + apply place_orders_batch_ok; [exact Hbook1 | exact Hday1|].
          exact (quote_fits_ok _ _ _ Hfit).
        + apply place_orders_batch_config. }
    destruct H3 as (Hok3 & Hcfg3 & Hle3).
    destruct (fast_order_matching_book s3 high low ts Hok3)
      as (n & s4 & Hm & Hok4 & Hcfg4 & Hle4 & _).
    rewrite Hm. cbn [bind fst snd].
    exists false, s4, t'. split; [reflexivity|]. split; [exact Hok4|].
    destruct Hcfg3 as (Hmb3 & _ & Hcp3 & _ & _ & _ & _ & _ & Heh3).
    destruct Hcfg4 as (Hmb4 & _ & Hcp4 & _ & _ & _ & _ & _ & Heh4).
    split; [congruence|]. split; [congruence|].
    split; [discriminate|].
    split; [intros _; congruence | congruence].
Qed.

(** The sub-point loop of one candle. *)
Lemma run_sub_points_ok
      (cfg : Config) (monitor : option (VolatilityMonitor F))
      (kline_timestamp : Z) (price_trajectory : list (Q * Q * Q)) :
  forall (s : Exchange) (last_order_time j : Z),
    config_ok cfg -> exchange_ok s ->
    Forall (fun point => 0 < fst (fst point)) price_trajectory ->
    exists (liquidated : bool) (s' : Exchange) (t' : Z),
      run_sub_points' cfg s monitor last_order_time kline_timestamp j
                      price_trajectory
      = Ok (liquidated, s', t')
      /\ exchange_ok s'
      /\ margin_balance s' = margin_balance s
      /\ (liquidated = true ->
          long_position s' == 0 /\ short_position s' == 0
          /\ balance s' = 0
          /\ active_buy_orders s' = [] /\ active_sell_orders s' = [])
      /\ (liquidated = false ->
          liquidation_events s' = liquidation_events s
          /\ current_price s' = last_price (current_price s) price_trajectory)
      /\ equity_history s' = equity_history s.
Proof.
  induction price_trajectory as [|[[price high] low] rest IH];
    intros s last_order_time j Hcfg Hok Hall.
  - exists false, s, last_order_time. split; [reflexivity|].
    split; [exact Hok|]. split; [reflexivity|].
    split; [discriminate|]. split; [|reflexivity].
    intros _. split; reflexivity.
  - inversion Hall as [|p l Hp Hrest]; subst. cbn [fst] in Hp.
    cbn [run_sub_points].
    destruct (process_sub_point_ok cfg s monitor last_order_time
                kline_timestamp j price high low Hcfg Hok Hp)
      as (b & s1 & t1 & Hstep & Hok1 & Hcp1 & Hmb1 & Htrue & Hfalse & Heh1).
    rewrite Hstep. cbn [bind fst snd].
    destruct b.
    + exists true, s1, t1. split; [reflexivity|]. split; [exact Hok1|].
      split; [exact Hmb1|]. split; [exact Htrue|].
      split; [discriminate | exact Heh1].
    + destruct (IH s1 t1 (j + 1)%Z Hcfg Hok1 Hrest)
        as (b' & s' & t' & Hrun & Hok' & Hmb' & Htrue' & Hfalse' & Heh').
      exists b', s', t'. split; [exact Hrun|]. split; [exact Hok'|].
      split; [congruence|]. split; [exact Htrue'|].
      split; [|congruence].
      intros Hb. destruct (Hfalse' Hb) as [Hle Hcp].
      split; [rewrite Hle; exact (Hfalse eq_refl)|].
      rewrite Hcp, Hcp1. reflexivity.
Qed.

(** X14.  The sub-point loop of one candle, on a usable configuration, a
    well-formed exchange and positive sub-point prices, never raises,
    whatever the highs and lows and however many sub-points there are, and
    leaves the exchange well formed with its margin balance untouched.
    When it stops on a liquidation the book is flat, the balance is 0 and
    no order rests; otherwise no liquidation event was recorded and the
    mark price is the price of the last sub-point. *)
Theorem sub_point_loop_is_safe :
  forall (cfg : Config) (monitor : option (VolatilityMonitor F))
         (kline_timestamp : Z) (price_trajectory : list (Q * Q * Q))
         (s : Exchange) (last_order_time j : Z),
    config_ok cfg -> exchange_ok s ->
    Forall (fun point => 0 < fst (fst point)) price_trajectory ->
    exists (liquidated : bool) (s' : Exchange) (t' : Z),
      run_sub_points' cfg s monitor last_order_time kline_timestamp j
                      price_trajectory
      = Ok (liquidated, s', t')
      /\ exchange_ok s'
      /\ margin_balance s' = margin_balance s
      /\ (liquidated = true ->
          long_position s' == 0 /\ short_position s' == 0
          /\ balance s' = 0
          /\ active_buy_orders s' = [] /\ active_sell_orders s' = [])
      /\ (liquidated = false ->
          liquidation_events s' = liquidation_events s
          /\ current_price s' = last_price (current_price s) price_trajectory).
Proof.
  intros cfg monitor kline_timestamp price_trajectory s last_order_time j
         Hcfg Hok Hall.
  destruct (run_sub_points_ok cfg monitor kline_timestamp price_trajectory
              s last_order_time j Hcfg Hok Hall)
    as (b & s' & t' & Hrun & Hok' & Hmb & Htrue & Hfalse & _).
  exists b, s', t'. split; [exact Hrun|]. split; [exact Hok'|].
  split; [exact Hmb|]. split; [exact Htrue | exact Hfalse].
Qed.

End StrategyProperties.

(** ** Risk monitor *)

(** The end-of-candle risk monitor on a well-formed book. *)
Lemma risk_monitor_cases (cfg : Config) (s : Exchange) (liquidated : bool)
      (peak_equity : Q) (kline_timestamp : Z) :
  book_ok s -> payout_day_ok s ->
  exists (stopped : bool) (s' : Exchange) (peak' : Q),
    risk_monitor cfg s liquidated peak_equity kline_timestamp
    = Ok (stopped, s', peak')
    /\ peak_equity <= peak'
    /\ (peak' = peak_equity \/ peak' = get_equity s)
    /\ (enable_stop_loss cfg = true -> liquidated = false ->
        get_equity s <= peak')
    /\ (stopped = true <->
        enable_stop_loss cfg = true /\ liquidated = false
        /\ (get_equity s <= min_equity cfg
            \/ (0 < peak'
                /\ max_drawdown cfg * peak' <= peak' - get_equity s)
            \/ (peak' <= 0 /\ max_drawdown cfg <= 0)))
    /\ (stopped = true ->
        long_position s' == 0 /\ short_position s' == 0
        /\ book_ok s'
        /\ active_buy_orders s' = active_buy_orders s
        /\ active_sell_orders s' = active_sell_orders s)
    /\ (stopped = false -> s' = s)
    /\ same_config s s'.
Proof.
  intros Hbook Hday.
  unfold risk_monitor.
  destruct (enable_stop_loss cfg); cbn [andb];
    [destruct liquidated; cbn [negb]|].
  2:{ cbv zeta.
      set (equity_now := get_equity s).
      set (peak' := if Decimal.gtb equity_now peak_equity
                    then equity_now else peak_equity).
      assert (Hpeak : peak_equity <= peak' /\ equity_now <= peak'
                      /\ (peak' = peak_equity \/ peak' = equity_now)).
      { unfold peak'. destruct (Decimal.gtb equity_now peak_equity) eqn:Hg.
        - apply decimal_gtb_iff in Hg.
          split; [lra|]. split; [lra|]. right; reflexivity.
        - apply decimal_gtb_false_iff in Hg.
          split; [lra|]. split; [lra|]. left; reflexivity. }
      destruct Hpeak as (Hp1 & Hp2 & Hp3).
      assert (Hdd : exists dd,
                 (if Decimal.gtb peak' 0
                  then Decimal.div (peak' - equity_now) peak' else Ok 0)
                 = Ok dd
                 /\ (Decimal.geb dd (max_drawdown cfg) = true <->
                     (0 < peak'
                      /\ max_drawdown cfg * peak' <= peak' - equity_now)
                     \/ (peak' <= 0 /\ max_drawdown cfg <= 0))).
      { destruct (Decimal.gtb peak' 0) eqn:Hg.
        - apply decimal_gtb_iff in Hg.
          rewrite decimal_div_ok by lra. eexists. split; [reflexivity|].
          rewrite (ratio_geb_iff _ _ _ Hg). split.
          + intros H. left. split; assumption.
          + intros [[_ H]|[H _]]; [exact H | lra].
        - apply decimal_gtb_false_iff in Hg.
          exists 0. split; [reflexivity|].
          rewrite decimal_geb_iff. split.
          + intros H. right. split; assumption.
          + intros [[H _]|[_ H]]; [lra | exact H]. }
      destruct Hdd as (dd & Hdd & Hgeb). rewrite Hdd. cbn [bind].
      pose proof (decimal_leb_iff equity_now (min_equity cfg)) as Hleb.
      destruct (Decimal.leb equity_now (min_equity cfg)
                || Decimal.geb dd (max_drawdown cfg)) eqn:Hstop.
      - destruct (close_all_positions_flattens_books s kline_timestamp
                                                     Hbook Hday)
          as (s' & Hclose & Hl & Hs & Hbook' & Hb & Ha & Hsame).
        rewrite Hclose. cbn [bind].
        exists true, s', peak'. split; [reflexivity|].
        split; [exact Hp1|]. split; [exact Hp3|].
        split; [intros _ _; exact Hp2|].
        split.
        { split; [|reflexivity]. intros _.
          split; [reflexivity|]. split; [reflexivity|].
          apply orb_true_iff in Hstop. destruct Hstop as [H|H].
          - left. apply Hleb. exact H.
          - right. apply Hgeb. exact H. }
        split; [|split; [discriminate | exact Hsame]].
        intros _. split; [exact Hl|]. split; [exact Hs|].
        split; [exact Hbook'|]. split; assumption.
      - exists false, s, peak'. split; [reflexivity|].
        split; [exact Hp1|]. split; [exact Hp3|].
        split; [intros _ _; exact Hp2|].
        split.
        { split; [discriminate|]. intros (_ & _ & H).
          apply orb_false_iff in Hstop. destruct Hstop as [H1 H2].
          destruct H as [H|H].
          - apply Hleb in H. congruence.
          - apply Hgeb in H. congruence. }
        split; [discriminate|].
        split; [reflexivity | apply same_config_refl]. }
  - exists false, s, peak_equity. split; [reflexivity|].
    split; [lra|]. split; [left; reflexivity|].
    split; [intros _ H; discriminate H|].
    split; [split; [discriminate | intros (_ & H & _); discriminate H]|].
    split; [discriminate|].
    split; [reflexivity | apply same_config_refl].
  - exists false, s, peak_equity. split; [reflexivity|].
    split; [lra|]. split; [left; reflexivity|].
    split; [intros H; discriminate H|].
    split; [split; [discriminate | intros (H & _); discriminate H]|].
    split; [discriminate|].
    split; [reflexivity | apply same_config_refl].
Qed.

(** X15.  The end-of-candle risk monitor on a well-formed exchange never
    raises: the drawdown is only divided by a positive peak.  The peak
    never decreases and, when the monitor runs, is at least the current
    equity.  The run is stopped exactly when the monitor is enabled, no
    liquidation happened, and the equity is at most min_equity, or the
    peak is positive and equity <= peak - max_drawdown * peak, or the peak
    is not positive and max_drawdown <= 0.  A stop leaves the book flat
    and the resting orders in place; otherwise the exchange is
    untouched. *)
Theorem risk_monitor_stops_and_flattens :
  forall (cfg : Config) (s : Exchange) (liquidated : bool)
         (peak_equity : Q) (kline_timestamp : Z),
    book_ok s -> payout_day_ok s ->
    exists (stopped : bool) (s' : Exchange) (peak' : Q),
      risk_monitor cfg s liquidated peak_equity kline_timestamp
      = Ok (stopped, s', peak')
      /\ peak_equity <= peak'
      /\ (peak' = peak_equity \/ peak' = get_equity s)
      /\ (enable_stop_loss cfg = true -> liquidated = false ->
          get_equity s <= peak')
      /\ (stopped = true <->
          enable_stop_loss cfg = true /\ liquidated = false
          /\ (get_equity s <= min_equity cfg
              \/ (0 < peak'
                  /\ max_drawdown cfg * peak' <= peak' - get_equity s)
              \/ (peak' <= 0 /\ max_drawdown cfg <= 0)))
      /\ (stopped = true ->
          long_position s' == 0 /\ short_position s' == 0
          /\ book_ok s'
          /\ active_buy_orders s' = active_buy_orders s
          /\ active_sell_orders s' = active_sell_orders s)
      /\ (stopped = false -> s' = s).
Proof.
  intros cfg s liquidated peak_equity kline_timestamp Hbook Hday.
  destruct (risk_monitor_cases cfg s liquidated peak_equity kline_timestamp
                               Hbook Hday)
    as (stopped & s' & peak' & Hrun & H1 & H2 & H3 & H4 & H5 & H6 & _).
  exists stopped, s', peak'.
  split; [exact Hrun|]. split; [exact H1|]. split; [exact H2|].
  split; [exact H3|]. split; [exact H4|]. split; [exact H5 | exact H6].
Qed.

(** ** The candle loop *)

Lemma record_equity_frame (s : Exchange) (timestamp : Z) :
  exchange_ok s ->
  exchange_ok (record_equity s timestamp)
  /\ same_books s (record_equity s timestamp)
  /\ margin_balance (record_equity s timestamp) = margin_balance s
  /\ long_position (record_equity s timestamp) = long_position s
  /\ short_position (record_equity s timestamp) = short_position s
  /\ balance (record_equity s timestamp) = balance s
  /\ equity_history (record_equity s timestamp)
     = equity_history s ++ [(timestamp, balance s + get_unrealized_pnl s)].
Proof.
  intros Hok.
  unfold exchange_ok, book_ok, payout_day_ok, same_books, record_equity in *.
  attrs. split; [exact Hok|].
  split; [repeat split; reflexivity|].
  repeat split; reflexivity.
Qed.

Section BacktestProperties.

Variable F : Type.
Variable num_ge : F -> F -> bool.
Variable fsub : F -> F -> F.
Variable fabs : F -> F.
Variable fgt : F -> F -> bool.
Variable fsum : list F -> F.
Variable fdiv_len : F -> nat -> F.
Variable fdiv : F -> F -> F.
Variable fmul100 : F -> F.
Variable fpositive : F -> bool.
Variable fge : F -> F -> bool.
Variable fzero : F.
Variable float_of_decimal : Q -> F.
Variable decimal_of_float : F -> Q.

Local Abbreviation process_candle' :=
  (process_candle num_ge fsub fabs fgt fsum fdiv_len fdiv fmul100 fpositive
                  fge fzero float_of_decimal decimal_of_float).
Local Abbreviation run_candles' :=
  (run_candles num_ge fsub fabs fgt fsum fdiv_len fdiv fmul100 fpositive
               fge fzero float_of_decimal decimal_of_float).
Local Abbreviation update_volatility_monitor' :=
  (update_volatility_monitor fsub fabs fgt fsum fdiv_len).
Local Abbreviation feed_monitor' := (feed_monitor fsub fabs fgt fsum fdiv_len).

Lemma trajectory_positive (o h l c prev_close : F) :
  0 < decimal_of_float prev_close ->
  0 < decimal_of_float o -> 0 < decimal_of_float h ->
  0 < decimal_of_float l -> 0 < decimal_of_float c ->
  Forall (fun point : Q * Q * Q => 0 < fst (fst point))
         (map (decimal_point decimal_of_float)
              (get_price_trajectory_vectorized num_ge o h l c prev_close)).
Proof.
  intros Hp Ho Hh Hl Hc. unfold get_price_trajectory_vectorized.
  destruct (num_ge c o); cbn [map decimal_point sample_price fst];
    repeat (apply Forall_cons; [assumption|]); apply Forall_nil.
Qed.

(** One candle. *)
Lemma process_candle_ok (cfg : Config) (st : Backtest F)
      (k : Candle F) :
  config_ok cfg -> exchange_ok (bt_exchange st) ->
  0 < decimal_of_float (bt_prev_close st) ->
  candle_positive decimal_of_float k ->
  exists st',
    process_candle' cfg st k = Ok st'
    /\ exchange_ok (bt_exchange st')
    /\ bt_prev_close st' = candle_close k
    /\ margin_balance (bt_exchange st') = margin_balance (bt_exchange st)
    /\ bt_peak_equity st <= bt_peak_equity st'
    /\ (exists e,
           equity_history (bt_exchange st')
           = equity_history (bt_exchange st)
             ++ (if recordable (candle_timestamp k)
                 then [(candle_timestamp k, e)] else []))
    /\ bt_monitor st'
       = update_volatility_monitor' (bt_monitor st) (candle_timestamp k)
           (candle_high k) (candle_low k) (candle_close k)
    /\ (bt_liquidated st = false -> bt_liquidated st' = true ->
        long_position (bt_exchange st') == 0
        /\ short_position (bt_exchange st') == 0
        /\ balance (bt_exchange st') = 0
        /\ active_buy_orders (bt_exchange st') = []
        /\ active_sell_orders (bt_exchange st') = [])
    /\ (bt_stopped_by_risk st = false -> bt_stopped_by_risk st' = true ->
        long_position (bt_exchange st') == 0
        /\ short_position (bt_exchange st') == 0).
Proof.
  intros Hcfg Hok Hprev (Ho & Hh & Hl & Hc).
  unfold process_candle. cbv zeta.
  destruct (run_sub_points_ok F fdiv fmul100 fpositive fge fzero
              float_of_decimal cfg (bt_monitor st) (candle_timestamp k)
              _ (bt_exchange st) (bt_last_order_time st) 0%Z Hcfg Hok
              (trajectory_positive _ _ _ _ _ Hprev Ho Hh Hl Hc))
    as (b & s1 & t1 & Hrun & Hok1 & Hmb1 & Htrue & _ & Heh1).
  rewrite Hrun. cbn [bind fst snd].
  fold (recordable (candle_timestamp k)).
  set (s2 := if recordable (candle_timestamp k)
             then record_equity s1 (candle_timestamp k) else s1).
  assert (H2 : exchange_ok s2 /\ same_books s1 s2
               /\ margin_balance s2 = margin_balance s1
               /\ long_position s2 = long_position s1
               /\ short_position s2 = short_position s1
               /\ balance s2 = balance s1
               /\ equity_history s2
                  = equity_history s1
                    ++ (if recordable (candle_timestamp k)
                        then [(candle_timestamp k,
                               balance s1 + get_unrealized_pnl s1)]
                        else [])).
  { unfold s2. destruct (recordable (candle_timestamp k)).
    - apply record_equity_frame. exact Hok1.
    - split; [exact Hok1|].
      split; [unfold same_books; repeat split; reflexivity|].
      rewrite app_nil_r. repeat split; reflexivity. }
  destruct H2 as (Hok2 & Hbooks2 & Hmb2 & Hl2 & Hs2 & Hb2 & Heh2).
  pose proof Hok2 as (Hbook2 & Hday2 & Hbuys2 & Hsells2).
  destruct (risk_monitor_cases cfg s2 (if b then true else bt_liquidated st)
              (bt_peak_equity st) (candle_timestamp k) Hbook2 Hday2)
    as (stopped & s3 & peak' & Hrisk & Hpk & _ & _ & Hiff & Hstop & Hkeep
        & Hcfg3).
  rewrite Hrisk. cbn [bind fst snd].
  eexists. split; [reflexivity|].
  cbn [bt_exchange bt_prev_close bt_peak_equity bt_monitor bt_liquidated
       bt_stopped_by_risk].
  assert (Hok3 : exchange_ok s3).
  { destruct stopped.
    - destruct (Hstop eq_refl) as (_ & _ & Hbook3 & Hb3 & Hs3).
      split; [exact Hbook3|].
      split; [exact (payout_day_ok_same_config _ _ Hcfg3 Hday2)|].
      rewrite Hb3, Hs3. split; assumption.
    - rewrite (Hkeep eq_refl). exact Hok2. }
  destruct Hcfg3 as (Hmb3 & _ & _ & _ & _ & _ & _ & _ & Heh3).
  split; [exact Hok3|]. split; [reflexivity|].
  split; [congruence|]. split; [exact Hpk|].
  split.
  { eexists. rewrite Heh3, Heh2, Heh1. reflexivity. }
  split; [reflexivity|].
  split.
  - intros Hwas Hnow. rewrite Hwas in *.
    destruct b; [|discriminate Hnow].
    destruct stopped.
    { exfalso. destruct (proj1 Hiff eq_refl) as (_ & H & _). discriminate H. }
    rewrite (Hkeep eq_refl).
    destruct (Htrue eq_refl) as (A1 & A2 & A3 & A4 & A5).
    destruct Hbooks2 as (B1 & B2 & _).
    rewrite Hl2, Hs2, Hb2, B1, B2.
    split; [exact A1|]. split; [exact A2|]. split; [exact A3|].
    split; assumption.
  - intros Hwas Hnow. rewrite Hwas in Hnow.
    destruct stopped; [|discriminate Hnow].
    destruct (Hstop eq_refl) as (A1 & A2 & _). split; assumption.
Qed.


(** X17.  The candle loop on a usable configuration, a well-formed
    exchange and candles whose four prices (and the first previous close)
    convert to positive decimals never raises, however many candles there
    are, and leaves the exchange well formed with its margin balance
    untouched.  It processes a prefix of the candles and stops early only
    on a liquidation or a risk stop; the equity history gains one sample
    per processed candle whose timestamp is in [0, 2147483647], in order;
    the monitor has been fed exactly the processed candles; the peak equity
    never decreases.  After a liquidation the book is flat, the balance is
    0 and no order rests; after a risk stop the book is flat. *)
Theorem backtest_loop_is_safe :
  forall (cfg : Config) (candles : list (Candle F)) (st : Backtest F),
    config_ok cfg -> exchange_ok (bt_exchange st) ->
    0 < decimal_of_float (bt_prev_close st) ->
    bt_liquidated st = false -> bt_stopped_by_risk st = false ->
    Forall (candle_positive decimal_of_float) candles ->
    exists (st' : Backtest F) (n : nat),
      run_candles' cfg st candles = Ok st'
      /\ exchange_ok (bt_exchange st')
      /\ margin_balance (bt_exchange st') = margin_balance (bt_exchange st)
      /\ bt_peak_equity st <= bt_peak_equity st'
      /\ (n <= List.length candles)%nat
      /\ ((n < List.length candles)%nat ->
          bt_liquidated st' || bt_stopped_by_risk st' = true)
      /\ map fst (equity_history (bt_exchange st'))
         = map fst (equity_history (bt_exchange st))
           ++ filter recordable (map candle_timestamp (firstn n candles))
      /\ bt_monitor st'
         = option_map
             (fun vm => feed_monitor' vm (map bar_of_candle (firstn n candles)))
             (bt_monitor st)
      /\ (bt_liquidated st' = true ->
          long_position (bt_exchange st') == 0
          /\ short_position (bt_exchange st') == 0
          /\ balance (bt_exchange st') = 0
          /\ active_buy_orders (bt_exchange st') = []
          /\ active_sell_orders (bt_exchange st') = [])
      /\ (bt_stopped_by_risk st' = true ->
          long_position (bt_exchange st') == 0
          /\ short_position (bt_exchange st') == 0).
Proof.
  intros cfg candles.
  induction candles as [|k rest IH];
    intros st Hcfg Hok Hprev Hliq Hstop Hall.
  - exists st, 0%nat. split; [reflexivity|]. split; [exact Hok|].
    split; [reflexivity|]. split; [lra|]. split; [cbn; lia|].
    split; [cbn; lia|].
    split; [cbn [firstn map filter]; rewrite app_nil_r; reflexivity|].
    split; [destruct (bt_monitor st); reflexivity|].
    rewrite Hliq, Hstop. split; discriminate.
  - inversion Hall as [|k0 l0 Hk Hrest]; subst.
    destruct (process_candle_ok cfg st k Hcfg Hok Hprev Hk)
      as (st1 & Hstep & Hok1 & Hprev1 & Hmb1 & Hpk1 & (e & Heh1) & Hmon1
          & Hflat1 & Hrisk1).
    cbn [run_candles]. rewrite Hstep. cbn [bind].
    assert (Hts : map fst (equity_history (bt_exchange st1))
                  = map fst (equity_history (bt_exchange st))
                    ++ filter recordable [candle_timestamp k]).
    { rewrite Heh1, map_app. cbn [filter].
      destruct (recordable (candle_timestamp k)); reflexivity. }
    assert (Hfed : bt_monitor st1
                   = option_map (fun vm => feed_monitor' vm [bar_of_candle k])
                                (bt_monitor st)).
    { rewrite Hmon1. destruct (bt_monitor st); reflexivity. }
    destruct (bt_liquidated st1 || bt_stopped_by_risk st1) eqn:Hflag.
    + exists st1, 1%nat. split; [reflexivity|]. split; [exact Hok1|].
      split; [exact Hmb1|]. split; [exact Hpk1|].
      split; [cbn; lia|]. split; [intros _; exact Hflag|].
      split; [cbn [firstn map]; exact Hts|].
      split; [cbn [firstn map]; exact Hfed|].
      split; [exact (Hflat1 Hliq) | exact (Hrisk1 Hstop)].
    + apply orb_false_iff in Hflag. destruct Hflag as [Hliq1 Hstop1].
      assert (Hprev1' : 0 < decimal_of_float (bt_prev_close st1)).
      { rewrite Hprev1. destruct Hk as (_ & _ & _ & Hc). exact Hc. }
      destruct (IH st1 Hcfg Hok1 Hprev1' Hliq1 Hstop1 Hrest)
        as (st' & n & Hrun & Hok' & Hmb' & Hpk' & Hn & Hearly & Heh' & Hmon'
            & Hflat' & Hrisk').
      exists st', (S n). split; [exact Hrun|]. split; [exact Hok'|].
      split; [congruence|]. split; [lra|].
      split; [cbn [List.length]; lia|].
      split; [intros Hlt; apply Hearly; cbn [List.length] in Hlt; lia|].
      split.
      { cbn [firstn map filter]. rewrite Heh', Hts, <- app_assoc.
        cbn [filter].
        destruct (recordable (candle_timestamp k)); reflexivity. }
      split.
      { rewrite Hmon', Hfed. destruct (bt_monitor st); reflexivity. }
      split; assumption.
Qed.

(** ** The monitor's sliding window *)

Lemma tl_skipn {A : Type} (m : nat) (l : list A) :
  tl (skipn m l) = skipn (S m) l.
Proof.
  revert l. induction m as [|m IH]; intros l.
  - destruct l; reflexivity.
  - destruct l as [|a l]; [reflexivity|]. cbn [skipn]. rewrite IH.
    reflexivity.
Qed.

Lemma last_entries_length {A : Type} (k : nat) (l : list A) :
  List.length (last_entries k l) = Nat.min (List.length l) k.
Proof. unfold last_entries. rewrite length_skipn. lia. Qed.

Lemma last_entries_snoc {A : Type} (k : nat) (l : list A) (b : A) :
  last_entries k (l ++ [b])
  = if (k <=? List.length l)%nat
    then pop0 (last_entries k l ++ [b])
    else last_entries k l ++ [b].
Proof.
  unfold last_entries, pop0. rewrite length_app. cbn [List.length].
  destruct (Nat.leb_spec k (List.length l)) as [Hle|Hgt].
  - destruct k as [|k].
    + rewrite !Nat.sub_0_r, skipn_all. cbn [app tl].
      apply skipn_all2. rewrite length_app. cbn [List.length]. lia.
    + replace (List.length l + 1 - S k)%nat
        with (S (List.length l - S k)) by lia.
      rewrite skipn_app.
      replace (S (List.length l - S k) - List.length l)%nat with 0%nat
        by lia.
      change (skipn 0 [b]) with [b]. rewrite <- tl_skipn.
      destruct (skipn (List.length l - S k) l) eqn:Hs; [|reflexivity].
      exfalso.
      pose proof (length_skipn (List.length l - S k) l) as Hlen.
      rewrite Hs in Hlen. cbn [List.length] in Hlen. lia.
  - replace (List.length l + 1 - k)%nat with 0%nat by lia.
    replace (List.length l - k)%nat with 0%nat by lia.
    reflexivity.
Qed.

Lemma next_history_window (vm : VolatilityMonitor F) (bars : list (bar F))
      (timestamp : Z) (high low close : F) :
  price_history vm = last_entries (Z.to_nat (atr_period vm + 1)) bars ->
  next_history vm timestamp high low close
  = last_entries (Z.to_nat (atr_period vm + 1))
                 (bars ++ [mk_bar timestamp high low close]).
Proof.
  intros H. unfold next_history. rewrite H, last_entries_snoc.
  set (k := Z.to_nat (atr_period vm + 1)).
  assert (Hc : (len (last_entries k bars
                     ++ [mk_bar timestamp high low close])
                >? atr_period vm + 1)%Z
               = (k <=? List.length bars)%nat).
  { rewrite len_app_one. unfold len. rewrite last_entries_length.
    destruct (Nat.leb_spec k (List.length bars)) as [Hle|Hgt].
    - apply Z.gtb_lt. lia.
    - rewrite Z.gtb_ltb. apply Z.ltb_ge. lia. }
  rewrite Hc. reflexivity.
Qed.

Lemma update_price_values (vm : VolatilityMonitor F) (timestamp : Z)
      (high low close : F) :
  atr_values (update_price fsub fabs fgt fsum fdiv_len vm timestamp
                           high low close)
  = if (len (next_history vm timestamp high low close) >=? 2)%Z
    then capped_append (atr_values vm)
           (atr_of fsub fabs fgt fsum fdiv_len
                   (next_history vm timestamp high low close))
    else atr_values vm.
Proof.
  unfold update_price. fold (next_history vm timestamp high low close).
  cbn [price_history atr_period atr_values].
  destruct (len (next_history vm timestamp high low close) >=? 2)%Z eqn:H2.
  - rewrite calculate_atr_spec; [reflexivity|].
    cbn [price_history]. apply Z.geb_le in H2. lia.
  - reflexivity.
Qed.

Lemma capped_append_length (vals : list F) (atr : F) :
  (List.length vals <= 100)%nat ->
  List.length (capped_append vals atr)
  = Nat.min (S (List.length vals)) 100.
Proof.
  intros H. unfold capped_append.
  destruct (len (vals ++ [atr]) >? 100)%Z eqn:Hc.
  - apply Z.gtb_lt in Hc. rewrite len_app_one in Hc. unfold len in Hc.
    unfold pop0. destruct vals as [|v vals]; [cbn in Hc; lia|].
    cbn [app tl]. rewrite length_app. cbn [List.length] in *. lia.
  - rewrite Z.gtb_ltb in Hc. apply Z.ltb_ge in Hc.
    rewrite len_app_one in Hc. unfold len in Hc.
    rewrite length_app. cbn [List.length]. lia.
Qed.

(** X16.  A monitor created with [VolatilityMonitor(period)] and fed any
    sequence of bars keeps a sliding window: its history is the last
    period+1 bars fed, in order (nothing when period+1 <= 0).  With
    period >= 1 it holds min(n - 1, 100) ATR values after n >= 1 bars, the
    latest being the average true range over the current window; with
    period <= 0 it never computes an ATR value. *)
Theorem monitor_keeps_sliding_window :
  forall (period : Z) (bars : list (bar F)),
    let vm := feed_monitor' (new_monitor period) bars in
    let k := Z.to_nat (period + 1) in
    atr_period vm = period
    /\ price_history vm = last_entries k bars
    /\ List.length (atr_values vm)
       = (if (2 <=? k)%nat then Nat.min (List.length bars - 1) 100
          else 0%nat)
    /\ ((2 <= k)%nat -> (2 <= List.length bars)%nat ->
        exists kept,
          atr_values vm
          = kept ++ [atr_of fsub fabs fgt fsum fdiv_len
                            (last_entries k bars)]).
Proof.
  intros period bars. cbv zeta.
  induction bars as [|b bars IH] using rev_ind.
  - cbn [feed_monitor fold_left new_monitor atr_period price_history
         atr_values List.length].
    split; [reflexivity|].
    split; [unfold last_entries; rewrite skipn_nil; reflexivity|].
    split; [destruct (2 <=? Z.to_nat (period + 1))%nat; reflexivity|].
    intros _ H. cbn in H. lia.
  - unfold feed_monitor in *. rewrite fold_left_app. cbn [fold_left].
    set (vm := fold_left _ bars (new_monitor period)) in *.
    destruct IH as (Hper & Hhist & Hlen & _).
    destruct (update_price_history F fsub fabs fgt fsum fdiv_len vm
                (bar_timestamp b) (bar_high b) (bar_low b) (bar_close b))
      as [Hh Hp].
    assert (Hwin : next_history vm (bar_timestamp b) (bar_high b)
                                (bar_low b) (bar_close b)
                   = last_entries (Z.to_nat (period + 1)) (bars ++ [b])).
    { rewrite <- Hper in Hhist |- *.
      rewrite (next_history_window vm bars _ _ _ _ Hhist).
      destruct b; reflexivity. }
    pose proof (update_price_values vm (bar_timestamp b) (bar_high b)
                                    (bar_low b) (bar_close b)) as Hvals.
    rewrite Hwin in Hvals, Hh.
    split; [congruence|]. split; [exact Hh|].
    assert (Hcount : len (last_entries (Z.to_nat (period + 1)) (bars ++ [b]))
                     = Z.of_nat (Nat.min (List.length bars + 1)
                                         (Z.to_nat (period + 1)))).
    { unfold len. rewrite last_entries_length, length_app. reflexivity. }
    rewrite length_app. cbn [List.length].
    destruct (len (last_entries (Z.to_nat (period + 1)) (bars ++ [b])) >=? 2)%Z
      eqn:H2.
    + apply Z.geb_le in H2. rewrite Hcount in H2.
      assert (Hk : (2 <=? Z.to_nat (period + 1))%nat = true)
        by (apply Nat.leb_le; lia).
      rewrite Hk in *. rewrite Hvals.
      split.
      * rewrite capped_append_length by lia. lia.
      * intros _ _.
        destruct (capped_append_ends F (atr_values vm)
                    (atr_of fsub fabs fgt fsum fdiv_len
                       (last_entries (Z.to_nat (period + 1)) (bars ++ [b]))))
          as (kept & Hk' & _).
        exists kept. exact Hk'.
    + rewrite Z.geb_leb in H2. apply Z.leb_gt in H2. rewrite Hcount in H2.
      rewrite Hvals.
      split.
      * destruct (Nat.leb_spec 2 (Z.to_nat (period + 1))) as [Hk|Hk].
        -- rewrite Hlen. lia.
        -- exact Hlen.
      * intros Hk Hn. exfalso. lia.
Qed.
End BacktestProperties.

(** ** Win-rate pairing *)

Section WinRateProperties.

Variable upper : string -> string.

Lemma pair_trade_agrees (st1 : Pairing (Q * Q)) (st2 : Pairing (Q * Q * Z))
      (trade : TradeRecord) :
  pairing_agrees st1 st2 ->
  pairing_agrees (pair_trade_temp upper st1 trade)
                 (pair_trade upper st2 trade).
Proof.
  destruct st1 as [l1 s1 p1 n1], st2 as [l2 s2 p2 n2].
  unfold pairing_agrees.
  cbn [long_positions short_positions profitable_trades total_trade_pairs].
  intros (-> & -> & -> & ->).
  unfold pair_trade_temp, pair_trade.
  cbn [long_positions short_positions profitable_trades total_trade_pairs].
  destruct (String.eqb (upper (tr_side trade)) "BUY_LONG").
  { cbn [long_positions short_positions profitable_trades total_trade_pairs].
    rewrite map_app. repeat split; reflexivity. }
  destruct (String.eqb (upper (tr_side trade)) "SELL_LONG").
  { destruct l2 as [|[[p a] t] l2];
      cbn [map nonempty andb fst snd long_positions short_positions
           profitable_trades total_trade_pairs].
    2:{ repeat split; reflexivity. }
    destruct (String.eqb (upper (tr_side trade)) "SELL_SHORT").
    { cbn [long_positions short_positions profitable_trades
           total_trade_pairs].
      rewrite map_app. repeat split; reflexivity. }
    destruct (String.eqb (upper (tr_side trade)) "BUY_SHORT");
      [|repeat split; reflexivity].
    destruct s2 as [|[[p a] t] s2];
      cbn [map nonempty andb fst snd long_positions short_positions
           profitable_trades total_trade_pairs];
      repeat split; reflexivity. }
  cbn [andb].
  destruct (String.eqb (upper (tr_side trade)) "SELL_SHORT").
  { cbn [long_positions short_positions profitable_trades total_trade_pairs].
    rewrite map_app. repeat split; reflexivity. }
  destruct (String.eqb (upper (tr_side trade)) "BUY_SHORT");
    [|repeat split; reflexivity].
  destruct s2 as [|[[p a] t] s2];
    cbn [map nonempty andb fst snd long_positions short_positions
         profitable_trades total_trade_pairs];
    repeat split; reflexivity.
Qed.

Lemma pair_trade_temp_bounded (st : Pairing (Q * Q)) (trade : TradeRecord)
      (processed : Z) :
  pairing_bounded st processed ->
  pairing_bounded (pair_trade_temp upper st trade) (processed + 1).
Proof.
  destruct st as [l s p n]. unfold pairing_bounded, pair_trade_temp.
  cbn [long_positions short_positions profitable_trades total_trade_pairs].
  intros [Hp Hn].
  assert (Hsnoc : forall (x : Q * Q) (l0 : list (Q * Q)),
             len (l0 ++ [x]) = (len l0 + 1)%Z)
    by (intros; apply len_app_one).
  assert (Hcons : forall (x : Q * Q) (l0 : list (Q * Q)),
             len (x :: l0) = (len l0 + 1)%Z)
    by (intros; unfold len; cbn [List.length]; lia).
  destruct (String.eqb (upper (tr_side trade)) "BUY_LONG").
  { cbn [long_positions short_positions profitable_trades total_trade_pairs].
    rewrite Hsnoc. split; lia. }
  destruct (String.eqb (upper (tr_side trade)) "SELL_LONG").
  { destruct l as [|o l]; cbn [nonempty andb].
    2:{ cbn [long_positions short_positions profitable_trades
             total_trade_pairs].
        rewrite Hcons in Hn. destruct (Decimal.gtb _ 0); split; lia. }
    destruct (String.eqb (upper (tr_side trade)) "SELL_SHORT").
    { cbn [long_positions short_positions profitable_trades
           total_trade_pairs].
      rewrite Hsnoc. split; lia. }
    destruct (String.eqb (upper (tr_side trade)) "BUY_SHORT");
      [|cbn [andb long_positions short_positions profitable_trades
             total_trade_pairs]; split; lia].
    destruct s as [|o s]; cbn [nonempty andb];
      cbn [long_positions short_positions profitable_trades
           total_trade_pairs].
    - split; lia.
    - rewrite Hcons in Hn. destruct (Decimal.gtb _ 0); split; lia. }
  cbn [andb].
  destruct (String.eqb (upper (tr_side trade)) "SELL_SHORT").
  { cbn [long_positions short_positions profitable_trades total_trade_pairs].
    rewrite Hsnoc. split; lia. }
  destruct (String.eqb (upper (tr_side trade)) "BUY_SHORT");
    [|cbn [andb long_positions short_positions profitable_trades
           total_trade_pairs]; split; lia].
  destruct s as [|o s]; cbn [nonempty andb];
    cbn [long_positions short_positions profitable_trades
         total_trade_pairs].
  - split; lia.
  - rewrite Hcons in Hn. destruct (Decimal.gtb _ 0); split; lia.
Qed.

Lemma pairing_loops (trade_history : list TradeRecord) :
  forall (st1 : Pairing (Q * Q)) (st2 : Pairing (Q * Q * Z)) (processed : Z),
    pairing_agrees st1 st2 -> pairing_bounded st1 processed ->
    pairing_agrees (fold_left (pair_trade_temp upper) trade_history st1)
                   (fold_left (pair_trade upper) trade_history st2)
    /\ pairing_bounded (fold_left (pair_trade_temp upper) trade_history st1)
                       (processed + len trade_history).
Proof.
  induction trade_history as [|trade rest IH];
    intros st1 st2 processed Hag Hbd.
  - cbn [fold_left]. unfold len. cbn [List.length].
    rewrite Z.add_0_r. split; assumption.
  - cbn [fold_left].
    destruct (IH _ _ _ (pair_trade_agrees st1 st2 trade Hag)
                 (pair_trade_temp_bounded st1 trade processed Hbd))
      as [Hag' Hbd'].
    split; [exact Hag'|].
    replace (processed + len (trade :: rest))%Z
      with (processed + 1 + len rest)%Z; [exact Hbd'|].
    unfold len. cbn [List.length]. lia.
Qed.

(** X18.  The two copies of the win-rate pairing compute the same
    (profitable_trades, total_trade_pairs) for every trade history and
    every behaviour of [str.upper]; the profitable pairs are at most the
    pairs, and the pairs at most half the number of trades, so a win rate
    computed from them lies in [0, 1]. *)
Theorem win_rate_counts_agree :
  forall trade_history : list TradeRecord,
    count_trade_pairs_temp upper trade_history
    = count_trade_pairs upper trade_history
    /\ (0 <= fst (count_trade_pairs upper trade_history)
        <= snd (count_trade_pairs upper trade_history))%Z
    /\ (2 * snd (count_trade_pairs upper trade_history)
        <= len trade_history)%Z.
Proof.
  intros trade_history.
  unfold count_trade_pairs_temp, count_trade_pairs.
  destruct (pairing_loops trade_history
              (mk_pairing [] [] 0%Z 0%Z) (mk_pairing [] [] 0%Z 0%Z) 0%Z)
    as [(_ & _ & Hp & Hn) [Hb1 Hb2]].
  { unfold pairing_agrees. cbn. repeat split; reflexivity. }
  { unfold pairing_bounded, len. cbn. lia. }
  destruct (len trade_history >? 1)%Z.
  - cbv zeta. cbn [fst snd]. rewrite <- Hp, <- Hn.
    split; [reflexivity|]. split; [exact Hb1|].
    pose proof (Zle_0_nat (List.length
                  (long_positions
                     (fold_left (pair_trade_temp upper) trade_history
                                (mk_pairing [] [] 0%Z 0%Z))))).
    pose proof (Zle_0_nat (List.length
                  (short_positions
                     (fold_left (pair_trade_temp upper) trade_history
                                (mk_pairing [] [] 0%Z 0%Z))))).
    unfold len in *. lia.
  - cbn [fst snd]. split; [reflexivity|]. split; [lia|].
    unfold len. lia.
Qed.

End WinRateProperties.

(** ** The further properties at concrete inputs *)

(** X5 at a concrete input: [quoting_exchange] matched against high 3050,
    low 2950. *)
Lemma trading_keeps_exchange_well_formed_at_quotes :
  exchange_ok quoting_exchange
  /\ exists filled_count s',
      fast_order_matching quoting_exchange 3050 2950 1704067224
      = Ok (filled_count, s')
      /\ exchange_ok s'.
Proof.
  assert (Hok : exchange_ok quoting_exchange).
  { split; [split; [apply side_ok_held; reflexivity | apply side_ok_flat]|].
    split; [intros H; vm_compute in H; discriminate H|].
    split; repeat (apply Forall_cons; [split; reflexivity|]);
      apply Forall_nil. }
  split; [exact Hok|].
  destruct (trading_keeps_exchange_well_formed quoting_exchange Hok)
    as (_ & Hmatch & _).
  exact (Hmatch 3050 2950 1704067224%Z).
Defined.

(** X6 at a concrete input: one long unit entered and marked at 3000,
    balance and margin balance 700.  Selling half of it at 3010 moves the
    balance to 705, and the margin ratio afterwards is
    700 / (0.5 * 3000), from the margin balance 700. *)
Lemma margin_balance_never_assigned_at_batch :
  exchange_ok (long_one_at_3000 3000)
  /\ same_config (long_one_at_3000 3000)
                 (place_orders_batch (long_one_at_3000 3000) four_quotes)
  /\ exists s',
      execute_fast_trade (long_one_at_3000 3000) "sell_long" 0.5 3010
                         1704067212
      = Ok s'
      /\ balance s' == 705
      /\ margin_balance s' = 700
      /\ get_margin_ratio s' == 700 / 1500.
Proof.
  assert (Hok : exchange_ok (long_one_at_3000 3000)).
  { split; [split; [apply side_ok_held; reflexivity | apply side_ok_flat]|].
    split; [intros H; vm_compute in H; discriminate H|].
    split; apply Forall_nil. }
  split; [exact Hok|].
  destruct (margin_balance_never_assigned (long_one_at_3000 3000) Hok)
    as (Hfill & _ & _ & Hbatch & Hratio).
  split; [exact (Hbatch four_quotes)|].
  eexists. split; [vm_compute; reflexivity|].
  split; [vm_compute; reflexivity|].
  match goal with
  | |- margin_balance ?s1 = _ /\ _ =>
      assert (Hcfg : same_config (long_one_at_3000 3000) s1)
  end.
  { apply (Hfill "sell_long"%string 0.5 3010 1704067212%Z);
      [reflexivity | reflexivity | vm_compute; reflexivity]. }
  split; [destruct Hcfg as (Hmb & _); exact Hmb|].
  destruct (Hratio _ Hcfg) as [Hheld _].
  rewrite Hheld; [vm_compute; reflexivity|].
  intros H. vm_compute in H. discriminate H.
Defined.

(** X7 at a concrete input: one unit bought at 3000 on a new exchange
    with balance 700 and sold at 3010, maker fee 0: the balance is 710. *)
Lemma open_then_close_round_trip_at_3010 :
  book_ok (new_exchange 700)
  /\ long_position (new_exchange 700) == 0
  /\ exists s1 s2,
      execute_fast_trade (new_exchange 700) "buy_long" 1 3000 1704067200
      = Ok s1
      /\ execute_fast_trade s1 "sell_long" 1 3010 1704067212 = Ok s2
      /\ long_position s2 == 0
      /\ balance s2 == 710.
Proof.
  assert (Hbook : book_ok (new_exchange 700))
    by (split; apply side_ok_flat).
  assert (Hday : payout_day_ok (new_exchange 700))
    by (intros H; vm_compute in H; discriminate H).
  assert (Hoff : use_fee_rebate (new_exchange 700) = false) by reflexivity.
  assert (Hq : 0 < 1) by reflexivity.
  assert (Hp1 : 0 < 3000) by reflexivity.
  assert (Hp2 : 0 < 3010) by reflexivity.
  assert (Hflat : long_position (new_exchange 700) == 0) by reflexivity.
  split; [exact Hbook|]. split; [exact Hflat|].
  destruct (open_then_close_round_trip (new_exchange 700) 1 3000 3010
              1704067200 1704067212 Hbook Hday Hoff Hq Hp1 Hp2)
    as [Hlong _].
  destruct (Hlong Hflat) as (s1 & s2 & Hex1 & Hex2 & Hzero & _ & Hbal).
  exists s1, s2. split; [exact Hex1|]. split; [exact Hex2|].
  split; [exact Hzero|].
  rewrite Hbal. vm_compute. reflexivity.
Defined.

(** X9 at a concrete input: four orders placed on one long unit at 3000
    and matched against high 3050, low 2950. *)
Lemma matching_consumes_best_priced_prefix_at_quotes :
  quotes_ok four_quotes
  /\ exists (filled_count : Z) (s' : Exchange) (kb ks : nat),
      fast_order_matching
        (place_orders_batch (long_one_at_3000 3000) four_quotes)
        3050 2950 1704067224
      = Ok (filled_count, s')
      /\ filled_count = (Z.of_nat kb + Z.of_nat ks)%Z
      /\ Forall (fun o => order_price o < 2950) (active_buy_orders s')
      /\ Forall (fun o => 3050 < order_price o) (active_sell_orders s').
Proof.
  assert (Hbook : book_ok (long_one_at_3000 3000))
    by (split; [apply side_ok_held; reflexivity | apply side_ok_flat]).
  assert (Hday : payout_day_ok (long_one_at_3000 3000))
    by (intros H; vm_compute in H; discriminate H).
  assert (Hq : quotes_ok four_quotes).
  { repeat (apply Forall_cons; [split; reflexivity|]). apply Forall_nil. }
  split; [exact Hq|].
  destruct (matching_consumes_best_priced_prefix (long_one_at_3000 3000)
              four_quotes 3050 2950 1704067224 Hbook Hday Hq)
    as (n & s' & kb & ks & Hex & _ & _ & Hn & _ & _ & _ & _ & Hb & Hs).
  exists n, s', kb, ks. split; [exact Hex|]. split; [exact Hn|].
  split; [exact Hb | exact Hs].
Defined.

(** X10 at a concrete input: the default configuration on a new exchange
    with balance 700 at price 3000. *)
Lemma dynamic_order_size_clamped_at_3000 :
  (1 <= leverage default_config)%Z
  /\ exists v,
      calculate_dynamic_order_size default_config (new_exchange 700) 3000
      = Ok v
      /\ min_order_amount default_config <= v
      /\ get_equity (new_exchange 700) / 1000 / 3000 <= v.
Proof.
  assert (Hlev : (1 <= leverage default_config)%Z)
    by (vm_compute; discriminate).
  split; [exact Hlev|].
  destruct (dynamic_order_size_clamped default_config (new_exchange 700) 3000
                                       Hlev)
    as (_ & _ & Hsize).
  destruct (Hsize eq_refl) as (v & Hv & Hmin & Hfloor & _).
  { intros H. vm_compute in H. discriminate H. }
  exists v. split; [exact Hv|]. split; [exact Hmin | exact Hfloor].
Defined.

(** X11 at a concrete input: one long unit entered at 3000, marked at
    2800, stop loss 5 percent enabled: the one order closes the long. *)
Lemma position_stop_loss_closes_whole_side_at_2800 :
  book_ok (long_one_at_3000 2800)
  /\ check_position_stop_loss stop_loss_config (long_one_at_3000 2800) 2800
     = Ok [mk_quote "sell_long" 1 2800].
Proof.
  assert (Hbook : book_ok (long_one_at_3000 2800))
    by (split; [apply side_ok_held; reflexivity | apply side_ok_flat]).
  split; [exact Hbook|].
  destruct (position_stop_loss_closes_whole_side stop_loss_config
              (long_one_at_3000 2800) 2800 Hbook)
    as (orders & long_hit & short_hit & Hrun & Hlist & Hlong & Hshort & _).
  assert (Hl : long_hit = true).
  { apply Hlong. split; [reflexivity|].
    split; [reflexivity | vm_compute; discriminate]. }
  assert (Hs : short_hit = false).
  { destruct short_hit; [|reflexivity].
    destruct (proj1 Hshort eq_refl) as [_ [Hheld _]].
    vm_compute in Hheld. discriminate Hheld. }
  rewrite Hl, Hs in Hlist. rewrite Hrun, Hlist. reflexivity.
Defined.

(** X12 at a concrete input: one long unit, nothing short, with a monitor
    that reads 40 percent. *)
Lemma position_balance_only_reduces_at_one_long :
  positions_nonneg (long_one_at_3000 3000)
  /\ 0 <= max_imbalance_ratio default_config
          * position_balance_ratio default_config
  /\ (check_position_balance Qdiv (fun x => x * 100)
        (fun x => Decimal.gtb x 0) Decimal.geb 0 (fun d => d)
        default_config (long_one_at_3000 3000) (Some volatile_monitor) 3000
      = []
      \/ exists amount,
          0 < amount
          /\ ((check_position_balance Qdiv (fun x => x * 100)
                 (fun x => Decimal.gtb x 0) Decimal.geb 0 (fun d => d)
                 default_config (long_one_at_3000 3000)
                 (Some volatile_monitor) 3000
               = [mk_quote "sell_long" amount 3000]
               /\ amount <= long_position (long_one_at_3000 3000)
               /\ amount <= long_position (long_one_at_3000 3000)
                            - short_position (long_one_at_3000 3000))
              \/ (check_position_balance Qdiv (fun x => x * 100)
                    (fun x => Decimal.gtb x 0) Decimal.geb 0 (fun d => d)
                    default_config (long_one_at_3000 3000)
                    (Some volatile_monitor) 3000
                  = [mk_quote "buy_short" amount 3000]
                  /\ amount <= short_position (long_one_at_3000 3000)
                  /\ amount <= short_position (long_one_at_3000 3000)
                               - long_position (long_one_at_3000 3000)))).
Proof.
  assert (Hpos : positions_nonneg (long_one_at_3000 3000))
    by (split; vm_compute; discriminate).
  assert (Hsign : 0 <= max_imbalance_ratio default_config
                       * position_balance_ratio default_config)
    by (vm_compute; discriminate).
  split; [exact Hpos|]. split; [exact Hsign|].
  destruct (position_balance_only_reduces Q Qdiv (fun x => x * 100)
              (fun x => Decimal.gtb x 0) Decimal.geb 0 (fun d => d)
              default_config (long_one_at_3000 3000) (Some volatile_monitor)
              3000 Hpos Hsign)
    as [Hcases _].
  exact Hcases.
Defined.

(** X13 at concrete inputs: the default configuration on a new exchange
    with balance 700 at price 3000, no monitor.  Long after the last order
    the orders fit the book; 10 seconds after it (refresh time 15) the
    order time is kept. *)
Lemma generate_orders_fit_the_book_at_3000 :
  config_ok default_config
  /\ book_ok (new_exchange 700)
  /\ (exists orders t',
         generate_orders Qdiv (fun x => x * 100) (fun x => Decimal.gtb x 0)
                         Decimal.geb 0 (fun d => d)
                         default_config (new_exchange 700) None 0 3000
                         1704067200
         = Ok (orders, t')
         /\ Forall (quote_fits (new_exchange 700) 3000) orders
         /\ NoDup (map quote_side orders))
  /\ exists orders,
      generate_orders Qdiv (fun x => x * 100) (fun x => Decimal.gtb x 0)
                      Decimal.geb 0 (fun d => d)
                      default_config (new_exchange 700) None 1704067190 3000
                      1704067200
      = Ok (orders, 1704067190%Z).
Proof.
  assert (Hcfg : config_ok default_config).
  { split; [vm_compute; discriminate|]. split; [reflexivity|].
    split; [split; [vm_compute; discriminate | reflexivity]|].
    split; split; first [reflexivity | vm_compute; discriminate]. }
  assert (Hbook : book_ok (new_exchange 700))
    by (split; apply side_ok_flat).
  assert (Hp : 0 < 3000) by reflexivity.
  split; [exact Hcfg|]. split; [exact Hbook|].
  split.
  - destruct (generate_orders_fit_the_book Q Qdiv (fun x => x * 100)
                (fun x => Decimal.gtb x 0) Decimal.geb 0 (fun d => d)
                default_config (new_exchange 700) None 0 3000 1704067200
                Hcfg Hbook Hp)
      as (orders & t' & Hrun & Hfit & Hsides & _).
    exists orders, t'. split; [exact Hrun|].
    split; [exact Hfit | exact Hsides].
  - destruct (generate_orders_fit_the_book Q Qdiv (fun x => x * 100)
                (fun x => Decimal.gtb x 0) Decimal.geb 0 (fun d => d)
                default_config (new_exchange 700) None 1704067190 3000
                1704067200 Hcfg Hbook Hp)
      as (orders & t' & Hrun & _ & _ & _ & Hearly & _).
    destruct Hearly as [Hkept _]; [reflexivity|].
    exists orders. rewrite Hrun, Hkept. reflexivity.
Defined.

(** X14 at a concrete input: three sub-points on a new exchange with
    balance 700. *)
Lemma sub_point_loop_is_safe_at_three_points :
  config_ok default_config
  /\ exchange_ok (new_exchange 700)
  /\ exists liquidated s' t',
      run_sub_points Qdiv (fun x => x * 100) (fun x => Decimal.gtb x 0)
                     Decimal.geb 0 (fun d => d)
                     default_config (new_exchange 700) None 0 1704067200 0
                     three_sub_points
      = Ok (liquidated, s', t')
      /\ exchange_ok s'
      /\ margin_balance s' = 700.
Proof.
  assert (Hcfg : config_ok default_config).
  { split; [vm_compute; discriminate|]. split; [reflexivity|].
    split; [split; [vm_compute; discriminate | reflexivity]|].
    split; split; first [reflexivity | vm_compute; discriminate]. }
  assert (Hok : exchange_ok (new_exchange 700)).
  { split; [split; apply side_ok_flat|].
    split; [intros H; vm_compute in H; discriminate H|].
    split; apply Forall_nil. }
  assert (Hall : Forall (fun point : Q * Q * Q => 0 < fst (fst point))
                        three_sub_points).
  { repeat (apply Forall_cons; [reflexivity|]). apply Forall_nil. }
  split; [exact Hcfg|]. split; [exact Hok|].
  destruct (sub_point_loop_is_safe Q Qdiv (fun x => x * 100)
              (fun x => Decimal.gtb x 0) Decimal.geb 0 (fun d => d)
              default_config None 1704067200 three_sub_points
              (new_exchange 700) 0%Z 0%Z Hcfg Hok Hall)
    as (b & s' & t' & Hrun & Hok' & Hmb & _).
  exists b, s', t'. split; [exact Hrun|]. split; [exact Hok' | exact Hmb].
Defined.

(** X15 at a concrete input: one long unit entered at 3000, marked at
    2600 with balance 700: the equity 300 is at the minimum, the run
    stops and the book is flat. *)
Lemma risk_monitor_stops_and_flattens_at_2600 :
  book_ok (long_one_at_3000 2600)
  /\ payout_day_ok (long_one_at_3000 2600)
  /\ exists s' peak',
      risk_monitor risk_config (long_one_at_3000 2600) false 700 1704067260
      = Ok (true, s', peak')
      /\ long_position s' == 0.
Proof.
  assert (Hbook : book_ok (long_one_at_3000 2600))
    by (split; [apply side_ok_held; reflexivity | apply side_ok_flat]).
  assert (Hday : payout_day_ok (long_one_at_3000 2600))
    by (intros H; vm_compute in H; discriminate H).
  split; [exact Hbook|]. split; [exact Hday|].
  destruct (risk_monitor_stops_and_flattens risk_config
              (long_one_at_3000 2600) false 700 1704067260 Hbook Hday)
    as (stopped & s' & peak' & Hrun & _ & _ & _ & Hiff & Hflat & _).
  assert (Hstop : stopped = true).
  { apply Hiff. split; [reflexivity|]. split; [reflexivity|].
    left. vm_compute. discriminate. }
  rewrite Hstop in Hrun.
  exists s', peak'. split; [exact Hrun|].
  destruct (Hflat Hstop) as [Hl _]. exact Hl.
Defined.

(** X17 at a concrete input: two candles on a new exchange with balance
    700. *)
Lemma backtest_loop_is_safe_at_two_candles :
  config_ok default_config
  /\ exchange_ok (bt_exchange initial_backtest)
  /\ Forall (candle_positive (fun x : Q => x)) two_candles
  /\ exists st' n,
      run_candles Decimal.geb Qminus Qabs Decimal.gtb exact_sum exact_div_len
                  Qdiv (fun x => x * 100) (fun x => Decimal.gtb x 0)
                  Decimal.geb 0 (fun d => d) (fun x => x)
                  default_config initial_backtest two_candles
      = Ok st'
      /\ exchange_ok (bt_exchange st')
      /\ (n <= 2)%nat
      /\ margin_balance (bt_exchange st') = 700.
Proof.
  assert (Hcfg : config_ok default_config).
  { split; [vm_compute; discriminate|]. split; [reflexivity|].
    split; [split; [vm_compute; discriminate | reflexivity]|].
    split; split; first [reflexivity | vm_compute; discriminate]. }
  assert (Hok : exchange_ok (bt_exchange initial_backtest)).
  { split; [split; apply side_ok_flat|].
    split; [intros H; vm_compute in H; discriminate H|].
    split; apply Forall_nil. }
  assert (Hprev : 0 < (fun x : Q => x) (bt_prev_close initial_backtest))
    by reflexivity.
  assert (Hall : Forall (candle_positive (fun x : Q => x)) two_candles).
  { repeat (apply Forall_cons;
            [split; [reflexivity|]; split; [reflexivity|];
             split; reflexivity|]).
    apply Forall_nil. }
  split; [exact Hcfg|]. split; [exact Hok|]. split; [exact Hall|].
  destruct (backtest_loop_is_safe Q Decimal.geb Qminus Qabs Decimal.gtb
              exact_sum exact_div_len Qdiv (fun x => x * 100)
              (fun x => Decimal.gtb x 0) Decimal.geb 0 (fun d => d)
              (fun x => x) default_config two_candles initial_backtest
              Hcfg Hok Hprev eq_refl eq_refl Hall)
    as (st' & n & Hrun & Hok' & Hmb & _ & Hn & _).
  exists st', n. split; [exact Hrun|]. split; [exact Hok'|].
  split; [exact Hn | exact Hmb].
Defined.

(** X19 at a concrete input: one long unit entered and marked at 3000,
    balance 700, sold at 3010 with maker fee 0: the equity becomes 710. *)
Lemma fill_changes_equity_at_3010 :
  positions_nonneg (long_one_at_3000 3000)
  /\ payout_day_ok (long_one_at_3000 3000)
  /\ exists s',
      execute_fast_trade (long_one_at_3000 3000) "sell_long" 1 3010
                         1704067212
      = Ok s'
      /\ get_equity s' == 710.
Proof.
  assert (Hpos : positions_nonneg (long_one_at_3000 3000))
    by (split; vm_compute; discriminate).
  assert (Hday : payout_day_ok (long_one_at_3000 3000))
    by (intros H; vm_compute in H; discriminate H).
  assert (Hq : 0 <= 1) by (vm_compute; discriminate).
  split; [exact Hpos|]. split; [exact Hday|].
  destruct (fill_changes_equity_by_fee_and_gain (long_one_at_3000 3000)
              "sell_long" 1 3010 1704067212 Hpos Hday Hq)
    as (s' & Hrun & Heq).
  exists s'. split; [exact Hrun|].
  rewrite Heq. vm_compute. reflexivity.
Defined.
